(** * uvicorn/workers.py: the gunicorn worker classes of uvicorn

    A shallow embedding of [UvicornWorker] (asyncio / uvloop event loop) and
    [UvicornTrioWorker] (trio nursery), and the lifecycle properties of the
    two classes.

    The event loop, the operating system and the protocol instances are the
    environment: what they do to a worker arrives as an [Event]; what the
    worker does to them is recorded as a list of [Effect]s, in program
    order. *)

From Stdlib Require Import ZArith List String Bool Lia.
Import ListNotations.
Local Open Scope Z_scope.

(** ** Data shared by the two worker classes *)

(** The six signals the workers register a handler for. *)
Inductive Signal : Type :=
  | SIGQUIT | SIGTERM | SIGINT | SIGWINCH | SIGUSR1 | SIGABRT.

(** A pre-bound listening socket handed over by the arbiter, and the server
    object [create_server] returns for it. *)
Definition Socket := nat.
Definition Server := nat.

(** The per-listener dict [{"total_requests": 0}].  The dict is shared with
    the protocol instances of its listener, which are its only writers; the
    worker reads it through [self.servers]. *)
Record State : Type := mkState { total_requests : Z }.

(** The part of gunicorn's configuration object the workers read. *)
Record Cfg : Type := mkCfg {
  is_ssl      : bool;
  ssl_version : Z;
  certfile    : option string;
  keyfile     : option string;
  cert_reqs   : Z;
  ca_certs    : option string;
  ciphers     : option string
}.

(** An [ssl.SSLContext], as the calls made on it leave it. *)
Record SSLContext : Type := mkSSLContext {
  protocol         : Z;
  cert_chain       : option (option string * option string);
  verify_mode      : Z;
  verify_locations : list string;
  cipher_list      : option string
}.

(** Which calls of the [ssl] module succeed is decided outside the worker
    (the values the module accepts, files on disk, the OpenSSL build):
    [ssl.SSLContext(protocol)], [ctx.load_cert_chain(certfile, keyfile)],
    the setter [ctx.verify_mode = mode] on a context of the given protocol,
    [ctx.load_verify_locations(cafile)] and [ctx.set_ciphers(ciphers)]. *)
Record SslEnv : Type := mkSslEnv {
  ssl_context_ok           : Z -> bool;
  load_cert_chain_ok       : option string -> option string -> bool;
  verify_mode_ok           : Z -> Z -> bool;
  load_verify_locations_ok : string -> bool;
  set_ciphers_ok           : string -> bool
}.

Inductive Exn : Type :=
  | ProtocolError         (* raised by ssl.SSLContext(cfg.ssl_version) *)
  | CertChainError        (* raised by ctx.load_cert_chain *)
  | VerifyModeError       (* raised by ctx.verify_mode = cfg.cert_reqs *)
  | VerifyLocationsError  (* raised by ctx.load_verify_locations *)
  | CiphersError          (* raised by ctx.set_ciphers *)
  | ServerStartError.     (* raised by create_server *)

Inductive LogMsg : Type :=
  | MaxRequestsExceeded   (* "Max requests exceeded, shutting down: %s" *)
  | ParentChanged.        (* "Parent changed, shutting down: %s" *)

(** What a worker does to its environment. *)
Inductive Effect : Type :=
  | Getpid                                  (* os.getpid() *)
  | Getppid                                 (* os.getppid() *)
  | ProtocolTick                            (* self.protocol_class.tick() *)
  | Notify                                  (* self.notify() *)
  | LogInfo (m : LogMsg)                    (* self.log.info(...) *)
  | Sleep (secs : Z)                        (* await asyncio.sleep(secs) *)
  | CreateServer (sock : Socket) (ssl : option SSLContext)
  | Close (srv : Server)                    (* server.close() *)
  | WaitClosed (srv : Server)               (* await server.wait_closed() *)
  | LoopStop                                (* loop.stop() *)
  | WorkerInt                               (* self.cfg.worker_int(self) *)
  | WorkerAbort                             (* self.cfg.worker_abort(self) *)
  | Inherited (s : Signal)                  (* a handler of gunicorn's Worker *)
  | KilledSet                               (* self.killed.set() *)
  | CancelScope.                            (* nursery.cancel_scope.cancel() *)

(** What the environment does to a worker. *)
Inductive Event : Type :=
  | EvSignals (batch : list Signal)   (* signals delivered, in dispatch order *)
  | EvCreated (r : Server + Exn)      (* the awaited create_server completes *)
  | EvTimer                           (* the awaited sleep elapses *)
  | EvClosed                          (* the awaited wait_closed resolves *)
  | EvRequest (i : nat)               (* listener i: state["total_requests"] += 1 *)
  | EvReparent (p : Z).               (* os.getppid() returns p from now on *)

(** The attributes a worker inherits from [gunicorn.workers.base.Worker]. *)
Record Base : Type := mkBase {
  alive        : bool;
  ppid         : Z;
  max_requests : Z;
  sockets      : list Socket;
  cfg          : Cfg
}.

Definition base_set_alive (b : bool) (x : Base) : Base :=
  mkBase b (ppid x) (max_requests x) (sockets x) (cfg x).

(** The signal handlers the two classes inherit and do not override.  They
    are methods of the base class, which knows nothing of [servers],
    [exit_code] or [killed]. *)
Record BaseHandlers : Type := mkBaseHandlers {
  base_handle_exit  : Base -> Base;
  base_handle_winch : Base -> Base;
  base_handle_usr1  : Base -> Base
}.

(** The handlers of gunicorn's own [Worker]: [handle_exit] clears [alive],
    [handle_winch] and [handle_usr1] leave the attributes above alone. *)
Definition gunicorn_handlers : BaseHandlers :=
  mkBaseHandlers (base_set_alive false) (fun x => x) (fun x => x).

(** Truth value of a Python int and of an optional Python str. *)
Definition truthy_int (n : Z) : bool := negb (n =? 0).

Definition truthy_str (s : option string) : bool :=
  match s with
  | Some s => negb (String.eqb s EmptyString)
  | None => false
  end.

Definition state0 : State := mkState 0.

(** [sum([state["total_requests"] for server, state in servers])] *)
Fixpoint req_count (servers : list (Server * State)) : Z :=
  match servers with
  | [] => 0
  | (_, st) :: rest => total_requests st + req_count rest
  end.

(** [state["total_requests"] += 1] on the dict of listener [i]. *)
Fixpoint bump (i : nat) (servers : list (Server * State)) : list (Server * State) :=
  match servers, i with
  | [], _ => []
  | (srv, st) :: rest, O => (srv, mkState (total_requests st + 1)) :: rest
  | p :: rest, S i' => p :: bump i' rest
  end.

(** [create_ssl_context]: the two classes carry the same method body.
    Each of its five calls into the [ssl] module can raise; the first that
    does ends the method. *)
Definition create_ssl_context (env : SslEnv) (c : Cfg) : SSLContext + Exn :=
  if negb (ssl_context_ok env (ssl_version c)) then inr ProtocolError
  else
    let ctx := mkSSLContext (ssl_version c) None 0 [] None in
    if negb (load_cert_chain_ok env (certfile c) (keyfile c)) then inr CertChainError
    else
      let ctx := mkSSLContext (protocol ctx) (Some (certfile c, keyfile c))
                              (verify_mode ctx) (verify_locations ctx) (cipher_list ctx) in
      if negb (verify_mode_ok env (protocol ctx) (cert_reqs c)) then inr VerifyModeError
      else
        let ctx := mkSSLContext (protocol ctx) (cert_chain ctx)
                                (cert_reqs c) (verify_locations ctx) (cipher_list ctx) in
        match
          (if truthy_str (ca_certs c) then
             match ca_certs c with
             | Some ca =>
                 if load_verify_locations_ok env ca
                 then inl (mkSSLContext (protocol ctx) (cert_chain ctx) (verify_mode ctx)
                                        (verify_locations ctx ++ [ca]) (cipher_list ctx))
                 else inr VerifyLocationsError
             | None => inl ctx
             end
           else inl ctx)
        with
        | inr e => inr e
        | inl ctx =>
            if truthy_str (ciphers c) then
              match ciphers c with
              | Some cs =>
                  if set_ciphers_ok env cs
                  then inl (mkSSLContext (protocol ctx) (cert_chain ctx) (verify_mode ctx)
                                         (verify_locations ctx) (Some cs))
                  else inr CiphersError
              | None => inl ctx
              end
            else inl ctx
        end.

(** [self.create_ssl_context(self.cfg) if self.cfg.is_ssl else None] *)
Definition ssl_ctx_of (env : SslEnv) (c : Cfg) : option SSLContext + Exn :=
  if is_ssl c then
    match create_ssl_context env c with
    | inl ctx => inl (Some ctx)
    | inr e => inr e
    end
  else inl None.

(** ** class UvicornWorker *)

Module UvicornWorker.

Record Worker : Type := mkWorker {
  base      : Base;
  servers   : list (Server * State);
  exit_code : Z
}.

Definition set_alive (b : bool) (w : Worker) : Worker :=
  mkWorker (base_set_alive b (base w)) (servers w) (exit_code w).
Definition set_exit_code (c : Z) (w : Worker) : Worker :=
  mkWorker (base w) (servers w) c.
Definition set_servers (l : list (Server * State)) (w : Worker) : Worker :=
  mkWorker (base w) l (exit_code w).
Definition set_base (x : Base) (w : Worker) : Worker :=
  mkWorker x (servers w) (exit_code w).

(** [__init__]: [self.servers = []], [self.exit_code = 0]. *)
Definition init (x : Base) : Worker := mkWorker x [] 0.

(** Where the [create_servers] task stands. *)
Inductive CreatePc : Type :=
  | CreateAwait (sock : Socket) (rest : list Socket) (ssl_ctx : option SSLContext)
  | CreateReturned
  | CreateRaised (e : Exn).

(** Where the [tick] task stands: in [asyncio.sleep] (it goes on at the
    test of its [while] with the [cycle] it holds), in [wait_closed] of
    [self.servers[i]], or returned (after [loop.stop()]). *)
Inductive TickPc : Type :=
  | TickSleeping (cycle : Z)
  | TickWaitClosed (i : nat)
  | TickReturned.

Section WithBase.

Variable G : BaseHandlers.

Definition handle_quit (w : Worker) : Worker * list Effect :=
  let w := set_alive false w in
  (w, [WorkerInt]).

Definition handle_abort (w : Worker) : Worker * list Effect :=
  let w := set_alive false w in
  let w := set_exit_code 1 w in
  (w, [WorkerAbort]).

Definition handle_exit (w : Worker) : Worker * list Effect :=
  (set_base (base_handle_exit G (base w)) w, [Inherited SIGTERM]).
Definition handle_winch (w : Worker) : Worker * list Effect :=
  (set_base (base_handle_winch G (base w)) w, [Inherited SIGWINCH]).
Definition handle_usr1 (w : Worker) : Worker * list Effect :=
  (set_base (base_handle_usr1 G (base w)) w, [Inherited SIGUSR1]).

(** [init_signals]: the handler [loop.add_signal_handler] registers for
    each signal. *)
Definition init_signals (s : Signal) : Worker -> Worker * list Effect :=
  match s with
  | SIGQUIT  => handle_quit
  | SIGTERM  => handle_exit
  | SIGINT   => handle_quit
  | SIGWINCH => handle_winch
  | SIGUSR1  => handle_usr1
  | SIGABRT  => handle_abort
  end.

(** The loop runs the callbacks of the delivered signals one by one. *)
Fixpoint deliver (batch : list Signal) (w : Worker) : Worker * list Effect :=
  match batch with
  | [] => (w, [])
  | s :: rest =>
      let '(w, e1) := init_signals s w in
      let '(w, e2) := deliver rest w in
      (w, e1 ++ e2)
  end.

(** [create_servers], head of [for sock in self.sockets]: a fresh state
    dict, then [await loop.create_server(protocol, sock=sock, ssl=ssl_ctx)]. *)
Definition create_next (w : Worker) (socks : list Socket) (ssl_ctx : option SSLContext)
  : Worker * CreatePc * list Effect :=
  match socks with
  | [] => (w, CreateReturned, [])
  | sock :: rest => (w, CreateAwait sock rest ssl_ctx, [CreateServer sock ssl_ctx])
  end.

(** [create_servers] from its first line to its first [await]. *)
Definition create_servers (env : SslEnv) (w : Worker) : Worker * CreatePc * list Effect :=
  match ssl_ctx_of env (cfg (base w)) with
  | inr e => (w, CreateRaised e, [])
  | inl ssl_ctx => create_next w (sockets (base w)) ssl_ctx
  end.

(** [create_servers] resumed with the outcome of the awaited
    [create_server]: [self.servers.append((server, state))] and the next
    socket, or the exception leaves the coroutine. *)
Definition create_resume (w : Worker) (rest : list Socket) (ssl_ctx : option SSLContext)
           (r : Server + Exn) : Worker * CreatePc * list Effect :=
  match r with
  | inl server => create_next (set_servers (servers w ++ [(server, state0)]) w) rest ssl_ctx
  | inr e => (w, CreateRaised e, [])
  end.

(** [tick], the loop [for server, state in self.servers] entered at
    index [i]: [server.close()] and [await server.wait_closed()], or
    past the end of the list [loop.stop()]. *)
Definition drain_next (w : Worker) (i : nat) : TickPc * list Effect :=
  match nth_error (servers w) i with
  | Some (server, _) => (TickWaitClosed i, [Close server; WaitClosed server])
  | None => (TickReturned, [LoopStop])
  end.

(** [if cycle == 0: self.notify()] *)
Definition heartbeat (cycle : Z) : list Effect :=
  if cycle =? 0 then [Notify] else [].

Definition prepend (es : list Effect) (r : Worker * TickPc * list Effect)
  : Worker * TickPc * list Effect :=
  let '(w, pc, es') := r in (w, pc, es ++ es').

(** [tick] from the test of [while self.alive] to the next [await]. *)
Fixpoint tick_while (fuel : nat) (os_ppid : Z) (w : Worker) (cycle : Z)
  : option (Worker * TickPc * list Effect) :=
  match fuel with
  | O => None
  | S fuel =>
      if alive (base w) then
        let cycle := (cycle + 1) mod 10 in
        let beat := heartbeat cycle in
        let count := req_count (servers w) in
        if truthy_int (max_requests (base w)) && (count >? max_requests (base w)) then
          let w := set_alive false w in
          option_map (prepend (ProtocolTick :: beat ++ [LogInfo MaxRequestsExceeded]))
                     (tick_while fuel os_ppid w cycle)
        else if negb (ppid (base w) =? os_ppid) then
          let w := set_alive false w in
          option_map (prepend (ProtocolTick :: beat ++ [Getppid; LogInfo ParentChanged]))
                     (tick_while fuel os_ppid w cycle)
        else
          Some (w, TickSleeping cycle, ProtocolTick :: beat ++ [Getppid; Sleep 1])
      else
        let '(pc, es) := drain_next w 0 in Some (w, pc, es)
  end.

(** The test of the recycling branch:
    [self.max_requests and req_count > self.max_requests]. *)
Definition max_test (w : Worker) : bool :=
  truthy_int (max_requests (base w))
  && (req_count (servers w) >? max_requests (base w)).

(** The test of the orphan branch: [self.ppid != os.getppid()]. *)
Definition parent_test (parent : Z) (w : Worker) : bool :=
  negb (ppid (base w) =? parent).

(** [cycle = (cycle + 1) % 10] *)
Definition next_cycle (cycle : Z) : Z := (cycle + 1) mod 10.

(** Two tests of [while self.alive] are the most one resumption makes:
    a pass through the body either suspends in [sleep] or clears
    [alive]. *)
Definition tick_fuel : nat := 2.

(** The event loop with its two tasks. *)
Record Loop : Type := mkLoop {
  worker    : Worker;
  os_ppid   : Z;
  create_pc : CreatePc;
  tick_pc   : TickPc;
  trace     : list Effect
}.

(** [tick] resumed at the test of its [while]. *)
Definition tick_resume (l : Loop) (cycle : Z) : Loop :=
  match tick_while tick_fuel (os_ppid l) (worker l) cycle with
  | Some (w, pc, es) => mkLoop w (os_ppid l) (create_pc l) pc (trace l ++ es)
  | None => l
  end.

(** [run]: the two tasks are created, [create_servers] first, and
    [loop.run_forever()] runs each to its first [await].  [run_begin] is
    the loop when [create_servers] has reached its first [await] and [tick]
    has run [pid = os.getpid()] and [cycle = 0]: it goes on at the test of
    its [while] with cycle 0, which [run_start] lets it do. *)
Definition run_begin (env : SslEnv) (x : Base) (parent : Z) : Loop :=
  let '(w, cpc, es) := create_servers env (init x) in
  mkLoop w parent cpc (TickSleeping 0) (es ++ [Getpid]).

Definition run_start (env : SslEnv) (x : Base) (parent : Z) : Loop :=
  tick_resume (run_begin env x parent) 0.

Definition stopped (l : Loop) : bool :=
  match tick_pc l with TickReturned => true | _ => false end.

(** One event handled by the running loop. An event nobody waits for
    changes nothing. *)
Definition step (l : Loop) (ev : Event) : Loop :=
  if stopped l then l else
  match ev with
  | EvSignals batch =>
      let '(w, es) := deliver batch (worker l) in
      mkLoop w (os_ppid l) (create_pc l) (tick_pc l) (trace l ++ es)
  | EvCreated r =>
      match create_pc l with
      | CreateAwait _ rest ssl_ctx =>
          let '(w, cpc, es) := create_resume (worker l) rest ssl_ctx r in
          mkLoop w (os_ppid l) cpc (tick_pc l) (trace l ++ es)
      | _ => l
      end
  | EvTimer =>
      match tick_pc l with
      | TickSleeping cycle => tick_resume l cycle
      | _ => l
      end
  | EvClosed =>
      match tick_pc l with
      | TickWaitClosed i =>
          let '(pc, es) := drain_next (worker l) (S i) in
          mkLoop (worker l) (os_ppid l) (create_pc l) pc (trace l ++ es)
      | _ => l
      end
  | EvRequest i =>
      mkLoop (set_servers (bump i (servers (worker l))) (worker l))
             (os_ppid l) (create_pc l) (tick_pc l) (trace l)
  | EvReparent p =>
      mkLoop (worker l) p (create_pc l) (tick_pc l) (trace l)
  end.

Definition steps (l : Loop) (evs : list Event) : Loop := fold_left step evs l.

(** [run] under the events [evs]. *)
Definition run (env : SslEnv) (x : Base) (parent : Z) (evs : list Event) : Loop :=
  steps (run_start env x parent) evs.

(** [sys.exit(self.exit_code)], reached once [loop.stop()] has ended
    [run_forever]. *)
Definition exit_status (l : Loop) : option Z :=
  if stopped l then Some (exit_code (worker l)) else None.

End WithBase.

End UvicornWorker.

(** ** class UvicornTrioWorker *)

Module UvicornTrioWorker.

Record Worker : Type := mkWorker {
  base      : Base;
  servers   : list (Server * State);
  exit_code : Z;
  killed    : bool          (* the trio.Event: set or not *)
}.

Definition set_alive (b : bool) (w : Worker) : Worker :=
  mkWorker (base_set_alive b (base w)) (servers w) (exit_code w) (killed w).
Definition set_exit_code (c : Z) (w : Worker) : Worker :=
  mkWorker (base w) (servers w) c (killed w).
Definition set_servers (l : list (Server * State)) (w : Worker) : Worker :=
  mkWorker (base w) l (exit_code w) (killed w).
Definition set_base (x : Base) (w : Worker) : Worker :=
  mkWorker x (servers w) (exit_code w) (killed w).
Definition killed_set (w : Worker) : Worker :=
  mkWorker (base w) (servers w) (exit_code w) true.

(** [__init__]: no servers, exit code 0, a fresh event. *)
Definition init (x : Base) : Worker := mkWorker x [] 0 false.

(** Where [main] stands: inside [await self.create_servers(nursery)], in
    [await self.killed.wait()], or left, by return or by exception. *)
Inductive MainPc : Type :=
  | MainCreating (sock : Socket) (rest : list Socket) (ssl_ctx : option SSLContext)
  | MainWaitKilled
  | MainReturned
  | MainRaised (e : Exn).

Section WithBase.

Variable G : BaseHandlers.

Definition handle_quit (w : Worker) : Worker * list Effect :=
  let w := set_alive false w in
  let w := killed_set w in
  (w, [KilledSet; WorkerInt]).

Definition handle_abort (w : Worker) : Worker * list Effect :=
  let w := set_alive false w in
  let w := killed_set w in
  let w := set_exit_code 1 w in
  (w, [KilledSet; WorkerAbort]).

Definition handle_exit (w : Worker) : Worker * list Effect :=
  (set_base (base_handle_exit G (base w)) w, [Inherited SIGTERM]).
Definition handle_winch (w : Worker) : Worker * list Effect :=
  (set_base (base_handle_winch G (base w)) w, [Inherited SIGWINCH]).
Definition handle_usr1 (w : Worker) : Worker * list Effect :=
  (set_base (base_handle_usr1 G (base w)) w, [Inherited SIGUSR1]).

(** The dict [signals] of [handle_signals]. *)
Definition signals (s : Signal) : Worker -> Worker * list Effect :=
  match s with
  | SIGQUIT  => handle_quit
  | SIGTERM  => handle_exit
  | SIGINT   => handle_quit
  | SIGWINCH => handle_winch
  | SIGUSR1  => handle_usr1
  | SIGABRT  => handle_abort
  end.

(** [handle_signals], one batch: [for signum in batch: signals[signum](signum, None)]. *)
Fixpoint handle_signals (batch : list Signal) (w : Worker) : Worker * list Effect :=
  match batch with
  | [] => (w, [])
  | signum :: rest =>
      let '(w, e1) := signals signum w in
      let '(w, e2) := handle_signals rest w in
      (w, e1 ++ e2)
  end.

(** [main] after [create_servers]: [await self.killed.wait()] returns at
    once when the event is set, and the scope is cancelled. *)
Definition wait_killed (w : Worker) : MainPc * list Effect :=
  if killed w then (MainReturned, [CancelScope]) else (MainWaitKilled, []).

(** Head of [for sock in self.sockets] in [create_servers]. *)
Definition create_next (w : Worker) (socks : list Socket) (ssl_ctx : option SSLContext)
  : Worker * MainPc * list Effect :=
  match socks with
  | [] => let '(pc, es) := wait_killed w in (w, pc, es)
  | sock :: rest => (w, MainCreating sock rest ssl_ctx, [CreateServer sock ssl_ctx])
  end.

Definition create_servers (env : SslEnv) (w : Worker) : Worker * MainPc * list Effect :=
  match ssl_ctx_of env (cfg (base w)) with
  | inr e => (w, MainRaised e, [])
  | inl ssl_ctx => create_next w (sockets (base w)) ssl_ctx
  end.

Definition create_resume (w : Worker) (rest : list Socket) (ssl_ctx : option SSLContext)
           (r : Server + Exn) : Worker * MainPc * list Effect :=
  match r with
  | inl server => create_next (set_servers (servers w ++ [(server, state0)]) w) rest ssl_ctx
  | inr e => (w, MainRaised e, [])
  end.

(** [trio.run(main)] in progress. *)
Record Run : Type := mkRun {
  worker  : Worker;
  os_ppid : Z;
  main_pc : MainPc;
  trace   : list Effect
}.

Definition run_start (env : SslEnv) (x : Base) (parent : Z) : Run :=
  let '(w, pc, es) := create_servers env (init x) in
  mkRun w parent pc es.

Definition finished (r : Run) : bool :=
  match main_pc r with
  | MainReturned | MainRaised _ => true
  | _ => false
  end.

(** One event.  There is no timer and no [wait_closed] anybody waits
    for: the class has no [tick]. *)
Definition step (r : Run) (ev : Event) : Run :=
  if finished r then r else
  match ev with
  | EvSignals batch =>
      let '(w, es) := handle_signals batch (worker r) in
      match main_pc r with
      | MainWaitKilled =>
          let '(pc, es') := wait_killed w in
          mkRun w (os_ppid r) pc (trace r ++ es ++ es')
      | pc => mkRun w (os_ppid r) pc (trace r ++ es)
      end
  | EvCreated res =>
      match main_pc r with
      | MainCreating _ rest ssl_ctx =>
          let '(w, pc, es) := create_resume (worker r) rest ssl_ctx res in
          mkRun w (os_ppid r) pc (trace r ++ es)
      | _ => r
      end
  | EvTimer => r
  | EvClosed => r
  | EvRequest i =>
      mkRun (set_servers (bump i (servers (worker r))) (worker r))
            (os_ppid r) (main_pc r) (trace r)
  | EvReparent p => mkRun (worker r) p (main_pc r) (trace r)
  end.

Definition steps (r : Run) (evs : list Event) : Run := fold_left step evs r.

Definition run (env : SslEnv) (x : Base) (parent : Z) (evs : list Event) : Run :=
  steps (run_start env x parent) evs.

(** [sys.exit(self.exit_code)], reached when [trio.run(main)] returns;
    an exception out of [main] passes it by. *)
Definition exit_status (r : Run) : option Z :=
  match main_pc r with
  | MainReturned => Some (exit_code (worker r))
  | _ => None
  end.

End WithBase.

End UvicornTrioWorker.

(** ** What the supervisor can observe of a run *)

(** The lifecycle effects a supervisor sees of either class: the heartbeat,
    the log lines of the recycling and orphan policies, the hooks. *)
Definition lifecycle_effect (e : Effect) : bool :=
  match e with
  | Notify | LogInfo _ | WorkerInt | WorkerAbort => true
  | _ => false
  end.

Definition observable (trace : list Effect) : list Effect :=
  filter lifecycle_effect trace.

Definition is_log (e : Effect) : bool :=
  match e with LogInfo _ => true | _ => false end.

Definition is_close (e : Effect) : bool :=
  match e with Close _ => true | _ => false end.

(** The effects of draining the listeners [l] one after the other. *)
Fixpoint drain_effects (l : list (Server * State)) : list Effect :=
  match l with
  | [] => [LoopStop]
  | (server, _) :: rest => Close server :: WaitClosed server :: drain_effects rest
  end.

(** A configuration without TLS, an [ssl] module in which every call
    succeeds and one in which every call raises. *)
Definition plain_cfg : Cfg := mkCfg false 2 None None 0 None None.
Definition ssl_ok : SslEnv :=
  mkSslEnv (fun _ => true) (fun _ _ => true) (fun _ _ => true)
           (fun _ => true) (fun _ => true).
Definition ssl_broken : SslEnv :=
  mkSslEnv (fun _ => false) (fun _ _ => false) (fun _ _ => false)
           (fun _ => false) (fun _ => false).

(** The effects of the health check of [tick]: heartbeat, policy log
    lines, the sleep between two checks. *)
Definition policy_effect (e : Effect) : bool :=
  match e with
  | ProtocolTick | Notify | Getppid | LogInfo _ | Sleep _ => true
  | _ => false
  end.

(** A trace without any effect of the health check. *)
Definition quiet (tr : list Effect) : Prop :=
  Forall (fun e => policy_effect e = false) tr.

(** The exit code [code] goes with the trace [tr]: 1 when the abort hook
    was called, 0 when it was not. *)
Definition tracks_abort (code : Z) (tr : list Effect) : Prop :=
  (code = 1 /\ In WorkerAbort tr) \/ (code = 0 /\ ~ In WorkerAbort tr).

(** A handler call or a task step that leaves the code [c'] after [c] and
    adds the effects [es] either ran the abort path or left the code alone. *)
Definition abort_or_keep (c c' : Z) (es : list Effect) : Prop :=
  (c' = 1 /\ In WorkerAbort es) \/ (c' = c /\ ~ In WorkerAbort es).

(** The signals whose handler asks the worker to shut down: the two bound
    to [handle_quit] and the one bound to [handle_abort]. *)
Definition requests_shutdown (s : Signal) : bool :=
  match s with
  | SIGQUIT | SIGINT | SIGABRT => true
  | _ => false
  end.

(** The effects a trace [after] holds beyond its earlier state [before]. *)
Definition added (before after : list Effect) : list Effect :=
  skipn (List.length before) after.

Definition is_sleep (e : Effect) : bool :=
  match e with Sleep _ => true | _ => false end.

Definition is_getppid (e : Effect) : bool :=
  match e with Getppid => true | _ => false end.

(** The effects of the drain: [close], [wait_closed], [loop.stop()]. *)
Definition is_drain (e : Effect) : bool :=
  match e with Close _ | WaitClosed _ | LoopStop => true | _ => false end.

Definition is_create (e : Effect) : bool :=
  match e with CreateServer _ _ => true | _ => false end.

(** Every listener the trace starts is started without a TLS context. *)
Definition plaintext (tr : list Effect) : Prop :=
  forall sock ssl, In (CreateServer sock ssl) tr -> ssl = None.

(** What a loop without TLS keeps true: the listeners started so far are
    plaintext, and so is the one [create_servers] waits for. *)
Definition plain_loop (l : UvicornWorker.Loop) : Prop :=
  plaintext (UvicornWorker.trace l)
  /\ forall sock rest ssl,
       UvicornWorker.create_pc l = UvicornWorker.CreateAwait sock rest ssl -> ssl = None.

(** The same of a run of the trio class. *)
Definition plain_run (r : UvicornTrioWorker.Run) : Prop :=
  plaintext (UvicornTrioWorker.trace r)
  /\ forall sock rest ssl,
       UvicornTrioWorker.main_pc r = UvicornTrioWorker.MainCreating sock rest ssl ->
       ssl = None.

(** ** Sample workers and runs *)

(** A worker forked by process 100, recycled after one request, with one
    socket or with two. *)
Definition base_one : Base := mkBase true 100 1 [7%nat] plain_cfg.
Definition base_two : Base := mkBase true 100 1 [7%nat; 8%nat] plain_cfg.

(** A configuration with TLS, a CA bundle and a cipher list. *)
Definition tls_cfg : Cfg :=
  mkCfg true 2 (Some "server.crt"%string) (Some "server.key"%string) 2
        (Some "ca.pem"%string) (Some "HIGH"%string).

(** The listener starts, two requests complete, the sleep ends, the
    listener drains. *)
Definition recycle_events : list Event :=
  [EvCreated (inl 40%nat); EvRequest 0; EvRequest 0; EvTimer; EvClosed].

(** The listener starts, the worker is re-parented to process 1, the sleep
    ends, the listener drains. *)
Definition orphan_events : list Event :=
  [EvCreated (inl 40%nat); EvReparent 1; EvTimer; EvClosed].

(** Nine sleeps end: with the first pass at start-up, ten health checks. *)
Definition heartbeat_events : list Event := repeat EvTimer 9.

(** Both policies at once: two requests and a new parent before the sleep
    ends. *)
Definition both_events : list Event :=
  [EvCreated (inl 40%nat); EvRequest 0; EvRequest 0; EvReparent 1].

(** The first of two listeners starts, the second fails to. *)
Definition failing_start_events : list Event :=
  [EvCreated (inl 40%nat); EvCreated (inr ServerStartError)].

(** ** Counting and classifying effects *)

Definition is_notify (e : Effect) : bool :=
  match e with Notify => true | _ => false end.

Definition is_protocol_tick (e : Effect) : bool :=
  match e with ProtocolTick => true | _ => false end.

Definition is_cancel (e : Effect) : bool :=
  match e with CancelScope => true | _ => false end.

Definition is_max_log (e : Effect) : bool :=
  match e with LogInfo MaxRequestsExceeded => true | _ => false end.

(** How many effects of a trace [f] accepts. *)
Definition count (f : Effect -> bool) (tr : list Effect) : Z :=
  Z.of_nat (List.length (filter f tr)).

Definition is_abort_signal (s : Signal) : bool :=
  match s with SIGABRT => true | _ => false end.

(** An event that delivers none of SIGQUIT, SIGINT, SIGABRT. *)
Definition calm_event (ev : Event) : bool :=
  match ev with
  | EvSignals batch => negb (existsb requests_shutdown batch)
  | _ => true
  end.

(** [server.close()] and [await server.wait_closed()] of one listener. *)
Definition close_wait (srv : Server) : list Effect := [Close srv; WaitClosed srv].

(** The drain effects a [tick] standing at [pc] has behind it, [ids] being
    the servers of [self.servers] in list order. *)
Definition drained (pc : UvicornWorker.TickPc) (ids : list Server) : list Effect :=
  match pc with
  | UvicornWorker.TickSleeping _ => []
  | UvicornWorker.TickWaitClosed i => flat_map close_wait (firstn (S i) ids)
  | UvicornWorker.TickReturned => flat_map close_wait ids ++ [LoopStop]
  end.

(** The events of [n] listeners starting one after the other. *)
Definition started (srvs : list Server) : list Event :=
  map (fun srv => EvCreated (inl srv)) srvs.

(** A strict [ssl] module: it accepts the protocol constants 2 to 5, 16
    and 17 and the verification modes 0 to 2 (CERT_NONE, CERT_OPTIONAL,
    CERT_REQUIRED) and raises ValueError for any other value; the
    certificate loads; no CA file and no cipher string is accepted. *)
Definition ssl_strict : SslEnv :=
  mkSslEnv (fun v => ((2 <=? v) && (v <=? 5)) || (v =? 16) || (v =? 17))
           (fun _ _ => true)
           (fun _ m => (0 <=? m) && (m <=? 2))
           (fun _ => false) (fun _ => false).

(** TLS configurations: [ca_certs] and [ciphers] given as empty strings;
    a verification mode and a protocol version the module does not know. *)
Definition empty_strings_cfg : Cfg :=
  mkCfg true 2 (Some "server.crt"%string) (Some "server.key"%string) 2
        (Some EmptyString) (Some EmptyString).
Definition bad_mode_cfg : Cfg :=
  mkCfg true 2 (Some "server.crt"%string) (Some "server.key"%string) 7 None None.
Definition bad_version_cfg : Cfg :=
  mkCfg true 99 (Some "server.crt"%string) (Some "server.key"%string) 2 None None.
Definition base_bad_mode : Base := mkBase true 100 0 [7%nat; 8%nat] bad_mode_cfg.
Definition base_tls : Base := mkBase true 100 0 [7%nat; 8%nat] tls_cfg.

(** A worker without request limit. *)
Definition base_unlimited : Base := mkBase true 100 0 [7%nat] plain_cfg.

(** What every loop keeps true of its drain effects. *)
Definition drain_inv (l : UvicornWorker.Loop) : Prop :=
  filter is_drain (UvicornWorker.trace l)
  = drained (UvicornWorker.tick_pc l)
            (map fst (UvicornWorker.servers (UvicornWorker.worker l)))
  /\ forall i, UvicornWorker.tick_pc l = UvicornWorker.TickWaitClosed i ->
                (i < List.length (UvicornWorker.servers (UvicornWorker.worker l)))%nat.

(** An event that is neither a signal nor a change of parent. *)
Definition serving_event (ev : Event) : bool :=
  match ev with
  | EvSignals _ | EvReparent _ => false
  | _ => true
  end.

(** ** What decides the exit code *)

(** An event that delivers SIGABRT, alone or in a batch. *)
Definition abort_event (ev : Event) : bool :=
  match ev with
  | EvSignals batch => existsb is_abort_signal batch
  | _ => false
  end.

(** No event of the list delivers SIGABRT. *)
Definition no_abort_sent (evs : list Event) : bool :=
  forallb (fun ev => negb (abort_event ev)) evs.

(** SIGABRT reaches a worker that is still running: one of the events is a
    batch of signals that holds SIGABRT, and [running] holds of the events
    before it. *)
Definition abort_delivered (running : list Event -> bool) (evs : list Event) : Prop :=
  exists before batch after,
    evs = before ++ EvSignals batch :: after
    /\ In SIGABRT batch
    /\ running before = true.

(** The event loop of a UvicornWorker has not stopped after the events
    [before]; [main] of a UvicornTrioWorker has not been left after them. *)
Definition asyncio_running (G : BaseHandlers) (env : SslEnv) (x : Base) (parent : Z)
           (before : list Event) : bool :=
  negb (UvicornWorker.stopped (UvicornWorker.run G env x parent before)).

Definition trio_running (G : BaseHandlers) (env : SslEnv) (x : Base) (parent : Z)
           (before : list Event) : bool :=
  negb (UvicornTrioWorker.finished (UvicornTrioWorker.run G env x parent before)).

(** SIGABRT arrives while the first of two listeners is being started; the
    second fails to start. *)
Definition abort_failing_start_events : list Event :=
  [EvSignals [SIGABRT]; EvCreated (inl 40%nat); EvCreated (inr ServerStartError)].

(** ** Proof automation *)

(** Refutes membership of an effect in an explicit list of other effects. *)
Ltac no_abort :=
  let H := fresh "H" in
  intros H;
  repeat match type of H with
         | In _ (_ ++ _) => apply in_app_or in H; destruct H as [H | H]
         | In _ (_ :: _) => destruct H as [H | H]; [discriminate H |]
         | In _ [] => destruct H
         end.

Ltac quiet_list := unfold quiet; repeat (constructor; try reflexivity).

(** Takes conjunctions and existentials among the hypotheses apart. *)
Ltac break_hyps :=
  repeat match goal with
         | H : exists _, _ |- _ => destruct H
         | H : _ /\ _ |- _ => destruct H
         end.

(** * Properties *)

(** ** Arithmetic of the recycling test *)

Lemma truthy_int_pos (n : Z) : 0 < n -> truthy_int n = true.
Proof.
  intros Hn. unfold truthy_int.
  destruct (Z.eqb_spec n 0) as [E | _]; [lia | reflexivity].
Qed.

Lemma max_test_true (m count : Z) :
  0 < m -> m < count -> truthy_int m && (count >? m) = true.
Proof.
  intros Hm Hc. rewrite (truthy_int_pos m Hm). cbn.
  rewrite Z.gtb_ltb. now apply Z.ltb_lt.
Qed.

Lemma req_count_app (l1 l2 : list (Server * State)) :
  req_count (l1 ++ l2) = req_count l1 + req_count l2.
Proof.
  induction l1 as [| [srv st] l1 IH]; cbn; [reflexivity | rewrite IH; lia].
Qed.

Lemma bump_length (i : nat) (l : list (Server * State)) :
  List.length (bump i l) = List.length l.
Proof.
  revert i; induction l as [| [srv st] l IH]; intros [| i]; cbn; auto.
Qed.

(** A completed request on a started listener raises the sum by one. *)
Lemma req_count_bump (i : nat) (l : list (Server * State)) :
  (i < List.length l)%nat -> req_count (bump i l) = req_count l + 1.
Proof.
  revert i; induction l as [| [srv st] l IH]; intros [| i] Hi; cbn in *; try lia.
  rewrite IH by lia. lia.
Qed.

(** ** The [tick] coroutine of UvicornWorker *)

Module TickFacts.
Import UvicornWorker.

Lemma drain_next_set_alive (b : bool) (w : Worker) (i : nat) :
  drain_next (set_alive b w) i = drain_next w i.
Proof. reflexivity. Qed.

(** [alive] already cleared: the [while] is left at once. *)
Lemma tick_while_dead (n : nat) (parent : Z) (w : Worker) (cycle : Z) :
  alive (base w) = false ->
  tick_while (S n) parent w cycle
  = Some (w, fst (drain_next w 0), snd (drain_next w 0)).
Proof.
  intros Ha. cbn [tick_while]. rewrite Ha.
  destruct (drain_next w 0); reflexivity.
Qed.

(** The recycling branch. *)
Lemma tick_while_max (n : nat) (parent : Z) (w : Worker) (cycle : Z) :
  alive (base w) = true ->
  max_test w = true ->
  tick_while (S (S n)) parent w cycle
  = Some (set_alive false w, fst (drain_next w 0),
          (ProtocolTick :: heartbeat (next_cycle cycle)
             ++ [LogInfo MaxRequestsExceeded]) ++ snd (drain_next w 0)).
Proof.
  intros Ha Hm. unfold max_test in Hm.
  change (tick_while (S (S n)) parent w cycle)
    with (if alive (base w) then
            if truthy_int (max_requests (base w))
               && (req_count (servers w) >? max_requests (base w))
            then option_map
                   (prepend (ProtocolTick :: heartbeat (next_cycle cycle)
                               ++ [LogInfo MaxRequestsExceeded]))
                   (tick_while (S n) parent (set_alive false w) (next_cycle cycle))
            else if negb (ppid (base w) =? parent)
            then option_map
                   (prepend (ProtocolTick :: heartbeat (next_cycle cycle)
                               ++ [Getppid; LogInfo ParentChanged]))
                   (tick_while (S n) parent (set_alive false w) (next_cycle cycle))
            else Some (w, TickSleeping (next_cycle cycle),
                       ProtocolTick :: heartbeat (next_cycle cycle)
                         ++ [Getppid; Sleep 1])
          else let '(pc, es) := drain_next w 0 in Some (w, pc, es)).
  rewrite Ha, Hm.
  rewrite tick_while_dead by reflexivity.
  rewrite drain_next_set_alive. reflexivity.
Qed.

(** The orphan branch, reached when the recycling test fails. *)
Lemma tick_while_parent (n : nat) (parent : Z) (w : Worker) (cycle : Z) :
  alive (base w) = true ->
  max_test w = false ->
  parent_test parent w = true ->
  tick_while (S (S n)) parent w cycle
  = Some (set_alive false w, fst (drain_next w 0),
          (ProtocolTick :: heartbeat (next_cycle cycle)
             ++ [Getppid; LogInfo ParentChanged]) ++ snd (drain_next w 0)).
Proof.
  intros Ha Hm Hp. unfold max_test in Hm. unfold parent_test in Hp.
  cbn [tick_while]. fold (next_cycle cycle).
  rewrite Ha, Hm, Hp. cbn [alive base set_alive base_set_alive].
  rewrite drain_next_set_alive.
  destruct (drain_next w 0); reflexivity.
Qed.

(** Neither test holds: the coroutine suspends in [asyncio.sleep(1)]. *)
Lemma tick_while_sleep (n : nat) (parent : Z) (w : Worker) (cycle : Z) :
  alive (base w) = true ->
  max_test w = false ->
  parent_test parent w = false ->
  tick_while (S n) parent w cycle
  = Some (w, TickSleeping (next_cycle cycle),
          ProtocolTick :: heartbeat (next_cycle cycle) ++ [Getppid; Sleep 1]).
Proof.
  intros Ha Hm Hp. unfold max_test in Hm. unfold parent_test in Hp.
  cbn [tick_while]. fold (next_cycle cycle).
  rewrite Ha, Hm, Hp. reflexivity.
Qed.

(** [tick_fuel] is enough: with two units of fuel or more the loop
    always reaches an [await] or the end of the coroutine, and more fuel
    changes nothing. *)
Lemma tick_while_total (n : nat) (parent : Z) (w : Worker) (cycle : Z) :
  tick_while (S (S n)) parent w cycle = tick_while tick_fuel parent w cycle
  /\ tick_while tick_fuel parent w cycle <> None.
Proof.
  unfold tick_fuel.
  destruct (alive (base w)) eqn:Ha.
  - destruct (max_test w) eqn:Hm.
    + rewrite !tick_while_max by assumption. split; [reflexivity | discriminate].
    + destruct (parent_test parent w) eqn:Hp.
      * rewrite !tick_while_parent by assumption.
        split; [reflexivity | discriminate].
      * rewrite !tick_while_sleep by assumption.
        split; [reflexivity | discriminate].
  - rewrite !tick_while_dead by assumption. split; [reflexivity | discriminate].
Qed.

End TickFacts.

(** ** The event loop of UvicornWorker *)

Module LoopFacts.
Import UvicornWorker.

Section WithBase.

Variable G : BaseHandlers.

Lemma steps_cons (l : Loop) (ev : Event) (evs : list Event) :
  steps G l (ev :: evs) = steps G (step G l ev) evs.
Proof. reflexivity. Qed.

Lemma steps_app (l : Loop) (evs1 evs2 : list Event) :
  steps G l (evs1 ++ evs2) = steps G (steps G l evs1) evs2.
Proof. apply fold_left_app. Qed.

Lemma nth_error_past {A : Type} (pre : list A) (cur : A) (rest : list A) :
  nth_error (pre ++ cur :: rest) (S (List.length pre)) = nth_error rest 0.
Proof.
  rewrite nth_error_app2 by lia.
  replace (S (List.length pre) - List.length pre)%nat with 1%nat by lia.
  reflexivity.
Qed.

(** The drain, once under way: with [wait_closed] of the listener at
    index [length pre] pending, one [EvClosed] per listener left closes
    the remaining ones in list order and stops the loop. *)
Lemma drain_run (rest pre : list (Server * State)) (cur : Server * State) (l : Loop) :
  servers (worker l) = pre ++ cur :: rest ->
  tick_pc l = TickWaitClosed (List.length pre) ->
  steps G l (repeat EvClosed (S (List.length rest)))
  = mkLoop (worker l) (os_ppid l) (create_pc l) TickReturned
           (trace l ++ drain_effects rest).
Proof.
  revert pre cur l.
  induction rest as [| [srv st] rest IH]; intros pre cur l Hs Hpc.
  - cbn [List.length repeat steps fold_left].
    unfold step, stopped. rewrite Hpc.
    unfold drain_next. rewrite Hs, nth_error_past. reflexivity.
  - change (repeat EvClosed (S (List.length ((srv, st) :: rest))))
      with (EvClosed :: repeat EvClosed (S (List.length rest))).
    rewrite steps_cons.
    assert (Hstep : step G l EvClosed
                    = mkLoop (worker l) (os_ppid l) (create_pc l)
                             (TickWaitClosed (S (List.length pre)))
                             (trace l ++ [Close srv; WaitClosed srv])).
    { unfold step, stopped. rewrite Hpc.
      unfold drain_next. rewrite Hs, nth_error_past. reflexivity. }
    rewrite Hstep.
    rewrite (IH (pre ++ [cur]) (srv, st)).
    + cbn [worker os_ppid create_pc trace drain_effects].
      rewrite <- app_assoc. reflexivity.
    + cbn [worker]. rewrite Hs, <- app_assoc. reflexivity.
    + cbn [tick_pc]. rewrite length_app. cbn [List.length].
      f_equal. lia.
Qed.

(** The whole drain: from the first line after the [while], one
    [EvClosed] per listener closes every listener of [self.servers] in
    list order and calls [loop.stop()]. *)
Lemma drain_complete (w : Worker) (parent : Z) (cpc : CreatePc) (tr : list Effect) :
  steps G (mkLoop w parent cpc (fst (drain_next w 0)) (tr ++ snd (drain_next w 0)))
        (repeat EvClosed (List.length (servers w)))
  = mkLoop w parent cpc TickReturned (tr ++ drain_effects (servers w)).
Proof.
  unfold drain_next.
  destruct (servers w) as [| [srv st] rest] eqn:Hs.
  - reflexivity.
  - cbn [nth_error fst snd List.length].
    rewrite (drain_run rest [] (srv, st)); cbn [worker tick_pc List.length app];
      try assumption; try reflexivity.
    cbn [os_ppid create_pc trace drain_effects].
    rewrite <- app_assoc. reflexivity.
Qed.

(** [tick] resumed while [alive] with the recycling test true. *)
Lemma tick_resume_max (l : Loop) (cycle : Z) :
  alive (base (worker l)) = true ->
  max_test (worker l) = true ->
  tick_resume l cycle
  = mkLoop (set_alive false (worker l)) (os_ppid l) (create_pc l)
           (fst (drain_next (worker l) 0))
           (trace l ++ (ProtocolTick :: heartbeat (next_cycle cycle)
                          ++ [LogInfo MaxRequestsExceeded])
                    ++ snd (drain_next (worker l) 0)).
Proof.
  intros Ha Hm. unfold tick_resume, tick_fuel.
  rewrite TickFacts.tick_while_max by assumption. reflexivity.
Qed.

(** [tick] resumed while [alive] with the recycling test false and the
    parent changed. *)
Lemma tick_resume_parent (l : Loop) (cycle : Z) :
  alive (base (worker l)) = true ->
  max_test (worker l) = false ->
  parent_test (os_ppid l) (worker l) = true ->
  tick_resume l cycle
  = mkLoop (set_alive false (worker l)) (os_ppid l) (create_pc l)
           (fst (drain_next (worker l) 0))
           (trace l ++ (ProtocolTick :: heartbeat (next_cycle cycle)
                          ++ [Getppid; LogInfo ParentChanged])
                    ++ snd (drain_next (worker l) 0)).
Proof.
  intros Ha Hm Hp. unfold tick_resume, tick_fuel.
  rewrite TickFacts.tick_while_parent by assumption. reflexivity.
Qed.

(** [tick] resumed with [alive] cleared by a signal handler. *)
Lemma tick_resume_dead (l : Loop) (cycle : Z) :
  alive (base (worker l)) = false ->
  tick_resume l cycle
  = mkLoop (worker l) (os_ppid l) (create_pc l)
           (fst (drain_next (worker l) 0))
           (trace l ++ snd (drain_next (worker l) 0)).
Proof.
  intros Ha. unfold tick_resume, tick_fuel.
  rewrite TickFacts.tick_while_dead by assumption. reflexivity.
Qed.

(** A tick that shuts down, followed by the drain: the effects [pre] of
    the tick, then the listeners closed in order, then [loop.stop()]. *)
Lemma shutdown_run (w : Worker) (parent : Z) (cpc : CreatePc)
      (tr pre : list Effect) :
  steps G (mkLoop w parent cpc (fst (drain_next w 0))
                  (tr ++ pre ++ snd (drain_next w 0)))
        (repeat EvClosed (List.length (servers w)))
  = mkLoop w parent cpc TickReturned (tr ++ pre ++ drain_effects (servers w)).
Proof.
  rewrite !app_assoc. apply drain_complete.
Qed.

End WithBase.
End LoopFacts.

(** ** Effects and exit code *)

Lemma tracks_abort_app (c c' : Z) (tr es : list Effect) :
  tracks_abort c tr -> abort_or_keep c c' es -> tracks_abort c' (tr ++ es).
Proof.
  unfold tracks_abort, abort_or_keep.
  intros [[Hc Hin] | [Hc Hnin]] [[Hc' Hin'] | [Hc' Hnin']]; subst.
  - left. split; [reflexivity | apply in_or_app; now right].
  - left. split; [congruence | apply in_or_app; now left].
  - left. split; [reflexivity | apply in_or_app; now right].
  - right. split; [congruence |].
    intros H. apply in_app_or in H. tauto.
Qed.

Lemma abort_or_keep_trans (c c1 c2 : Z) (e1 e2 : list Effect) :
  abort_or_keep c c1 e1 -> abort_or_keep c1 c2 e2 -> abort_or_keep c c2 (e1 ++ e2).
Proof.
  unfold abort_or_keep.
  intros [[H1 I1] | [H1 N1]] [[H2 I2] | [H2 N2]]; subst.
  - left. split; [reflexivity | apply in_or_app; now right].
  - left. split; [reflexivity | apply in_or_app; now left].
  - left. split; [reflexivity | apply in_or_app; now right].
  - right. split; [reflexivity |].
    intros H. apply in_app_or in H. tauto.
Qed.

Lemma abort_or_keep_nil (c : Z) : abort_or_keep c c [].
Proof. right. split; [reflexivity | intros []]. Qed.

Lemma heartbeat_no_abort (cycle : Z) : ~ In WorkerAbort (UvicornWorker.heartbeat cycle).
Proof.
  unfold UvicornWorker.heartbeat. destruct (cycle =? 0); no_abort.
Qed.

Lemma drain_next_no_abort (w : UvicornWorker.Worker) (i : nat) :
  ~ In WorkerAbort (snd (UvicornWorker.drain_next w i)).
Proof.
  unfold UvicornWorker.drain_next.
  destruct (nth_error (UvicornWorker.servers w) i) as [[srv st] |]; cbn [snd]; no_abort.
Qed.

Module AsyncioInv.
Import UvicornWorker.

Section WithBase.

Variable G : BaseHandlers.

Lemma init_signals_code (s : Signal) (w : Worker) :
  abort_or_keep (exit_code w) (exit_code (fst (init_signals G s w)))
                (snd (init_signals G s w)).
Proof.
  destruct s; cbn; try (right; split; [reflexivity | no_abort]).
  left. split; [reflexivity | now left].
Qed.

Lemma deliver_code (batch : list Signal) (w : Worker) :
  abort_or_keep (exit_code w) (exit_code (fst (deliver G batch w)))
                (snd (deliver G batch w)).
Proof.
  revert w. induction batch as [| s batch IH]; intros w.
  - apply abort_or_keep_nil.
  - cbn [deliver].
    pose proof (init_signals_code s w) as H1.
    destruct (init_signals G s w) as [w1 e1]. cbn [fst snd] in H1.
    pose proof (IH w1) as H2.
    destruct (deliver G batch w1) as [w2 e2]. cbn [fst snd] in *.
    eapply abort_or_keep_trans; eassumption.
Qed.

(** A resumption of [tick] never touches the exit code. *)
Lemma tick_resume_code (l : Loop) (cycle : Z) :
  tracks_abort (exit_code (worker l)) (trace l) ->
  tracks_abort (exit_code (worker (tick_resume l cycle)))
               (trace (tick_resume l cycle)).
Proof.
  intros Hinv.
  destruct (alive (base (worker l))) eqn:Ha.
  - destruct (max_test (worker l)) eqn:Hm.
    + rewrite LoopFacts.tick_resume_max by assumption. cbn [worker trace].
      eapply tracks_abort_app; [eassumption |].
      right. split; [reflexivity |].
      pose proof (heartbeat_no_abort (next_cycle cycle)).
      pose proof (drain_next_no_abort (worker l) 0).
      no_abort; contradiction.
    + destruct (parent_test (os_ppid l) (worker l)) eqn:Hp.
      * rewrite LoopFacts.tick_resume_parent by assumption. cbn [worker trace].
        eapply tracks_abort_app; [eassumption |].
        right. split; [reflexivity |].
        pose proof (heartbeat_no_abort (next_cycle cycle)).
        pose proof (drain_next_no_abort (worker l) 0).
        no_abort; contradiction.
      * unfold tick_resume, tick_fuel.
        rewrite TickFacts.tick_while_sleep by assumption. cbn [worker trace].
        eapply tracks_abort_app; [eassumption |].
        right. split; [reflexivity |].
        pose proof (heartbeat_no_abort (next_cycle cycle)).
        no_abort; contradiction.
  - rewrite LoopFacts.tick_resume_dead by assumption. cbn [worker trace].
    eapply tracks_abort_app; [eassumption |].
    right. split; [reflexivity | apply drain_next_no_abort].
Qed.

Lemma create_next_code (w : Worker) (socks : list Socket) (ssl : option SSLContext) :
  abort_or_keep (exit_code w) (exit_code (fst (fst (create_next w socks ssl))))
                (snd (create_next w socks ssl)).
Proof.
  destruct socks; cbn; right; (split; [reflexivity | no_abort]).
Qed.

Lemma step_code (l : Loop) (ev : Event) :
  tracks_abort (exit_code (worker l)) (trace l) ->
  tracks_abort (exit_code (worker (step G l ev))) (trace (step G l ev)).
Proof.
  intros Hinv. unfold step.
  destruct (stopped l); [assumption |].
  destruct ev as [batch | r | | | i | p].
  - pose proof (deliver_code batch (worker l)) as H.
    destruct (deliver G batch (worker l)) as [w es]. cbn [fst snd] in H.
    cbn [worker trace]. eapply tracks_abort_app; eassumption.
  - destruct (create_pc l) as [sock rest ssl | | e]; try assumption.
    destruct r as [server | e].
    + cbn [create_resume].
      pose proof (create_next_code
                    (set_servers (servers (worker l) ++ [(server, state0)]) (worker l))
                    rest ssl) as H.
      destruct (create_next _ rest ssl) as [[w cpc] es]. cbn [fst snd] in H.
      cbn [worker trace]. eapply tracks_abort_app; eassumption.
    + cbn [create_resume worker trace]. rewrite app_nil_r. assumption.
  - destruct (tick_pc l); try assumption.
    now apply tick_resume_code.
  - destruct (tick_pc l) as [c | i | ]; try assumption.
    pose proof (drain_next_no_abort (worker l) (S i)) as H.
    destruct (drain_next (worker l) (S i)) as [pc es]. cbn [snd] in H.
    cbn [worker trace]. eapply tracks_abort_app; [eassumption |].
    right. split; [reflexivity | assumption].
  - cbn [worker trace]. assumption.
  - cbn [worker trace]. assumption.
Qed.

Lemma steps_code (evs : list Event) (l : Loop) :
  tracks_abort (exit_code (worker l)) (trace l) ->
  tracks_abort (exit_code (worker (steps G l evs))) (trace (steps G l evs)).
Proof.
  revert l. induction evs as [| ev evs IH]; intros l Hinv; [assumption |].
  rewrite LoopFacts.steps_cons. apply IH. now apply step_code.
Qed.

Lemma run_begin_code (env : SslEnv) (x : Base) (parent : Z) :
  tracks_abort (exit_code (worker (run_begin env x parent)))
               (trace (run_begin env x parent)).
Proof.
  unfold run_begin, create_servers.
  destruct (ssl_ctx_of env (cfg (base (init x)))) as [ssl | e].
  - pose proof (create_next_code (init x) (sockets (base (init x))) ssl) as H.
    destruct (create_next (init x) (sockets (base (init x))) ssl) as [[w cpc] es].
    cbn [fst snd] in H. cbn [worker trace].
    change (es ++ [Getpid]) with ([] ++ (es ++ [Getpid])).
    apply (tracks_abort_app 0).
    + right. split; [reflexivity | intros []].
    + eapply abort_or_keep_trans; [exact H |].
      right. split; [reflexivity | no_abort].
  - cbn [worker trace]. right. split; [reflexivity | no_abort].
Qed.

(** In every run the exit code is 1 when [handle_abort] has run and 0
    when it has not. *)
Lemma run_code (env : SslEnv) (x : Base) (parent : Z) (evs : list Event) :
  tracks_abort (exit_code (worker (run G env x parent evs)))
               (trace (run G env x parent evs)).
Proof.
  unfold run. apply steps_code. unfold run_start.
  apply tick_resume_code. apply run_begin_code.
Qed.

End WithBase.
End AsyncioInv.

(** ** Every run of UvicornWorker can be brought to its exit *)

Module AsyncioLive.
Import UvicornWorker.

Section WithBase.

Variable G : BaseHandlers.

Lemma step_stopped (l : Loop) (ev : Event) :
  stopped l = true -> step G l ev = l.
Proof. intros H. unfold step. now rewrite H. Qed.

Lemma steps_stopped (evs : list Event) (l : Loop) :
  stopped l = true -> steps G l evs = l.
Proof.
  induction evs as [| ev evs IH]; intros H; [reflexivity |].
  rewrite LoopFacts.steps_cons, step_stopped by assumption. now apply IH.
Qed.

(** The steps of the loop, event by event. *)
Lemma step_closed (l : Loop) (i : nat) :
  tick_pc l = TickWaitClosed i ->
  step G l EvClosed
  = mkLoop (worker l) (os_ppid l) (create_pc l)
           (fst (drain_next (worker l) (S i)))
           (trace l ++ snd (drain_next (worker l) (S i))).
Proof.
  intros Hpc. unfold step, stopped. rewrite Hpc.
  destruct (drain_next (worker l) (S i)); reflexivity.
Qed.

Lemma step_timer (l : Loop) (cycle : Z) :
  tick_pc l = TickSleeping cycle ->
  step G l EvTimer = tick_resume l cycle.
Proof. intros Hpc. unfold step, stopped. now rewrite Hpc. Qed.

Lemma step_timer_draining (l : Loop) (i : nat) :
  tick_pc l = TickWaitClosed i ->
  step G l EvTimer = l.
Proof. intros Hpc. unfold step, stopped. now rewrite Hpc. Qed.

Lemma step_signals (l : Loop) (batch : list Signal) :
  stopped l = false ->
  step G l (EvSignals batch)
  = mkLoop (fst (deliver G batch (worker l))) (os_ppid l) (create_pc l) (tick_pc l)
           (trace l ++ snd (deliver G batch (worker l))).
Proof.
  intros Hst. unfold step. rewrite Hst.
  destruct (deliver G batch (worker l)); reflexivity.
Qed.

(** A drain under way ends after at most one [EvClosed] per listener
    that is left. *)
Lemma drain_finishes (k : nat) (l : Loop) (i : nat) :
  tick_pc l = TickWaitClosed i ->
  (List.length (servers (worker l)) <= S i + k)%nat ->
  stopped (steps G l (repeat EvClosed (S k))) = true.
Proof.
  revert l i. induction k as [| k IH]; intros l i Hpc Hlen;
    cbn [repeat]; rewrite LoopFacts.steps_cons, (step_closed l i Hpc);
    unfold drain_next;
    destruct (nth_error (servers (worker l)) (S i)) as [[srv st] |] eqn:Hn;
    cbn [fst snd].
  - assert (Hlt : (S i < List.length (servers (worker l)))%nat)
      by (apply nth_error_Some; congruence).
    lia.
  - reflexivity.
  - apply (IH _ (S i)); cbn [tick_pc worker]; [reflexivity | lia].
  - rewrite steps_stopped; reflexivity.
Qed.

(** From any state of the loop, a quit signal, the end of the sleep and
    the completion of the pending [wait_closed] calls stop the loop. *)
Lemma can_stop (l : Loop) :
  stopped (steps G l (EvSignals [SIGQUIT] :: EvTimer
                        :: repeat EvClosed (S (List.length (servers (worker l))))))
  = true.
Proof.
  destruct (stopped l) eqn:Hst.
  - rewrite steps_stopped by assumption. assumption.
  - rewrite LoopFacts.steps_cons, (step_signals l _ Hst).
    cbn [deliver init_signals handle_quit fst snd].
    rewrite LoopFacts.steps_cons.
    destruct (tick_pc l) as [cycle | i |] eqn:Hpc.
    + rewrite (step_timer _ cycle) by reflexivity.
      rewrite LoopFacts.tick_resume_dead by reflexivity.
      cbn [worker os_ppid create_pc trace].
      rewrite TickFacts.drain_next_set_alive.
      unfold drain_next.
      destruct (nth_error (servers (worker l)) 0) as [[srv st] |] eqn:Hn;
        cbn [fst snd].
      * apply (drain_finishes _ _ 0%nat); cbn [tick_pc worker set_alive servers];
          [reflexivity | lia].
      * rewrite steps_stopped; reflexivity.
    + rewrite (step_timer_draining _ i) by reflexivity.
      apply (drain_finishes _ _ i); cbn [tick_pc worker set_alive servers];
        [reflexivity | lia].
    + unfold stopped in Hst. rewrite Hpc in Hst. discriminate.
Qed.

End WithBase.
End AsyncioLive.

(** ** The run of UvicornTrioWorker *)

Module TrioFacts.
Import UvicornTrioWorker.

Section WithBase.

Variable G : BaseHandlers.

Lemma trio_steps_cons (r : Run) (ev : Event) (evs : list Event) :
  steps G r (ev :: evs) = steps G (step G r ev) evs.
Proof. reflexivity. Qed.

Lemma step_finished (r : Run) (ev : Event) :
  finished r = true -> step G r ev = r.
Proof. intros H. unfold step. now rewrite H. Qed.

Lemma steps_finished (evs : list Event) (r : Run) :
  finished r = true -> steps G r evs = r.
Proof.
  induction evs as [| ev evs IH]; intros H; [reflexivity |].
  rewrite trio_steps_cons, step_finished by assumption. now apply IH.
Qed.

(** *** Exit code *)

Lemma signals_code (s : Signal) (w : Worker) :
  abort_or_keep (exit_code w) (exit_code (fst (signals G s w)))
                (snd (signals G s w)).
Proof.
  destruct s; cbn; try (right; split; [reflexivity | no_abort]).
  left. split; [reflexivity | right; now left].
Qed.

Lemma handle_signals_code (batch : list Signal) (w : Worker) :
  abort_or_keep (exit_code w) (exit_code (fst (handle_signals G batch w)))
                (snd (handle_signals G batch w)).
Proof.
  revert w. induction batch as [| s batch IH]; intros w.
  - apply abort_or_keep_nil.
  - cbn [handle_signals].
    pose proof (signals_code s w) as H1.
    destruct (signals G s w) as [w1 e1]. cbn [fst snd] in H1.
    pose proof (IH w1) as H2.
    destruct (handle_signals G batch w1) as [w2 e2]. cbn [fst snd] in *.
    eapply abort_or_keep_trans; eassumption.
Qed.

Lemma wait_killed_no_abort (w : Worker) : ~ In WorkerAbort (snd (wait_killed w)).
Proof. unfold wait_killed. destruct (killed w); cbn [snd]; no_abort. Qed.

Lemma trio_create_next_code (w : Worker) (socks : list Socket) (ssl : option SSLContext) :
  abort_or_keep (exit_code w) (exit_code (fst (fst (create_next w socks ssl))))
                (snd (create_next w socks ssl)).
Proof.
  destruct socks as [| sock rest]; cbn [create_next].
  - pose proof (wait_killed_no_abort w) as H.
    destruct (wait_killed w) as [pc es]. cbn [fst snd] in *.
    right. split; [reflexivity | assumption].
  - cbn. right. split; [reflexivity | no_abort].
Qed.

Lemma trio_step_code (r : Run) (ev : Event) :
  tracks_abort (exit_code (worker r)) (trace r) ->
  tracks_abort (exit_code (worker (step G r ev))) (trace (step G r ev)).
Proof.
  intros Hinv. unfold step.
  destruct (finished r); [assumption |].
  destruct ev as [batch | res | | | i | p]; try assumption.
  - pose proof (handle_signals_code batch (worker r)) as H.
    destruct (handle_signals G batch (worker r)) as [w es]. cbn [fst snd] in H.
    destruct (main_pc r) as [sock rest ssl | | | e];
      try (cbn [worker trace]; eapply tracks_abort_app; eassumption).
    pose proof (wait_killed_no_abort w) as Hk.
    destruct (wait_killed w) as [pc es']. cbn [snd] in Hk.
    cbn [worker trace]. eapply tracks_abort_app; [eassumption |].
    eapply abort_or_keep_trans; [exact H |].
    right. split; [reflexivity | assumption].
  - destruct (main_pc r) as [sock rest ssl | | | e]; try assumption.
    destruct res as [server | e].
    + cbn [create_resume].
      pose proof (trio_create_next_code
                    (set_servers (servers (worker r) ++ [(server, state0)]) (worker r))
                    rest ssl) as H.
      destruct (create_next _ rest ssl) as [[w pc] es]. cbn [fst snd] in H.
      cbn [worker trace]. eapply tracks_abort_app; eassumption.
    + cbn [create_resume worker trace]. rewrite app_nil_r. assumption.
Qed.

Lemma trio_steps_code (evs : list Event) (r : Run) :
  tracks_abort (exit_code (worker r)) (trace r) ->
  tracks_abort (exit_code (worker (steps G r evs))) (trace (steps G r evs)).
Proof.
  revert r. induction evs as [| ev evs IH]; intros r Hinv; [assumption |].
  rewrite trio_steps_cons. apply IH. now apply trio_step_code.
Qed.

Lemma run_start_code (env : SslEnv) (x : Base) (parent : Z) :
  tracks_abort (exit_code (worker (run_start env x parent)))
               (trace (run_start env x parent)).
Proof.
  unfold run_start, create_servers.
  destruct (ssl_ctx_of env (cfg (base (init x)))) as [ssl | e].
  - pose proof (trio_create_next_code (init x) (sockets (base (init x))) ssl) as H.
    destruct (create_next (init x) (sockets (base (init x))) ssl) as [[w pc] es].
    cbn [fst snd] in H. cbn [worker trace].
    change es with ([] ++ es).
    apply (tracks_abort_app 0); [| exact H].
    right. split; [reflexivity | intros []].
  - cbn [worker trace]. right. split; [reflexivity | no_abort].
Qed.

(** In every run the exit code is 1 when [handle_abort] has run and 0
    when it has not. *)
Lemma trio_run_code (env : SslEnv) (x : Base) (parent : Z) (evs : list Event) :
  tracks_abort (exit_code (worker (run G env x parent evs)))
               (trace (run G env x parent evs)).
Proof.
  unfold run. apply trio_steps_code. apply run_start_code.
Qed.

End WithBase.
End TrioFacts.

Module TrioLive.
Import UvicornTrioWorker.

Section WithBase.

Variable G : BaseHandlers.

(** *** No health check *)

Lemma quiet_app (a b : list Effect) : quiet a -> quiet b -> quiet (a ++ b).
Proof. intros Ha Hb. apply Forall_app. now split. Qed.


Lemma signals_quiet (s : Signal) (w : Worker) : quiet (snd (signals G s w)).
Proof. destruct s; cbn; quiet_list. Qed.

Lemma handle_signals_quiet (batch : list Signal) (w : Worker) :
  quiet (snd (handle_signals G batch w)).
Proof.
  revert w. induction batch as [| s batch IH]; intros w; cbn [handle_signals].
  - quiet_list.
  - pose proof (signals_quiet s w) as H1.
    destruct (signals G s w) as [w1 e1].
    pose proof (IH w1) as H2.
    destruct (handle_signals G batch w1) as [w2 e2]. cbn [snd] in *.
    apply Forall_app. now split.
Qed.

Lemma wait_killed_quiet (w : Worker) : quiet (snd (wait_killed w)).
Proof. unfold wait_killed. destruct (killed w); cbn; quiet_list. Qed.

Lemma create_next_quiet (w : Worker) (socks : list Socket) (ssl : option SSLContext) :
  quiet (snd (create_next w socks ssl)).
Proof.
  destruct socks as [| sock rest]; cbn [create_next].
  - pose proof (wait_killed_quiet w) as H.
    destruct (wait_killed w). exact H.
  - cbn. quiet_list.
Qed.

Lemma step_quiet (r : Run) (ev : Event) :
  quiet (trace r) -> quiet (trace (step G r ev)).
Proof.
  intros Hq. unfold step.
  destruct (finished r); [assumption |].
  destruct ev as [batch | res | | | i | p]; try assumption.
  - pose proof (handle_signals_quiet batch (worker r)) as H.
    destruct (handle_signals G batch (worker r)) as [w es]. cbn [snd] in H.
    destruct (main_pc r) as [sock rest ssl | | | e];
      try (cbn [trace]; now apply quiet_app).
    pose proof (wait_killed_quiet w) as Hk.
    destruct (wait_killed w) as [pc es']. cbn [snd] in Hk. cbn [trace].
    apply quiet_app; [assumption | now apply quiet_app].
  - destruct (main_pc r) as [sock rest ssl | | | e]; try assumption.
    destruct res as [server | e]; cbn [create_resume].
    + pose proof (create_next_quiet
                    (set_servers (servers (worker r) ++ [(server, state0)]) (worker r))
                    rest ssl) as H.
      destruct (create_next _ rest ssl) as [[w pc] es]. cbn [snd] in H.
      cbn [trace]. now apply quiet_app.
    + cbn [trace]. now rewrite app_nil_r.
Qed.

(** No run of the class performs a health check: no heartbeat, no call of
    [os.getppid()], no policy log line, no sleep. *)
Lemma run_quiet (env : SslEnv) (x : Base) (parent : Z) (evs : list Event) :
  quiet (trace (run G env x parent evs)).
Proof.
  unfold run.
  assert (H0 : quiet (trace (run_start env x parent))).
  { unfold run_start, create_servers.
    destruct (ssl_ctx_of env (cfg (base (init x)))) as [ssl | e].
    - pose proof (create_next_quiet (init x) (sockets (base (init x))) ssl) as H.
      destruct (create_next (init x) (sockets (base (init x))) ssl) as [[w pc] es].
      exact H.
    - quiet_list. }
  revert H0. generalize (run_start env x parent).
  induction evs as [| ev evs IH]; intros r Hr; [assumption |].
  rewrite TrioFacts.trio_steps_cons. apply IH. now apply step_quiet.
Qed.

(** With [alive] true and no signal, no event ends the run: requests,
    timers and a change of parent leave [main] where it waits. *)
Lemma step_waits (r : Run) (ev : Event) :
  main_pc r = MainWaitKilled ->
  (forall batch, ev <> EvSignals batch) ->
  main_pc (step G r ev) = MainWaitKilled.
Proof.
  intros Hpc Hev. unfold step, finished. rewrite Hpc.
  destruct ev as [batch | res | | | i | p]; try assumption; try reflexivity.
  now destruct (Hev batch).
Qed.

(** *** Every run that did not raise can be brought to its exit *)

Lemma create_finishes (rest : list Socket) (r : Run) (sock : Socket)
      (ssl : option SSLContext) :
  main_pc r = MainCreating sock rest ssl ->
  killed (worker r) = true ->
  main_pc (steps G r (repeat (EvCreated (inl 0%nat)) (S (List.length rest))))
  = MainReturned.
Proof.
  revert r sock. induction rest as [| sock' rest IH]; intros r sock Hpc Hk;
    cbn [List.length repeat]; rewrite TrioFacts.trio_steps_cons;
    unfold step at 1, finished at 1; rewrite Hpc;
    cbn [create_resume create_next].
  - unfold wait_killed. cbn [killed set_servers]. rewrite Hk. reflexivity.
  - apply (IH _ sock'); reflexivity || assumption.
Qed.

Lemma deliver_quit (r : Run) :
  finished r = false ->
  step G r (EvSignals [SIGQUIT])
  = match main_pc r with
    | MainWaitKilled =>
        mkRun (killed_set (set_alive false (worker r))) (os_ppid r) MainReturned
              (trace r ++ [KilledSet; WorkerInt] ++ [CancelScope])
    | pc =>
        mkRun (killed_set (set_alive false (worker r))) (os_ppid r) pc
              (trace r ++ [KilledSet; WorkerInt])
    end.
Proof.
  intros Hf. unfold step. rewrite Hf.
  cbn [handle_signals signals handle_quit app].
  destruct (main_pc r); reflexivity.
Qed.

Lemma can_exit (r : Run) :
  (forall e, main_pc r <> MainRaised e) ->
  exists evs c, exit_status (steps G r evs) = Some c.
Proof.
  intros Hr.
  destruct (main_pc r) as [sock rest ssl | | | e] eqn:Hpc.
  - exists (EvSignals [SIGQUIT]
              :: repeat (EvCreated (inl 0%nat)) (S (List.length rest))).
    rewrite TrioFacts.trio_steps_cons, deliver_quit
      by (unfold finished; now rewrite Hpc).
    rewrite Hpc. unfold exit_status.
    rewrite (create_finishes rest _ sock ssl); [| reflexivity | reflexivity].
    eexists. reflexivity.
  - exists [EvSignals [SIGQUIT]].
    rewrite TrioFacts.trio_steps_cons, deliver_quit
      by (unfold finished; now rewrite Hpc).
    rewrite Hpc. cbn. eexists. reflexivity.
  - exists []. cbn. unfold exit_status. rewrite Hpc. eexists. reflexivity.
  - now destruct (Hr e).
Qed.

End WithBase.
End TrioLive.

(** * The lifecycle claims *)

Lemma added_app (tr es : list Effect) : added tr (tr ++ es) = es.
Proof.
  unfold added. induction tr as [| e tr IH]; [reflexivity | exact IH].
Qed.

(** C1, evaluated on three runs.  UvicornWorker recycles itself after the
    request limit, leaves when its parent changes and sends the heartbeat on
    the tenth health check; under the same events UvicornTrioWorker, whose
    [tick] is commented out, logs nothing, sends no heartbeat and never
    reaches [sys.exit]. *)
Theorem trio_worker_lacks_health_check :
  (UvicornWorker.exit_status
     (UvicornWorker.run gunicorn_handlers ssl_ok base_one 100 recycle_events) = Some 0
   /\ observable (UvicornWorker.trace
        (UvicornWorker.run gunicorn_handlers ssl_ok base_one 100 recycle_events))
      = [LogInfo MaxRequestsExceeded]
   /\ UvicornTrioWorker.exit_status
        (UvicornTrioWorker.run gunicorn_handlers ssl_ok base_one 100 recycle_events) = None
   /\ observable (UvicornTrioWorker.trace
        (UvicornTrioWorker.run gunicorn_handlers ssl_ok base_one 100 recycle_events))
      = [])
  /\ (UvicornWorker.exit_status
        (UvicornWorker.run gunicorn_handlers ssl_ok base_one 100 orphan_events) = Some 0
      /\ observable (UvicornWorker.trace
           (UvicornWorker.run gunicorn_handlers ssl_ok base_one 100 orphan_events))
         = [LogInfo ParentChanged]
      /\ UvicornTrioWorker.exit_status
           (UvicornTrioWorker.run gunicorn_handlers ssl_ok base_one 100 orphan_events) = None
      /\ observable (UvicornTrioWorker.trace
           (UvicornTrioWorker.run gunicorn_handlers ssl_ok base_one 100 orphan_events))
         = [])
  /\ (observable (UvicornWorker.trace
        (UvicornWorker.run gunicorn_handlers ssl_ok base_one 100 heartbeat_events))
      = [Notify]
      /\ observable (UvicornTrioWorker.trace
           (UvicornTrioWorker.run gunicorn_handlers ssl_ok base_one 100 heartbeat_events))
         = []).
Proof.
  vm_compute. repeat split.
Qed.

(** C2.  In both classes the handler registered for SIGABRT is
    [handle_abort]: it clears [alive], sets [exit_code] to 1 and calls the
    [worker_abort] hook of the configuration, and touches nothing else.  A
    delivery of SIGABRT to a worker that has not left its loop, during a
    drain as well, does exactly that. *)
Theorem abort_signal_runs_handle_abort (G : BaseHandlers) :
  (forall w : UvicornWorker.Worker,
      UvicornWorker.init_signals G SIGABRT w = UvicornWorker.handle_abort w
      /\ alive (UvicornWorker.base (fst (UvicornWorker.handle_abort w))) = false
      /\ UvicornWorker.exit_code (fst (UvicornWorker.handle_abort w)) = 1
      /\ snd (UvicornWorker.handle_abort w) = [WorkerAbort]
      /\ UvicornWorker.servers (fst (UvicornWorker.handle_abort w))
         = UvicornWorker.servers w)
  /\ (forall w : UvicornTrioWorker.Worker,
         UvicornTrioWorker.signals G SIGABRT w = UvicornTrioWorker.handle_abort w
         /\ alive (UvicornTrioWorker.base (fst (UvicornTrioWorker.handle_abort w))) = false
         /\ UvicornTrioWorker.exit_code (fst (UvicornTrioWorker.handle_abort w)) = 1
         /\ snd (UvicornTrioWorker.handle_abort w) = [KilledSet; WorkerAbort]
         /\ UvicornTrioWorker.servers (fst (UvicornTrioWorker.handle_abort w))
            = UvicornTrioWorker.servers w)
  /\ (forall l : UvicornWorker.Loop,
         UvicornWorker.stopped l = false ->
         alive (UvicornWorker.base
                  (UvicornWorker.worker (UvicornWorker.step G l (EvSignals [SIGABRT]))))
         = false
         /\ UvicornWorker.exit_code
              (UvicornWorker.worker (UvicornWorker.step G l (EvSignals [SIGABRT]))) = 1
         /\ UvicornWorker.trace (UvicornWorker.step G l (EvSignals [SIGABRT]))
            = UvicornWorker.trace l ++ [WorkerAbort])
  /\ (forall r : UvicornTrioWorker.Run,
         UvicornTrioWorker.finished r = false ->
         alive (UvicornTrioWorker.base
                  (UvicornTrioWorker.worker
                     (UvicornTrioWorker.step G r (EvSignals [SIGABRT]))))
         = false
         /\ UvicornTrioWorker.exit_code
              (UvicornTrioWorker.worker
                 (UvicornTrioWorker.step G r (EvSignals [SIGABRT]))) = 1
         /\ added (UvicornTrioWorker.trace r)
                  (UvicornTrioWorker.trace
                     (UvicornTrioWorker.step G r (EvSignals [SIGABRT])))
            = [KilledSet; WorkerAbort]
              ++ match UvicornTrioWorker.main_pc r with
                 | UvicornTrioWorker.MainWaitKilled => [CancelScope]
                 | _ => []
                 end).
Proof.
  repeat split.
  - rewrite (AsyncioLive.step_signals G l _ H). reflexivity.
  - rewrite (AsyncioLive.step_signals G l _ H). reflexivity.
  - rewrite (AsyncioLive.step_signals G l _ H). reflexivity.
  - unfold UvicornTrioWorker.step. rewrite H.
    destruct (UvicornTrioWorker.main_pc r); reflexivity.
  - unfold UvicornTrioWorker.step. rewrite H.
    destruct (UvicornTrioWorker.main_pc r); reflexivity.
  - unfold UvicornTrioWorker.step. rewrite H.
    destruct (UvicornTrioWorker.main_pc r);
      cbn [UvicornTrioWorker.trace UvicornTrioWorker.handle_signals
           UvicornTrioWorker.signals UvicornTrioWorker.handle_abort
           UvicornTrioWorker.wait_killed UvicornTrioWorker.killed
           UvicornTrioWorker.set_exit_code UvicornTrioWorker.killed_set];
      rewrite added_app; reflexivity.
Qed.

(** C2 at a worker that drains its listener after a recycling tick: the
    abort is recorded, and the exit code of the run is 1. *)
Lemma abort_signal_mid_drain :
  UvicornWorker.exit_code
    (UvicornWorker.worker
       (UvicornWorker.step gunicorn_handlers
          (UvicornWorker.run gunicorn_handlers ssl_ok base_one 100
             [EvCreated (inl 40%nat); EvRequest 0; EvRequest 0; EvTimer])
          (EvSignals [SIGABRT]))) = 1.
Proof.
  apply (abort_signal_runs_handle_abort gunicorn_handlers).
  reflexivity.
Defined.

(** ** The health check of UvicornWorker *)

Module HealthCheck.
Import UvicornWorker.

Section Filters.

Variable f : Effect -> bool.

Lemma heartbeat_filter (cycle : Z) :
  f Notify = false -> filter f (heartbeat cycle) = [].
Proof.
  intros H. unfold heartbeat. destruct (cycle =? 0); cbn; [now rewrite H | reflexivity].
Qed.

Hypothesis f_close : forall srv, f (Close srv) = false.
Hypothesis f_wait : forall srv, f (WaitClosed srv) = false.
Hypothesis f_stop : f LoopStop = false.

Lemma drain_next_filter (w : Worker) (i : nat) :
  filter f (snd (drain_next w i)) = [].
Proof.
  unfold drain_next.
  destruct (nth_error (servers w) i) as [[srv st] |]; cbn;
    now rewrite ?f_close, ?f_wait, ?f_stop.
Qed.

Lemma drain_effects_filter (l : list (Server * State)) :
  filter f (drain_effects l) = [].
Proof.
  induction l as [| [srv st] l IH]; cbn.
  - now rewrite f_stop.
  - now rewrite f_close, f_wait.
Qed.

End Filters.

Lemma drain_effects_is_drain (l : list (Server * State)) :
  filter is_drain (drain_effects l) = drain_effects l.
Proof.
  induction l as [| [srv st] l IH]; cbn; [reflexivity | now rewrite IH].
Qed.

(** The drain closes every listener, in the order of [self.servers]. *)
Lemma drain_effects_closes (l : list (Server * State)) :
  filter is_close (drain_effects l) = map (fun p => Close (fst p)) l.
Proof.
  induction l as [| [srv st] l IH]; cbn; [reflexivity | now rewrite IH].
Qed.

Section WithBase.

Variable G : BaseHandlers.

(** A tick that clears [alive] and the drain after it, as one run: the
    effects [pre] of the health check, then the drain, then the exit with
    the code the worker had. *)
Lemma shutdown_from_tick (l : Loop) (w' : Worker) (pre : list Effect) (cycle : Z) :
  tick_resume l cycle
  = mkLoop w' (os_ppid l) (create_pc l) (fst (drain_next w' 0))
           (trace l ++ pre ++ snd (drain_next w' 0)) ->
  servers w' = servers (worker l) ->
  exit_code w' = exit_code (worker l) ->
  added (trace l)
        (trace (steps G (tick_resume l cycle)
                      (repeat EvClosed (List.length (servers (worker l))))))
  = pre ++ drain_effects (servers (worker l))
  /\ exit_status (steps G (tick_resume l cycle)
                        (repeat EvClosed (List.length (servers (worker l)))))
     = Some (exit_code (worker l)).
Proof.
  intros Heq Hs Hc. rewrite Heq, <- Hs.
  rewrite LoopFacts.shutdown_run. cbn [trace].
  rewrite added_app. split; [reflexivity |].
  unfold exit_status, stopped. cbn [tick_pc worker]. now rewrite Hc.
Qed.

End WithBase.
End HealthCheck.

(** ** The exit status *)

Module ExitFacts.

Lemma abort_event_spec (ev : Event) :
  abort_event ev = true <-> exists batch, ev = EvSignals batch /\ In SIGABRT batch.
Proof.
  split.
  - destruct ev as [batch | | | | |]; cbn [abort_event]; try discriminate.
    intros H. apply existsb_exists in H as [s [Hin Hs]].
    destruct s; try discriminate. now exists batch.
  - intros [batch [-> Hin]]. cbn [abort_event]. apply existsb_exists.
    now exists SIGABRT.
Qed.

Lemma abort_delivered_later (running : list Event -> bool) (evs : list Event)
      (ev : Event) :
  abort_delivered running evs -> abort_delivered running (evs ++ [ev]).
Proof.
  intros (before & batch & after & -> & Hin & Hl).
  exists before, batch, (after ++ [ev]). rewrite <- app_assoc. now repeat split.
Qed.

Lemma abort_delivered_last (running : list Event -> bool) (evs : list Event)
      (ev : Event) :
  abort_delivered running (evs ++ [ev]) ->
  abort_delivered running evs \/ (abort_event ev = true /\ running evs = true).
Proof.
  intros (before & batch & after & H & Hin & Hl).
  destruct after as [| y after' _] using rev_ind.
  - apply app_inj_tail in H as [-> ->]. right. split; [| exact Hl].
    apply abort_event_spec. now exists batch.
  - rewrite app_comm_cons, app_assoc in H. apply app_inj_tail in H as [-> ->].
    left. now exists before, batch, after'.
Qed.

Lemma no_abort_sent_spec (running : list Event -> bool) (evs : list Event) :
  no_abort_sent evs = true -> ~ abort_delivered running evs.
Proof.
  intros H (before & batch & after & -> & Hin & _).
  unfold no_abort_sent in H. rewrite forallb_app in H.
  apply andb_prop in H as [_ H]. cbn [forallb] in H.
  apply andb_prop in H as [H _].
  assert (Ha : abort_event (EvSignals batch) = true)
    by (apply abort_event_spec; now exists batch).
  rewrite Ha in H. discriminate H.
Qed.

(** Any system of states in which a state that is not live is left alone
    and a live state takes the code 1 from an event that delivers SIGABRT
    and keeps its code under every other event: started with code 0, the
    code is 1 exactly when SIGABRT was delivered to a live state. *)
Section StepSystem.

Variable St : Type.
Variable step : St -> Event -> St.
Variable live : St -> bool.
Variable code : St -> Z.

Hypothesis step_dead : forall s ev, live s = false -> step s ev = s.
Hypothesis step_live :
  forall s ev, live s = true ->
               code (step s ev) = if abort_event ev then 1 else code s.

Lemma code_follows_abort (s0 : St) (evs : list Event) :
  code s0 = 0 ->
  (code (fold_left step evs s0) = 1
   /\ abort_delivered (fun before => live (fold_left step before s0)) evs)
  \/ (code (fold_left step evs s0) = 0
      /\ ~ abort_delivered (fun before => live (fold_left step before s0)) evs).
Proof.
  intros H0. induction evs as [| ev evs IH] using rev_ind.
  - right. split; [exact H0 |].
    intros (before & batch & after & H & _). destruct before; discriminate H.
  - rewrite fold_left_app. cbn [fold_left].
    destruct (live (fold_left step evs s0)) eqn:Hl.
    + rewrite step_live by exact Hl.
      destruct (abort_event ev) eqn:Ha.
      * left. split; [reflexivity |].
        apply abort_event_spec in Ha as [batch [-> Hin]].
        exists evs, batch, []. now repeat split.
      * destruct IH as [[Hc Hd] | [Hc Hd]].
        -- left. split; [exact Hc | now apply abort_delivered_later].
        -- right. split; [exact Hc |].
           intros H. apply abort_delivered_last in H as [H | [H _]];
             [tauto | congruence].
    + rewrite step_dead by exact Hl.
      destruct IH as [[Hc Hd] | [Hc Hd]].
      * left. split; [exact Hc | now apply abort_delivered_later].
      * right. split; [exact Hc |].
        intros H. apply abort_delivered_last in H as [H | [_ H]]; [tauto |].
        cbv beta in H. congruence.
Qed.

End StepSystem.

Section WithBase.

Variable G : BaseHandlers.

(** *** UvicornWorker *)

Lemma deliver_sets_code (batch : list Signal) (w : UvicornWorker.Worker) :
  UvicornWorker.exit_code (fst (UvicornWorker.deliver G batch w))
  = if existsb is_abort_signal batch then 1 else UvicornWorker.exit_code w.
Proof.
  revert w. induction batch as [| s batch IH]; intros w; [reflexivity |].
  cbn [UvicornWorker.deliver existsb].
  assert (H1 : UvicornWorker.exit_code (fst (UvicornWorker.init_signals G s w))
               = if is_abort_signal s then 1 else UvicornWorker.exit_code w)
    by (destruct s; reflexivity).
  destruct (UvicornWorker.init_signals G s w) as [w1 e1]. cbn [fst] in H1.
  specialize (IH w1).
  destruct (UvicornWorker.deliver G batch w1) as [w2 e2]. cbn [fst] in *.
  rewrite IH, H1.
  destruct (is_abort_signal s), (existsb is_abort_signal batch); reflexivity.
Qed.

Lemma tick_resume_keeps_code (l : UvicornWorker.Loop) (cycle : Z) :
  UvicornWorker.exit_code (UvicornWorker.worker (UvicornWorker.tick_resume l cycle))
  = UvicornWorker.exit_code (UvicornWorker.worker l).
Proof.
  destruct (alive (UvicornWorker.base (UvicornWorker.worker l))) eqn:Ha.
  - destruct (UvicornWorker.max_test (UvicornWorker.worker l)) eqn:Hm.
    + rewrite LoopFacts.tick_resume_max by assumption. reflexivity.
    + destruct (UvicornWorker.parent_test (UvicornWorker.os_ppid l)
                                          (UvicornWorker.worker l)) eqn:Hp.
      * rewrite LoopFacts.tick_resume_parent by assumption. reflexivity.
      * unfold UvicornWorker.tick_resume, UvicornWorker.tick_fuel.
        rewrite TickFacts.tick_while_sleep by assumption. reflexivity.
  - rewrite LoopFacts.tick_resume_dead by assumption. reflexivity.
Qed.

(** One event to a loop that has not stopped: SIGABRT sets the code,
    nothing else touches it. *)
Lemma step_sets_code (l : UvicornWorker.Loop) (ev : Event) :
  UvicornWorker.stopped l = false ->
  UvicornWorker.exit_code (UvicornWorker.worker (UvicornWorker.step G l ev))
  = if abort_event ev then 1 else UvicornWorker.exit_code (UvicornWorker.worker l).
Proof.
  intros Hs. unfold UvicornWorker.step. rewrite Hs.
  destruct ev as [batch | r | | | i | p]; cbn [abort_event].
  - pose proof (deliver_sets_code batch (UvicornWorker.worker l)) as H.
    destruct (UvicornWorker.deliver G batch (UvicornWorker.worker l)) as [w es].
    exact H.
  - destruct (UvicornWorker.create_pc l) as [sock rest ssl | | e]; try reflexivity.
    destruct r as [server | e]; [| reflexivity].
    cbn [UvicornWorker.create_resume]. destruct rest; reflexivity.
  - destruct (UvicornWorker.tick_pc l) as [c | i |]; try reflexivity.
    apply tick_resume_keeps_code.
  - destruct (UvicornWorker.tick_pc l) as [c | i |]; try reflexivity.
    destruct (UvicornWorker.drain_next (UvicornWorker.worker l) (S i)); reflexivity.
  - reflexivity.
  - reflexivity.
Qed.

Lemma asyncio_run_start_code (env : SslEnv) (x : Base) (parent : Z) :
  UvicornWorker.exit_code (UvicornWorker.worker (UvicornWorker.run_start env x parent))
  = 0.
Proof.
  unfold UvicornWorker.run_start. rewrite tick_resume_keeps_code.
  unfold UvicornWorker.run_begin, UvicornWorker.create_servers.
  cbn [UvicornWorker.init UvicornWorker.base].
  destruct (ssl_ctx_of env (cfg x)); [| reflexivity].
  destruct (sockets x); reflexivity.
Qed.

Lemma run_code_cause (env : SslEnv) (x : Base) (parent : Z) (evs : list Event) :
  (UvicornWorker.exit_code (UvicornWorker.worker (UvicornWorker.run G env x parent evs))
   = 1
   /\ abort_delivered (asyncio_running G env x parent) evs)
  \/ (UvicornWorker.exit_code
        (UvicornWorker.worker (UvicornWorker.run G env x parent evs)) = 0
      /\ ~ abort_delivered (asyncio_running G env x parent) evs).
Proof.
  refine (code_follows_abort UvicornWorker.Loop (UvicornWorker.step G)
            (fun l => negb (UvicornWorker.stopped l))
            (fun l => UvicornWorker.exit_code (UvicornWorker.worker l))
            _ _ (UvicornWorker.run_start env x parent) evs _).
  - intros s ev H. apply AsyncioLive.step_stopped. now apply negb_false_iff.
  - intros s ev H. apply step_sets_code. now apply negb_true_iff.
  - apply asyncio_run_start_code.
Qed.

(** A health check that clears [alive], then the drain. *)
Lemma recycling_exit (l : UvicornWorker.Loop) (cycle : Z) :
  UvicornWorker.tick_pc l = UvicornWorker.TickSleeping cycle ->
  alive (UvicornWorker.base (UvicornWorker.worker l)) = true ->
  UvicornWorker.max_test (UvicornWorker.worker l) = true ->
  UvicornWorker.exit_status
    (UvicornWorker.steps G l
       (EvTimer :: repeat EvClosed
                     (List.length (UvicornWorker.servers (UvicornWorker.worker l)))))
  = Some (UvicornWorker.exit_code (UvicornWorker.worker l)).
Proof.
  intros Hpc Ha Hm.
  rewrite LoopFacts.steps_cons, (AsyncioLive.step_timer G l cycle Hpc).
  apply (HealthCheck.shutdown_from_tick G l
           (UvicornWorker.set_alive false (UvicornWorker.worker l))
           (ProtocolTick :: UvicornWorker.heartbeat (UvicornWorker.next_cycle cycle)
              ++ [LogInfo MaxRequestsExceeded]) cycle).
  - rewrite LoopFacts.tick_resume_max by assumption. reflexivity.
  - reflexivity.
  - reflexivity.
Qed.

Lemma orphan_exit (l : UvicornWorker.Loop) (cycle : Z) :
  UvicornWorker.tick_pc l = UvicornWorker.TickSleeping cycle ->
  alive (UvicornWorker.base (UvicornWorker.worker l)) = true ->
  UvicornWorker.max_test (UvicornWorker.worker l) = false ->
  UvicornWorker.parent_test (UvicornWorker.os_ppid l) (UvicornWorker.worker l) = true ->
  UvicornWorker.exit_status
    (UvicornWorker.steps G l
       (EvTimer :: repeat EvClosed
                     (List.length (UvicornWorker.servers (UvicornWorker.worker l)))))
  = Some (UvicornWorker.exit_code (UvicornWorker.worker l)).
Proof.
  intros Hpc Ha Hm Hp.
  rewrite LoopFacts.steps_cons, (AsyncioLive.step_timer G l cycle Hpc).
  apply (HealthCheck.shutdown_from_tick G l
           (UvicornWorker.set_alive false (UvicornWorker.worker l))
           (ProtocolTick :: UvicornWorker.heartbeat (UvicornWorker.next_cycle cycle)
              ++ [Getppid; LogInfo ParentChanged]) cycle).
  - rewrite LoopFacts.tick_resume_parent by assumption. reflexivity.
  - reflexivity.
  - reflexivity.
Qed.

(** A signal whose handler clears [alive], the end of the sleep, the
    drain: the exit with the code the handler left. *)
Lemma signal_exit (l : UvicornWorker.Loop) (cycle : Z) (sig : Signal) :
  UvicornWorker.tick_pc l = UvicornWorker.TickSleeping cycle ->
  requests_shutdown sig = true ->
  UvicornWorker.exit_status
    (UvicornWorker.steps G l
       (EvSignals [sig] :: EvTimer
          :: repeat EvClosed
               (List.length (UvicornWorker.servers (UvicornWorker.worker l)))))
  = Some (if is_abort_signal sig then 1
          else UvicornWorker.exit_code (UvicornWorker.worker l)).
Proof.
  intros Hpc Hsig.
  assert (Hst : UvicornWorker.stopped l = false)
    by (unfold UvicornWorker.stopped; now rewrite Hpc).
  rewrite LoopFacts.steps_cons, (AsyncioLive.step_signals G l _ Hst).
  set (l' := UvicornWorker.mkLoop _ _ _ _ _).
  assert (Hpc' : UvicornWorker.tick_pc l' = UvicornWorker.TickSleeping cycle)
    by exact Hpc.
  assert (Hs' : UvicornWorker.servers (UvicornWorker.worker l')
                = UvicornWorker.servers (UvicornWorker.worker l))
    by (destruct sig; try discriminate Hsig; reflexivity).
  assert (Ha' : alive (UvicornWorker.base (UvicornWorker.worker l')) = false)
    by (destruct sig; try discriminate Hsig; reflexivity).
  assert (Hc' : UvicornWorker.exit_code (UvicornWorker.worker l')
                = if is_abort_signal sig then 1
                  else UvicornWorker.exit_code (UvicornWorker.worker l))
    by (destruct sig; try discriminate Hsig; reflexivity).
  rewrite LoopFacts.steps_cons, (AsyncioLive.step_timer G l' cycle Hpc').
  rewrite <- Hs', <- Hc'.
  apply (HealthCheck.shutdown_from_tick G l' (UvicornWorker.worker l') [] cycle).
  - rewrite LoopFacts.tick_resume_dead by exact Ha'. reflexivity.
  - reflexivity.
  - reflexivity.
Qed.

(** *** UvicornTrioWorker *)

Lemma handle_signals_sets_code (batch : list Signal) (w : UvicornTrioWorker.Worker) :
  UvicornTrioWorker.exit_code (fst (UvicornTrioWorker.handle_signals G batch w))
  = if existsb is_abort_signal batch then 1 else UvicornTrioWorker.exit_code w.
Proof.
  revert w. induction batch as [| s batch IH]; intros w; [reflexivity |].
  cbn [UvicornTrioWorker.handle_signals existsb].
  assert (H1 : UvicornTrioWorker.exit_code (fst (UvicornTrioWorker.signals G s w))
               = if is_abort_signal s then 1 else UvicornTrioWorker.exit_code w)
    by (destruct s; reflexivity).
  destruct (UvicornTrioWorker.signals G s w) as [w1 e1]. cbn [fst] in H1.
  specialize (IH w1).
  destruct (UvicornTrioWorker.handle_signals G batch w1) as [w2 e2]. cbn [fst] in *.
  rewrite IH, H1.
  destruct (is_abort_signal s), (existsb is_abort_signal batch); reflexivity.
Qed.

Lemma trio_step_sets_code (r : UvicornTrioWorker.Run) (ev : Event) :
  UvicornTrioWorker.finished r = false ->
  UvicornTrioWorker.exit_code (UvicornTrioWorker.worker (UvicornTrioWorker.step G r ev))
  = if abort_event ev then 1
    else UvicornTrioWorker.exit_code (UvicornTrioWorker.worker r).
Proof.
  intros Hf. unfold UvicornTrioWorker.step. rewrite Hf.
  destruct ev as [batch | res | | | i | p]; cbn [abort_event]; try reflexivity.
  - pose proof (handle_signals_sets_code batch (UvicornTrioWorker.worker r)) as H.
    destruct (UvicornTrioWorker.handle_signals G batch (UvicornTrioWorker.worker r))
      as [w es].
    cbn [fst] in H.
    destruct (UvicornTrioWorker.main_pc r); try exact H.
    destruct (UvicornTrioWorker.wait_killed w); exact H.
  - destruct (UvicornTrioWorker.main_pc r) as [sock rest ssl | | | e]; try reflexivity.
    destruct res as [server | e]; [| reflexivity].
    cbn [UvicornTrioWorker.create_resume]. destruct rest; [| reflexivity].
    cbn [UvicornTrioWorker.create_next].
    destruct (UvicornTrioWorker.wait_killed _); reflexivity.
Qed.

Lemma trio_run_start_code (env : SslEnv) (x : Base) (parent : Z) :
  UvicornTrioWorker.exit_code
    (UvicornTrioWorker.worker (UvicornTrioWorker.run_start env x parent)) = 0.
Proof.
  unfold UvicornTrioWorker.run_start, UvicornTrioWorker.create_servers.
  cbn [UvicornTrioWorker.init UvicornTrioWorker.base].
  destruct (ssl_ctx_of env (cfg x)); [| reflexivity].
  destruct (sockets x); reflexivity.
Qed.

Lemma trio_run_code_cause (env : SslEnv) (x : Base) (parent : Z) (evs : list Event) :
  (UvicornTrioWorker.exit_code
     (UvicornTrioWorker.worker (UvicornTrioWorker.run G env x parent evs)) = 1
   /\ abort_delivered (trio_running G env x parent) evs)
  \/ (UvicornTrioWorker.exit_code
        (UvicornTrioWorker.worker (UvicornTrioWorker.run G env x parent evs)) = 0
      /\ ~ abort_delivered (trio_running G env x parent) evs).
Proof.
  refine (code_follows_abort UvicornTrioWorker.Run (UvicornTrioWorker.step G)
            (fun r => negb (UvicornTrioWorker.finished r))
            (fun r => UvicornTrioWorker.exit_code (UvicornTrioWorker.worker r))
            _ _ (UvicornTrioWorker.run_start env x parent) evs _).
  - intros s ev H. apply TrioFacts.step_finished. now apply negb_false_iff.
  - intros s ev H. apply trio_step_sets_code. now apply negb_true_iff.
  - apply trio_run_start_code.
Qed.

(** A quit or abort signal to a [main] that waits for [killed]: the wait
    returns, the scope is cancelled, [sys.exit] follows. *)
Lemma trio_signal_exit (r : UvicornTrioWorker.Run) (sig : Signal) :
  UvicornTrioWorker.main_pc r = UvicornTrioWorker.MainWaitKilled ->
  requests_shutdown sig = true ->
  UvicornTrioWorker.exit_status (UvicornTrioWorker.step G r (EvSignals [sig]))
  = Some (if is_abort_signal sig then 1
          else UvicornTrioWorker.exit_code (UvicornTrioWorker.worker r)).
Proof.
  intros Hpc Hsig.
  unfold UvicornTrioWorker.step, UvicornTrioWorker.finished. rewrite Hpc.
  destruct sig; try discriminate Hsig; reflexivity.
Qed.

(** An exception out of [main] ends the run; [sys.exit] is not reached. *)
Lemma trio_raised_no_exit (r : UvicornTrioWorker.Run) (e : Exn) (more : list Event) :
  UvicornTrioWorker.main_pc r = UvicornTrioWorker.MainRaised e ->
  UvicornTrioWorker.exit_status (UvicornTrioWorker.steps G r more) = None.
Proof.
  intros Hpc.
  rewrite TrioFacts.steps_finished
    by (unfold UvicornTrioWorker.finished; now rewrite Hpc).
  unfold UvicornTrioWorker.exit_status. now rewrite Hpc.
Qed.

End WithBase.
End ExitFacts.




Module Claims.
Import UvicornWorker.



(** The log of a health check that takes the recycling branch. *)
Lemma recycling_branch_log (l : Loop) (cycle : Z) :
  alive (base (worker l)) = true ->
  max_test (worker l) = true ->
  filter is_log (added (trace l) (trace (tick_resume l cycle)))
  = [LogInfo MaxRequestsExceeded].
Proof.
  intros Ha Hm.
  rewrite (LoopFacts.tick_resume_max l cycle Ha Hm). cbn [trace].
  rewrite added_app. cbn [app filter is_log].
  rewrite !filter_app, HealthCheck.heartbeat_filter,
    (HealthCheck.drain_next_filter is_log) by reflexivity.
  reflexivity.
Qed.

(** A health check that clears [alive]: the effects [pre] of the check,
    none of them a sleep, then the first step of the drain. *)
Lemma tick_shutdown_shape (G : BaseHandlers) (l : Loop) (cycle : Z) :
  alive (base (worker l)) = true ->
  max_test (worker l) || parent_test (os_ppid l) (worker l) = true ->
  exists pre,
    tick_resume l cycle
    = mkLoop (set_alive false (worker l)) (os_ppid l) (create_pc l)
             (fst (drain_next (worker l) 0))
             (trace l ++ pre ++ snd (drain_next (worker l) 0))
    /\ filter is_sleep pre = [] /\ filter is_drain pre = [].
Proof.
  intros Ha Hor.
  destruct (max_test (worker l)) eqn:Hm.
  - eexists. split; [apply (LoopFacts.tick_resume_max l cycle Ha Hm) |].
    cbn [app filter is_sleep is_drain].
    rewrite !filter_app, !HealthCheck.heartbeat_filter by reflexivity.
    split; reflexivity.
  - cbn [orb] in Hor.
    eexists. split; [apply (LoopFacts.tick_resume_parent l cycle Ha Hm Hor) |].
    cbn [app filter is_sleep is_drain].
    rewrite !filter_app, !HealthCheck.heartbeat_filter by reflexivity.
    split; reflexivity.
Qed.

(** C9.  On a health check where the recycling test and the parent test
    both hold, the recycling branch alone runs: one line is logged, "Max
    requests exceeded", and [os.getppid()] is not called. *)
Theorem max_requests_branch_shadows_parent_check (l : Loop) (cycle : Z) :
  alive (base (worker l)) = true ->
  max_test (worker l) = true ->
  parent_test (os_ppid l) (worker l) = true ->
  filter is_log (added (trace l) (trace (tick_resume l cycle)))
  = [LogInfo MaxRequestsExceeded]
  /\ filter is_getppid (added (trace l) (trace (tick_resume l cycle))) = []
  /\ alive (base (worker (tick_resume l cycle))) = false.
Proof.
  intros Ha Hm _.
  rewrite (LoopFacts.tick_resume_max l cycle Ha Hm). cbn [trace worker].
  rewrite added_app. cbn [app filter is_log is_getppid].
  rewrite !filter_app, !HealthCheck.heartbeat_filter,
    !HealthCheck.drain_next_filter by reflexivity.
  repeat split.
Qed.

(** C9 at the worker of [both_events]: two requests over a limit of 1 and a
    new parent. *)
Lemma max_requests_branch_shadows_example :
  filter is_log
    (added (trace (run gunicorn_handlers ssl_ok base_one 100 both_events))
           (trace (tick_resume
                     (run gunicorn_handlers ssl_ok base_one 100 both_events) 1)))
  = [LogInfo MaxRequestsExceeded].
Proof.
  apply (max_requests_branch_shadows_parent_check
           (run gunicorn_handlers ssl_ok base_one 100 both_events) 1);
    vm_compute; reflexivity.
Defined.

(** C10.  A health check that clears [alive] itself, by either test, does
    not sleep: in the same resumption the [while] is left and the drain
    begins ([close] and [wait_closed] of the first listener, or
    [loop.stop()] when there is none); then one [wait_closed] after the
    other resolves, every listener is closed in turn and the loop stops,
    with no timer in between. *)
Theorem shutting_tick_skips_sleep (G : BaseHandlers) (l : Loop) (cycle : Z) :
  alive (base (worker l)) = true ->
  max_test (worker l) || parent_test (os_ppid l) (worker l) = true ->
  alive (base (worker (tick_resume l cycle))) = false
  /\ filter is_sleep (added (trace l) (trace (tick_resume l cycle))) = []
  /\ tick_pc (tick_resume l cycle) = fst (drain_next (worker l) 0)
  /\ filter is_drain (added (trace l) (trace (tick_resume l cycle)))
     = snd (drain_next (worker l) 0)
  /\ filter is_drain
       (added (trace l)
              (trace (steps G (tick_resume l cycle)
                             (repeat EvClosed (List.length (servers (worker l)))))))
     = drain_effects (servers (worker l))
  /\ filter is_sleep
       (added (trace l)
              (trace (steps G (tick_resume l cycle)
                             (repeat EvClosed (List.length (servers (worker l)))))))
     = []
  /\ stopped (steps G (tick_resume l cycle)
                    (repeat EvClosed (List.length (servers (worker l)))))
     = true.
Proof.
  intros Ha Hor.
  assert (Hdn : filter is_drain (snd (drain_next (worker l) 0))
                = snd (drain_next (worker l) 0)).
  { unfold drain_next.
    destruct (nth_error (servers (worker l)) 0) as [[srv st] |]; reflexivity. }
  destruct (tick_shutdown_shape G l cycle Ha Hor)
    as [pre [Heq [Hsl Hdr]]].
  destruct (HealthCheck.shutdown_from_tick G l (set_alive false (worker l)) pre cycle
              Heq eq_refl eq_refl) as [Hrun Hexit].
  rewrite Hrun. rewrite Heq at 1 2 3 4. cbn [worker trace tick_pc].
  rewrite added_app, !filter_app, Hsl, Hdr, Hdn.
  rewrite (HealthCheck.drain_next_filter is_sleep),
    (HealthCheck.drain_effects_filter is_sleep),
    HealthCheck.drain_effects_is_drain by reflexivity.
  repeat split.
  unfold exit_status in Hexit.
  destruct (stopped _); [reflexivity | discriminate].
Qed.

(** C10 at the worker of [orphan_events] when its sleep ends: the drain of
    its listener is all that follows the check. *)
Lemma shutting_tick_skips_sleep_example :
  filter is_drain
    (added (trace (run gunicorn_handlers ssl_ok base_one 100
                       [EvCreated (inl 40%nat); EvReparent 1]))
           (trace (steps gunicorn_handlers
                         (tick_resume
                            (run gunicorn_handlers ssl_ok base_one 100
                                 [EvCreated (inl 40%nat); EvReparent 1]) 1)
                         (repeat EvClosed 1))))
  = [Close 40%nat; WaitClosed 40%nat; LoopStop].
Proof.
  apply (shutting_tick_skips_sleep gunicorn_handlers
           (run gunicorn_handlers ssl_ok base_one 100
                [EvCreated (inl 40%nat); EvReparent 1]) 1);
    vm_compute; reflexivity.
Defined.

End Claims.

Module OrphanClaims.
Import UvicornWorker.

(** C6 as stated fails on a health check where the recycling test holds
    too: the worker of [both_events] is alive and its parent has changed,
    and the sleep ends; the one line logged is "Max requests exceeded", not
    "Parent changed". *)
Lemma parent_change_logged_as_max_requests :
  alive (base (worker (run gunicorn_handlers ssl_ok base_one 100 both_events))) = true
  /\ ppid (base (worker (run gunicorn_handlers ssl_ok base_one 100 both_events))) = 100
  /\ os_ppid (run gunicorn_handlers ssl_ok base_one 100 both_events) = 1
  /\ tick_pc (run gunicorn_handlers ssl_ok base_one 100 both_events) = TickSleeping 1
  /\ filter is_log
       (added (trace (run gunicorn_handlers ssl_ok base_one 100 both_events))
              (trace (step gunicorn_handlers
                           (run gunicorn_handlers ssl_ok base_one 100 both_events)
                           EvTimer)))
     = [LogInfo MaxRequestsExceeded]
  /\ existsb (fun e => match e with LogInfo ParentChanged => true | _ => false end)
             (trace (run gunicorn_handlers ssl_ok base_one 100
                         (both_events ++ [EvTimer; EvClosed])))
     = false.
Proof.
  vm_compute. repeat split.
Qed.

(** C6, amended.  A health check of a live worker whose parent is no longer
    the one recorded clears [alive], and after the drain the process exits
    with status 0 (no abort handled), no signal being involved.  When the
    recycling test fails, the check calls [os.getppid()] and logs "Parent
    changed"; when it holds, the line logged is "Max requests exceeded"
    alone. *)
Theorem tick_leaves_when_parent_changed
        (G : BaseHandlers) (l : Loop) (cycle : Z) :
  alive (base (worker l)) = true ->
  ppid (base (worker l)) <> os_ppid l ->
  exit_code (worker l) = 0 ->
  (tick_pc l = TickSleeping cycle -> step G l EvTimer = tick_resume l cycle)
  /\ alive (base (worker (tick_resume l cycle))) = false
  /\ filter is_drain
       (added (trace l)
              (trace (steps G (tick_resume l cycle)
                            (repeat EvClosed (List.length (servers (worker l)))))))
     = drain_effects (servers (worker l))
  /\ exit_status (steps G (tick_resume l cycle)
                        (repeat EvClosed (List.length (servers (worker l)))))
     = Some 0
  /\ (max_test (worker l) = false ->
      added (trace l) (trace (tick_resume l cycle))
      = (ProtocolTick :: heartbeat (next_cycle cycle) ++ [Getppid; LogInfo ParentChanged])
          ++ snd (drain_next (worker l) 0)
      /\ filter is_log (added (trace l) (trace (tick_resume l cycle)))
         = [LogInfo ParentChanged])
  /\ (max_test (worker l) = true ->
      filter is_log (added (trace l) (trace (tick_resume l cycle)))
      = [LogInfo MaxRequestsExceeded]).
Proof.
  intros Ha Hne Hcode.
  assert (Hp : parent_test (os_ppid l) (worker l) = true).
  { unfold parent_test. destruct (Z.eqb_spec (ppid (base (worker l))) (os_ppid l));
      [contradiction | reflexivity]. }
  assert (Hor : max_test (worker l) || parent_test (os_ppid l) (worker l) = true)
    by (rewrite Hp; apply orb_true_r).
  destruct (Claims.tick_shutdown_shape G l cycle Ha Hor)
    as [pre [Heq [_ Hdr]]].
  destruct (HealthCheck.shutdown_from_tick G l (set_alive false (worker l)) pre cycle
              Heq eq_refl eq_refl) as [Hrun Hexit].
  split; [apply AsyncioLive.step_timer |].
  split; [now rewrite Heq |].
  split; [rewrite Hrun, filter_app, Hdr; apply HealthCheck.drain_effects_is_drain |].
  split; [now rewrite Hexit, Hcode |].
  split.
  - intros Hm.
    rewrite (LoopFacts.tick_resume_parent l cycle Ha Hm Hp). cbn [trace].
    rewrite added_app. split; [reflexivity |].
    cbn [app filter is_log].
    rewrite !filter_app, HealthCheck.heartbeat_filter,
      (HealthCheck.drain_next_filter is_log) by reflexivity.
    reflexivity.
  - intros Hm.
    apply (Claims.recycling_branch_log l cycle Ha Hm).
Qed.

(** C6, amended, at the worker of [orphan_events] when its sleep ends: no
    request was served, the parent is now process 1, the exit status is 0. *)
Lemma tick_leaves_orphan_example :
  exit_status
    (steps gunicorn_handlers
       (tick_resume
          (run gunicorn_handlers ssl_ok base_one 100
               [EvCreated (inl 40%nat); EvReparent 1]) 1)
       (repeat EvClosed 1))
  = Some 0.
Proof.
  apply (tick_leaves_when_parent_changed gunicorn_handlers
           (run gunicorn_handlers ssl_ok base_one 100
                [EvCreated (inl 40%nat); EvReparent 1]) 1);
    vm_compute; [reflexivity | discriminate | reflexivity].
Defined.

End OrphanClaims.

(** ** Signals and the wait of the main loop *)

Module WakeClaims.




End WakeClaims.

(** ** Starting the listeners *)

Module StartFacts.

Lemma plaintext_app (a b : list Effect) :
  plaintext a -> plaintext b -> plaintext (a ++ b).
Proof.
  intros Ha Hb sock ssl Hin. apply in_app_or in Hin.
  destruct Hin as [Hin | Hin]; [eapply Ha | eapply Hb]; eassumption.
Qed.

Lemma plaintext_no_create (es : list Effect) :
  filter is_create es = [] -> plaintext es.
Proof.
  intros Hf sock ssl Hin.
  assert (Hin' : In (CreateServer sock ssl) (filter is_create es))
    by (apply filter_In; split; [assumption | reflexivity]).
  rewrite Hf in Hin'. destruct Hin'.
Qed.

Section WithBase.

Variable G : BaseHandlers.

Lemma deliver_no_create (batch : list Signal) (w : UvicornWorker.Worker) :
  filter is_create (snd (UvicornWorker.deliver G batch w)) = [].
Proof.
  revert w. induction batch as [| s batch IH]; intros w; [reflexivity |].
  cbn [UvicornWorker.deliver].
  assert (H1 : filter is_create (snd (UvicornWorker.init_signals G s w)) = [])
    by (destruct s; reflexivity).
  destruct (UvicornWorker.init_signals G s w) as [w1 e1].
  pose proof (IH w1) as H2.
  destruct (UvicornWorker.deliver G batch w1) as [w2 e2]. cbn [snd] in *.
  now rewrite filter_app, H1, H2.
Qed.

Lemma handle_signals_no_create (batch : list Signal) (w : UvicornTrioWorker.Worker) :
  filter is_create (snd (UvicornTrioWorker.handle_signals G batch w)) = [].
Proof.
  revert w. induction batch as [| s batch IH]; intros w; [reflexivity |].
  cbn [UvicornTrioWorker.handle_signals].
  assert (H1 : filter is_create (snd (UvicornTrioWorker.signals G s w)) = [])
    by (destruct s; reflexivity).
  destruct (UvicornTrioWorker.signals G s w) as [w1 e1].
  pose proof (IH w1) as H2.
  destruct (UvicornTrioWorker.handle_signals G batch w1) as [w2 e2]. cbn [snd] in *.
  now rewrite filter_app, H1, H2.
Qed.

(** A resumption of [tick] starts no listener and leaves [create_servers]
    where it is. *)
Lemma tick_resume_no_create (l : UvicornWorker.Loop) (cycle : Z) :
  UvicornWorker.create_pc (UvicornWorker.tick_resume l cycle) = UvicornWorker.create_pc l
  /\ exists es,
       UvicornWorker.trace (UvicornWorker.tick_resume l cycle) = UvicornWorker.trace l ++ es
       /\ filter is_create es = [].
Proof.
  destruct (alive (UvicornWorker.base (UvicornWorker.worker l))) eqn:Ha.
  - destruct (UvicornWorker.max_test (UvicornWorker.worker l)) eqn:Hm.
    + rewrite (LoopFacts.tick_resume_max l cycle Ha Hm).
      split; [reflexivity |]. eexists. split; [reflexivity |].
      cbn [app filter is_create].
      rewrite !filter_app, HealthCheck.heartbeat_filter,
        (HealthCheck.drain_next_filter is_create) by reflexivity.
      reflexivity.
    + destruct (UvicornWorker.parent_test (UvicornWorker.os_ppid l)
                                          (UvicornWorker.worker l)) eqn:Hp.
      * rewrite (LoopFacts.tick_resume_parent l cycle Ha Hm Hp).
        split; [reflexivity |]. eexists. split; [reflexivity |].
        cbn [app filter is_create].
        rewrite !filter_app, HealthCheck.heartbeat_filter,
          (HealthCheck.drain_next_filter is_create) by reflexivity.
        reflexivity.
      * unfold UvicornWorker.tick_resume, UvicornWorker.tick_fuel.
        rewrite (TickFacts.tick_while_sleep _ _ _ _ Ha Hm Hp).
        split; [reflexivity |]. eexists. split; [reflexivity |].
        cbn [app filter is_create].
        rewrite !filter_app, HealthCheck.heartbeat_filter by reflexivity.
        reflexivity.
  - rewrite (LoopFacts.tick_resume_dead l cycle Ha).
    split; [reflexivity |]. eexists. split; [reflexivity |].
    apply (HealthCheck.drain_next_filter is_create); reflexivity.
Qed.

Lemma create_next_plain (w : UvicornWorker.Worker) (socks : list Socket) :
  plaintext (snd (UvicornWorker.create_next w socks None))
  /\ forall sock rest ssl,
       snd (fst (UvicornWorker.create_next w socks None))
       = UvicornWorker.CreateAwait sock rest ssl -> ssl = None.
Proof.
  destruct socks as [| s socks]; cbn.
  - split; [intros sock ssl [] | discriminate].
  - split.
    + intros sock ssl [H | []]. now injection H.
    + intros sock rest ssl H. now injection H.
Qed.

Lemma step_plain (l : UvicornWorker.Loop) (ev : Event) :
  plain_loop l -> plain_loop (UvicornWorker.step G l ev).
Proof.
  intros [Htr Hpc]. unfold UvicornWorker.step.
  destruct (UvicornWorker.stopped l); [now split |].
  destruct ev as [batch | r | | | i | p].
  - pose proof (deliver_no_create batch (UvicornWorker.worker l)) as H.
    destruct (UvicornWorker.deliver G batch (UvicornWorker.worker l)) as [w es].
    split; [| exact Hpc].
    apply plaintext_app; [exact Htr | now apply plaintext_no_create].
  - destruct (UvicornWorker.create_pc l) as [sock rest ssl | | e] eqn:Hc;
      try (split; [exact Htr | now rewrite Hc]).
    assert (ssl = None) by (eapply Hpc; reflexivity). subst ssl.
    destruct r as [server | e]; cbn [UvicornWorker.create_resume].
    + pose proof (create_next_plain
                    (UvicornWorker.set_servers
                       (UvicornWorker.servers (UvicornWorker.worker l)
                          ++ [(server, state0)]) (UvicornWorker.worker l)) rest) as [H1 H2].
      destruct (UvicornWorker.create_next _ rest None) as [[w cpc] es].
      split; [apply plaintext_app; assumption | exact H2].
    + split; [cbn; now rewrite app_nil_r | discriminate].
  - destruct (UvicornWorker.tick_pc l) as [cycle | i |]; try now split.
    destruct (tick_resume_no_create l cycle) as [Hc [es [Ht Hf]]].
    split; [rewrite Ht | rewrite Hc; exact Hpc].
    apply plaintext_app; [exact Htr | now apply plaintext_no_create].
  - destruct (UvicornWorker.tick_pc l) as [cycle | i |]; try now split.
    pose proof (HealthCheck.drain_next_filter is_create
                  (fun _ => eq_refl) (fun _ => eq_refl) eq_refl
                  (UvicornWorker.worker l) (S i)) as H.
    destruct (UvicornWorker.drain_next (UvicornWorker.worker l) (S i)) as [pc es].
    split; [| exact Hpc].
    apply plaintext_app; [exact Htr | now apply plaintext_no_create].
  - now split.
  - now split.
Qed.

(** Without TLS, every listener of a run of UvicornWorker is started with
    [ssl=None]. *)
Lemma run_plain (env : SslEnv) (x : Base) (parent : Z) (evs : list Event) :
  is_ssl (cfg x) = false ->
  plaintext (UvicornWorker.trace (UvicornWorker.run G env x parent evs)).
Proof.
  intros Hssl.
  assert (H0 : plain_loop (UvicornWorker.run_start env x parent)).
  { unfold UvicornWorker.run_start.
    assert (Hb : plain_loop (UvicornWorker.run_begin env x parent)).
    { unfold UvicornWorker.run_begin, UvicornWorker.create_servers, ssl_ctx_of.
      cbn [UvicornWorker.init UvicornWorker.base]. rewrite Hssl.
      pose proof (create_next_plain (UvicornWorker.init x) (sockets x)) as [H1 H2].
      cbn [UvicornWorker.init] in H1, H2.
      destruct (UvicornWorker.create_next _ (sockets x) None) as [[w cpc] es].
      split; [| exact H2].
      apply plaintext_app; [exact H1 | intros sock ssl [H | []]; discriminate H]. }
    destruct Hb as [Htr Hpc].
    destruct (tick_resume_no_create (UvicornWorker.run_begin env x parent) 0)
      as [Hc [es [Ht Hf]]].
    split; [rewrite Ht | rewrite Hc; exact Hpc].
    apply plaintext_app; [exact Htr | now apply plaintext_no_create]. }
  unfold UvicornWorker.run. revert H0.
  generalize (UvicornWorker.run_start env x parent).
  induction evs as [| ev evs IH]; intros l Hl; [apply Hl |].
  rewrite LoopFacts.steps_cons. apply IH. now apply step_plain.
Qed.

End WithBase.
End StartFacts.

Module TrioStart.
Import UvicornTrioWorker.

Section WithBase.

Variable G : BaseHandlers.

Lemma wait_killed_no_create (w : Worker) : filter is_create (snd (wait_killed w)) = [].
Proof. unfold wait_killed. destruct (killed w); reflexivity. Qed.

Lemma trio_create_next_plain (w : Worker) (socks : list Socket) :
  plaintext (snd (create_next w socks None))
  /\ forall sock rest ssl,
       snd (fst (create_next w socks None)) = MainCreating sock rest ssl -> ssl = None.
Proof.
  destruct socks as [| s socks]; cbn [create_next].
  - pose proof (wait_killed_no_create w) as H. unfold wait_killed in *.
    destruct (killed w); cbn in *.
    + split; [now apply StartFacts.plaintext_no_create | discriminate].
    + split; [intros sock ssl [] | discriminate].
  - cbn. split.
    + intros sock ssl [H | []]. now injection H.
    + intros sock rest ssl H. now injection H.
Qed.

Lemma trio_step_plain (r : Run) (ev : Event) :
  plain_run r -> plain_run (step G r ev).
Proof.
  intros [Htr Hpc]. unfold step.
  destruct (finished r); [now split |].
  destruct ev as [batch | res | | | i | p]; try now split.
  - pose proof (StartFacts.handle_signals_no_create G batch (worker r)) as H.
    destruct (handle_signals G batch (worker r)) as [w es]. cbn [snd] in H.
    destruct (main_pc r) as [sock rest ssl | | | e] eqn:Hm.
    + split; [| intros sock' rest' ssl' Heq; injection Heq as _ _ <-;
                 eapply Hpc; reflexivity].
      apply StartFacts.plaintext_app;
        [exact Htr | now apply StartFacts.plaintext_no_create].
    + pose proof (wait_killed_no_create w) as Hk.
      destruct (wait_killed w) as [pc es'] eqn:Hw. cbn [snd] in Hk.
      split.
      * cbn [trace]. apply StartFacts.plaintext_app; [exact Htr |].
        apply StartFacts.plaintext_no_create. now rewrite filter_app, H, Hk.
      * cbn [main_pc]. unfold wait_killed in Hw.
        destruct (killed w); injection Hw as <- _; discriminate.
    + split; [| discriminate].
      apply StartFacts.plaintext_app;
        [exact Htr | now apply StartFacts.plaintext_no_create].
    + split; [| discriminate].
      apply StartFacts.plaintext_app;
        [exact Htr | now apply StartFacts.plaintext_no_create].
  - destruct (main_pc r) as [sock rest ssl | | | e] eqn:Hm;
      try (split; [exact Htr | rewrite Hm; discriminate]).
    assert (ssl = None) by (eapply Hpc; reflexivity). subst ssl.
    destruct res as [server | e]; cbn [create_resume].
    + pose proof (trio_create_next_plain
                    (set_servers (servers (worker r) ++ [(server, state0)]) (worker r))
                    rest) as [H1 H2].
      destruct (create_next _ rest None) as [[w pc] es].
      split; [apply StartFacts.plaintext_app; assumption | exact H2].
    + split; [cbn; now rewrite app_nil_r | discriminate].
Qed.

(** Without TLS, every listener of a run of UvicornTrioWorker is started
    with [ssl=None]. *)
Lemma trio_run_plain (env : SslEnv) (x : Base) (parent : Z) (evs : list Event) :
  is_ssl (cfg x) = false ->
  plaintext (trace (run G env x parent evs)).
Proof.
  intros Hssl.
  assert (H0 : plain_run (run_start env x parent)).
  { unfold run_start, create_servers, ssl_ctx_of. cbn [init base]. rewrite Hssl.
    pose proof (trio_create_next_plain (init x) (sockets x)) as [H1 H2].
    cbn [init] in H1, H2.
    destruct (create_next _ (sockets x) None) as [[w pc] es].
    split; [exact H1 | exact H2]. }
  unfold run. revert H0. generalize (run_start env x parent).
  induction evs as [| ev evs IH]; intros r Hr; [apply Hr |].
  rewrite TrioFacts.trio_steps_cons. apply IH. now apply trio_step_plain.
Qed.

End WithBase.
End TrioStart.

(** ** The TLS context *)

Lemma create_ssl_context_ok (env : SslEnv) (c : Cfg) (ctx : SSLContext) :
  create_ssl_context env c = inl ctx ->
  protocol ctx = ssl_version c
  /\ cert_chain ctx = Some (certfile c, keyfile c)
  /\ verify_mode ctx = cert_reqs c
  /\ verify_locations ctx
     = (if truthy_str (ca_certs c)
        then match ca_certs c with Some ca => [ca] | None => [] end
        else [])
  /\ cipher_list ctx = (if truthy_str (ciphers c) then ciphers c else None).
Proof.
  unfold create_ssl_context.
  destruct (ssl_context_ok env (ssl_version c)); cbn [negb]; [| discriminate].
  destruct (load_cert_chain_ok env (certfile c) (keyfile c)); cbn [negb];
    [| discriminate].
  cbn [protocol].
  destruct (verify_mode_ok env (ssl_version c) (cert_reqs c)); cbn [negb];
    [| discriminate].
  destruct (ca_certs c) as [ca |]; cbn [truthy_str];
    [destruct (String.eqb ca EmptyString); cbn [negb];
     [| destruct (load_verify_locations_ok env ca); [| discriminate]] |];
    (destruct (ciphers c) as [cs |]; cbn [truthy_str];
     [destruct (String.eqb cs EmptyString); cbn [negb];
      [| destruct (set_ciphers_ok env cs); [| discriminate]] |]);
    intros H; injection H as <-; cbn; repeat split.
Qed.

Lemma truthy_str_spec (s : option string) :
  truthy_str s = true <-> exists v, s = Some v /\ v <> EmptyString.
Proof.
  destruct s as [v |]; cbn [truthy_str].
  - destruct (String.eqb_spec v EmptyString) as [E | E]; cbn [negb].
    + split; [discriminate | intros [v' [H1 H2]]; congruence].
    + split; [intros _; now exists v | reflexivity].
  - split; [discriminate | intros [v' [H1 _]]; discriminate H1].
Qed.

(** C8 as stated fails for a value that is present and empty.  In
    [empty_strings_cfg] both [ca_certs] and [ciphers] are given, as empty
    strings; under [ssl_strict], where [load_verify_locations] and
    [set_ciphers] raise for every argument, [create_ssl_context] succeeds
    with no CA bundle loaded and no cipher restriction: neither method is
    called. *)
Lemma empty_ca_and_ciphers_are_skipped :
  ca_certs empty_strings_cfg = Some EmptyString
  /\ ciphers empty_strings_cfg = Some EmptyString
  /\ load_verify_locations_ok ssl_strict EmptyString = false
  /\ set_ciphers_ok ssl_strict EmptyString = false
  /\ create_ssl_context ssl_strict empty_strings_cfg
     = inl (mkSSLContext 2 (Some (Some "server.crt"%string, Some "server.key"%string))
                         2 [] None).
Proof.
  repeat split.
Qed.

(** C8, amended.  A context that [create_ssl_context] returns has
    [cfg.cert_reqs] as its [verify_mode]; the CA bundle is loaded exactly
    when [cfg.ca_certs] is a non-empty string and the ciphers are
    restricted exactly when [cfg.ciphers] is a non-empty string (an absent
    or empty value is skipped, as [if cfg.ca_certs:] and [if cfg.ciphers:]
    test it).  The method returns a context whenever the calls it makes
    into the [ssl] module succeed.  With [cfg.is_ssl] false it is not called
    at all, whatever the [ssl] module would do, and both classes pass
    [ssl=None] for every listener they start, from the first socket on. *)
Theorem tls_context_follows_cfg (G : BaseHandlers) (env : SslEnv) (c : Cfg) :
  (forall ctx,
      create_ssl_context env c = inl ctx ->
      verify_mode ctx = cert_reqs c
      /\ (verify_locations ctx <> []
          <-> exists ca, ca_certs c = Some ca /\ ca <> EmptyString)
      /\ (forall ca, ca_certs c = Some ca -> ca <> EmptyString ->
                     verify_locations ctx = [ca])
      /\ (cipher_list ctx <> None
          <-> exists cs, ciphers c = Some cs /\ cs <> EmptyString)
      /\ (forall cs, ciphers c = Some cs -> cs <> EmptyString ->
                     cipher_list ctx = Some cs))
  /\ (ssl_context_ok env (ssl_version c) = true ->
      load_cert_chain_ok env (certfile c) (keyfile c) = true ->
      verify_mode_ok env (ssl_version c) (cert_reqs c) = true ->
      (forall ca, ca_certs c = Some ca -> ca <> EmptyString ->
                  load_verify_locations_ok env ca = true) ->
      (forall cs, ciphers c = Some cs -> cs <> EmptyString ->
                  set_ciphers_ok env cs = true) ->
      exists ctx, create_ssl_context env c = inl ctx)
  /\ (is_ssl c = false ->
      ssl_ctx_of env c = inl None
      /\ forall (alive0 : bool) (ppid0 max0 : Z) (socks : list Socket)
                (parent : Z) (evs : list Event),
          plaintext
            (UvicornWorker.trace
               (UvicornWorker.run G env (mkBase alive0 ppid0 max0 socks c) parent evs))
          /\ plaintext
               (UvicornTrioWorker.trace
                  (UvicornTrioWorker.run G env (mkBase alive0 ppid0 max0 socks c)
                                         parent evs))
          /\ UvicornWorker.trace
               (UvicornWorker.run_begin env (mkBase alive0 ppid0 max0 socks c) parent)
             = map (fun sock => CreateServer sock None) (firstn 1 socks) ++ [Getpid]
          /\ UvicornTrioWorker.trace
               (UvicornTrioWorker.run_start env (mkBase alive0 ppid0 max0 socks c) parent)
             = map (fun sock => CreateServer sock None) (firstn 1 socks)).
Proof.
  split; [| split].
  - intros ctx Hctx.
    destruct (create_ssl_context_ok env c ctx Hctx) as [_ [_ [Hv [Hca Hci]]]].
    split; [exact Hv |].
    rewrite Hca, Hci.
    destruct (ca_certs c) as [ca |]; cbn [truthy_str];
      [destruct (String.eqb_spec ca EmptyString) as [Eca | Eca]; cbn [negb] |];
      (destruct (ciphers c) as [cs |]; cbn [truthy_str];
       [destruct (String.eqb_spec cs EmptyString) as [Ecs | Ecs]; cbn [negb] |]);
      repeat split; intros;
      repeat match goal with
             | H : exists _, _ |- _ => destruct H
             | H : _ /\ _ |- _ => destruct H
             end;
      try discriminate; try congruence; eauto.
  - intros H1 H2 H3 Hca Hci. unfold create_ssl_context.
    rewrite H1, H2. cbn [negb protocol]. rewrite H3. cbn [negb].
    destruct (ca_certs c) as [ca |]; cbn [truthy_str];
      [destruct (String.eqb_spec ca EmptyString) as [Eca | Eca]; cbn [negb];
       [| rewrite (Hca ca eq_refl Eca)] |];
      (destruct (ciphers c) as [cs |]; cbn [truthy_str];
       [destruct (String.eqb_spec cs EmptyString) as [Ecs | Ecs]; cbn [negb];
        [| rewrite (Hci cs eq_refl Ecs)] |]);
      eexists; reflexivity.
  - intros Hssl.
    split; [unfold ssl_ctx_of; now rewrite Hssl |].
    intros alive0 ppid0 max0 socks parent evs.
    split; [now apply StartFacts.run_plain |].
    split; [now apply TrioStart.trio_run_plain |].
    unfold UvicornWorker.run_begin, UvicornWorker.create_servers,
      UvicornTrioWorker.run_start, UvicornTrioWorker.create_servers, ssl_ctx_of.
    cbn [UvicornWorker.init UvicornWorker.base UvicornTrioWorker.init
         UvicornTrioWorker.base cfg sockets].
    rewrite Hssl. destruct socks as [| sock socks]; split; reflexivity.
Qed.

(** C8, amended, at [tls_cfg] with an [ssl] module whose calls succeed:
    a context is built, and the one built carries the configured
    verification mode, the CA bundle and the cipher list; at
    [empty_strings_cfg] under [ssl_strict] the context built has neither;
    at [plain_cfg] no context is built, even by an [ssl] module in which
    every call raises. *)
Lemma tls_context_of_tls_cfg :
  (exists ctx, create_ssl_context ssl_ok tls_cfg = inl ctx)
  /\ verify_mode
       (mkSSLContext 2 (Some (Some "server.crt"%string, Some "server.key"%string)) 2
                     ["ca.pem"%string] (Some "HIGH"%string))
     = cert_reqs tls_cfg
  /\ verify_locations
       (mkSSLContext 2 (Some (Some "server.crt"%string, Some "server.key"%string)) 2
                     ["ca.pem"%string] (Some "HIGH"%string))
     = ["ca.pem"%string]
  /\ cipher_list
       (mkSSLContext 2 (Some (Some "server.crt"%string, Some "server.key"%string)) 2
                     ["ca.pem"%string] (Some "HIGH"%string))
     = Some "HIGH"%string
  /\ ~ (exists ca, ca_certs empty_strings_cfg = Some ca /\ ca <> EmptyString)
  /\ ssl_ctx_of ssl_broken plain_cfg = inl None.
Proof.
  destruct (tls_context_follows_cfg gunicorn_handlers ssl_ok tls_cfg)
    as [Hctx [Hbuilt _]].
  destruct (Hctx (mkSSLContext 2 (Some (Some "server.crt"%string,
                                        Some "server.key"%string)) 2
                               ["ca.pem"%string] (Some "HIGH"%string)) eq_refl)
    as [Hv [_ [Hca [_ Hci]]]].
  split; [apply Hbuilt; intros; reflexivity |].
  split; [exact Hv |].
  split; [apply (Hca "ca.pem"%string eq_refl); discriminate |].
  split; [apply (Hci "HIGH"%string eq_refl); discriminate |].
  split.
  - destruct (tls_context_follows_cfg gunicorn_handlers ssl_strict empty_strings_cfg)
      as [Hempty _].
    destruct (Hempty (mkSSLContext 2 (Some (Some "server.crt"%string,
                                            Some "server.key"%string)) 2 [] None)
                     eq_refl)
      as [_ [Hloc _]].
    intros H. apply Hloc in H. now apply H.
  - apply (tls_context_follows_cfg gunicorn_handlers ssl_broken plain_cfg).
    reflexivity.
Defined.

(** ** A listener that fails to start *)

Module StartClaims.

(** C7 as stated fails.  Two sockets, the first listener starts (server
    40), the second raises: [create_servers] ends with the exception, server
    40 stays in [self.servers], no [close] has been called, and the loop of
    UvicornWorker runs on with [tick] asleep, so nothing reaches the
    supervisor.  In UvicornTrioWorker the exception leaves [main], and the
    worker has called no [close] either. *)
Lemma failed_start_leaves_listener_open :
  UvicornWorker.create_pc
    (UvicornWorker.run gunicorn_handlers ssl_ok base_two 100 failing_start_events)
  = UvicornWorker.CreateRaised ServerStartError
  /\ UvicornWorker.servers
       (UvicornWorker.worker
          (UvicornWorker.run gunicorn_handlers ssl_ok base_two 100 failing_start_events))
     = [(40%nat, state0)]
  /\ filter is_close
       (UvicornWorker.trace
          (UvicornWorker.run gunicorn_handlers ssl_ok base_two 100 failing_start_events))
     = []
  /\ UvicornWorker.tick_pc
       (UvicornWorker.run gunicorn_handlers ssl_ok base_two 100 failing_start_events)
     = UvicornWorker.TickSleeping 1
  /\ UvicornWorker.exit_status
       (UvicornWorker.run gunicorn_handlers ssl_ok base_two 100 failing_start_events)
     = None
  /\ UvicornTrioWorker.main_pc
       (UvicornTrioWorker.run gunicorn_handlers ssl_ok base_two 100 failing_start_events)
     = UvicornTrioWorker.MainRaised ServerStartError
  /\ UvicornTrioWorker.servers
       (UvicornTrioWorker.worker
          (UvicornTrioWorker.run gunicorn_handlers ssl_ok base_two 100
                                 failing_start_events))
     = [(40%nat, state0)]
  /\ filter is_close
       (UvicornTrioWorker.trace
          (UvicornTrioWorker.run gunicorn_handlers ssl_ok base_two 100
                                 failing_start_events))
     = [].
Proof.
  vm_compute. repeat split.
Qed.

Section WithBase.

Variable G : BaseHandlers.

Lemma step_keeps_raised (l : UvicornWorker.Loop) (ev : Event) (e : Exn) :
  UvicornWorker.create_pc l = UvicornWorker.CreateRaised e ->
  UvicornWorker.create_pc (UvicornWorker.step G l ev) = UvicornWorker.CreateRaised e.
Proof.
  intros Hc. unfold UvicornWorker.step.
  destruct (UvicornWorker.stopped l); [exact Hc |].
  destruct ev as [batch | r | | | i | p]; try exact Hc.
  - destruct (UvicornWorker.deliver G batch (UvicornWorker.worker l)). exact Hc.
  - now rewrite Hc.
  - destruct (UvicornWorker.tick_pc l) as [cycle | i |]; try exact Hc.
    destruct (StartFacts.tick_resume_no_create l cycle) as [H _]. now rewrite H.
  - destruct (UvicornWorker.tick_pc l) as [cycle | i |]; try exact Hc.
    destruct (UvicornWorker.drain_next (UvicornWorker.worker l) (S i)). exact Hc.
Qed.

(** Once [create_servers] has raised, no event resumes it. *)
Lemma steps_keep_raised (evs : list Event) (l : UvicornWorker.Loop) (e : Exn) :
  UvicornWorker.create_pc l = UvicornWorker.CreateRaised e ->
  UvicornWorker.create_pc (UvicornWorker.steps G l evs) = UvicornWorker.CreateRaised e.
Proof.
  revert l. induction evs as [| ev evs IH]; intros l Hc; [exact Hc |].
  rewrite LoopFacts.steps_cons. apply IH. now apply step_keeps_raised.
Qed.

End WithBase.

(** C7, amended.  When [create_server] raises for a socket,
    [create_servers] ends there with the exception: it starts no further
    socket, leaves the listeners already started in [self.servers] and
    closes none of them.  In UvicornWorker the loop and [tick] go on as
    before, and the listeners are closed by the drain of [tick] when the
    worker shuts down; in UvicornTrioWorker the exception leaves [main],
    which ends the run without [sys.exit]. *)
Theorem failed_start_closes_nothing (G : BaseHandlers) (e : Exn) :
  (forall (l : UvicornWorker.Loop) sock rest ssl,
      UvicornWorker.stopped l = false ->
      UvicornWorker.create_pc l = UvicornWorker.CreateAwait sock rest ssl ->
      UvicornWorker.step G l (EvCreated (inr e))
      = UvicornWorker.mkLoop (UvicornWorker.worker l) (UvicornWorker.os_ppid l)
                             (UvicornWorker.CreateRaised e) (UvicornWorker.tick_pc l)
                             (UvicornWorker.trace l)
      /\ forall evs,
           UvicornWorker.create_pc
             (UvicornWorker.steps G (UvicornWorker.step G l (EvCreated (inr e))) evs)
           = UvicornWorker.CreateRaised e)
  /\ (forall (l : UvicornWorker.Loop) cycle,
         UvicornWorker.tick_pc l = UvicornWorker.TickSleeping cycle ->
         alive (UvicornWorker.base (UvicornWorker.worker l)) = false ->
         filter is_close
           (added (UvicornWorker.trace l)
                  (UvicornWorker.trace
                     (UvicornWorker.steps G l
                        (EvTimer :: repeat EvClosed
                                      (List.length
                                         (UvicornWorker.servers (UvicornWorker.worker l)))))))
         = map (fun p => Close (fst p)) (UvicornWorker.servers (UvicornWorker.worker l)))
  /\ (forall (r : UvicornTrioWorker.Run) sock rest ssl,
         UvicornTrioWorker.main_pc r = UvicornTrioWorker.MainCreating sock rest ssl ->
         UvicornTrioWorker.step G r (EvCreated (inr e))
         = UvicornTrioWorker.mkRun (UvicornTrioWorker.worker r) (UvicornTrioWorker.os_ppid r)
                                   (UvicornTrioWorker.MainRaised e)
                                   (UvicornTrioWorker.trace r)
         /\ forall evs,
              UvicornTrioWorker.steps G (UvicornTrioWorker.step G r (EvCreated (inr e))) evs
              = UvicornTrioWorker.step G r (EvCreated (inr e))
              /\ UvicornTrioWorker.exit_status
                   (UvicornTrioWorker.step G r (EvCreated (inr e))) = None).
Proof.
  split; [| split].
  - intros l sock rest ssl Hst Hc.
    assert (Heq : UvicornWorker.step G l (EvCreated (inr e))
                  = UvicornWorker.mkLoop
                      (UvicornWorker.worker l) (UvicornWorker.os_ppid l)
                      (UvicornWorker.CreateRaised e) (UvicornWorker.tick_pc l)
                      (UvicornWorker.trace l)).
    { unfold UvicornWorker.step. rewrite Hst, Hc.
      cbn [UvicornWorker.create_resume]. now rewrite app_nil_r. }
    split; [exact Heq |].
    intros evs. apply steps_keep_raised. now rewrite Heq.
  - intros l cycle Hpc Ha.
    rewrite LoopFacts.steps_cons, (AsyncioLive.step_timer G l cycle Hpc).
    destruct (HealthCheck.shutdown_from_tick G l (UvicornWorker.worker l) [] cycle
                (LoopFacts.tick_resume_dead l cycle Ha) eq_refl eq_refl) as [Hrun _].
    rewrite Hrun. apply HealthCheck.drain_effects_closes.
  - intros r sock rest ssl Hpc.
    assert (Heq : UvicornTrioWorker.step G r (EvCreated (inr e))
                  = UvicornTrioWorker.mkRun
                      (UvicornTrioWorker.worker r) (UvicornTrioWorker.os_ppid r)
                      (UvicornTrioWorker.MainRaised e) (UvicornTrioWorker.trace r)).
    { unfold UvicornTrioWorker.step, UvicornTrioWorker.finished. rewrite Hpc.
      cbn [UvicornTrioWorker.create_resume]. now rewrite app_nil_r. }
    split; [exact Heq |].
    intros evs. rewrite Heq. split; [| reflexivity].
    apply TrioFacts.steps_finished. reflexivity.
Qed.

(** C7, amended, at the run of [failing_start_events]: the failure of the
    second socket changes nothing but the state of [create_servers]. *)
Lemma failed_start_example :
  UvicornWorker.step gunicorn_handlers
    (UvicornWorker.run gunicorn_handlers ssl_ok base_two 100 [EvCreated (inl 40%nat)])
    (EvCreated (inr ServerStartError))
  = UvicornWorker.mkLoop
      (UvicornWorker.worker
         (UvicornWorker.run gunicorn_handlers ssl_ok base_two 100 [EvCreated (inl 40%nat)]))
      (UvicornWorker.os_ppid
         (UvicornWorker.run gunicorn_handlers ssl_ok base_two 100 [EvCreated (inl 40%nat)]))
      (UvicornWorker.CreateRaised ServerStartError)
      (UvicornWorker.tick_pc
         (UvicornWorker.run gunicorn_handlers ssl_ok base_two 100 [EvCreated (inl 40%nat)]))
      (UvicornWorker.trace
         (UvicornWorker.run gunicorn_handlers ssl_ok base_two 100 [EvCreated (inl 40%nat)])).
Proof.
  apply (proj1 (failed_start_closes_nothing gunicorn_handlers ServerStartError)
               (UvicornWorker.run gunicorn_handlers ssl_ok base_two 100
                                  [EvCreated (inl 40%nat)])
               8%nat [] None);
    reflexivity.
Defined.

End StartClaims.

(** ** A live worker has handled no abort *)

Module AliveFacts.
Import UvicornWorker.

Section WithBase.

Variable G : BaseHandlers.

(** The inherited handlers never set [alive] again once it is cleared, as
    those of gunicorn's own [Worker] do not. *)
Hypothesis exit_keeps_dead :
  forall b, alive b = false -> alive (base_handle_exit G b) = false.
Hypothesis winch_keeps_dead :
  forall b, alive b = false -> alive (base_handle_winch G b) = false.
Hypothesis usr1_keeps_dead :
  forall b, alive b = false -> alive (base_handle_usr1 G b) = false.

Lemma revive (h : Base -> Base) (w : Worker) :
  (forall b, alive b = false -> alive (h b) = false) ->
  (alive (base w) = true -> exit_code w = 0) ->
  alive (h (base w)) = true -> exit_code w = 0.
Proof.
  intros Hh Hw Ha. apply Hw.
  destruct (alive (base w)) eqn:E; [reflexivity |].
  rewrite (Hh _ E) in Ha. discriminate.
Qed.

Lemma init_signals_live (s : Signal) (w : Worker) :
  (alive (base w) = true -> exit_code w = 0) ->
  alive (base (fst (init_signals G s w))) = true ->
  exit_code (fst (init_signals G s w)) = 0.
Proof.
  intros Hw. destruct s; cbn; try discriminate.
  - now apply revive.
  - now apply revive.
  - now apply revive.
Qed.

Lemma deliver_live (batch : list Signal) (w : Worker) :
  (alive (base w) = true -> exit_code w = 0) ->
  alive (base (fst (deliver G batch w))) = true ->
  exit_code (fst (deliver G batch w)) = 0.
Proof.
  revert w. induction batch as [| s batch IH]; intros w Hw; [exact Hw |].
  cbn [deliver].
  pose proof (init_signals_live s w Hw) as H1.
  destruct (init_signals G s w) as [w1 e1]. cbn [fst] in H1.
  pose proof (IH w1 H1) as H2.
  destruct (deliver G batch w1) as [w2 e2]. exact H2.
Qed.

Lemma tick_resume_worker (l : Loop) (cycle : Z) :
  worker (tick_resume l cycle) = worker l
  \/ worker (tick_resume l cycle) = set_alive false (worker l).
Proof.
  destruct (alive (base (worker l))) eqn:Ha.
  - destruct (max_test (worker l)) eqn:Hm.
    + right. now rewrite (LoopFacts.tick_resume_max l cycle Ha Hm).
    + destruct (parent_test (os_ppid l) (worker l)) eqn:Hp.
      * right. now rewrite (LoopFacts.tick_resume_parent l cycle Ha Hm Hp).
      * left. unfold tick_resume, tick_fuel.
        now rewrite (TickFacts.tick_while_sleep _ _ _ _ Ha Hm Hp).
  - left. now rewrite (LoopFacts.tick_resume_dead l cycle Ha).
Qed.

Lemma step_live (l : Loop) (ev : Event) :
  (alive (base (worker l)) = true -> exit_code (worker l) = 0) ->
  alive (base (worker (step G l ev))) = true -> exit_code (worker (step G l ev)) = 0.
Proof.
  intros Hw. unfold step.
  destruct (stopped l); [exact Hw |].
  destruct ev as [batch | r | | | i | p]; try exact Hw.
  - pose proof (deliver_live batch (worker l) Hw) as H.
    destruct (deliver G batch (worker l)) as [w es]. exact H.
  - destruct (create_pc l) as [sock rest ssl | | e]; try exact Hw.
    destruct r as [server | e]; cbn [create_resume]; [| exact Hw].
    destruct rest; exact Hw.
  - destruct (tick_pc l) as [cycle | i |]; try exact Hw.
    destruct (tick_resume_worker l cycle) as [-> | ->]; [exact Hw | discriminate].
  - destruct (tick_pc l) as [cycle | i |]; try exact Hw.
    destruct (drain_next (worker l) (S i)). exact Hw.
Qed.

(** In every run, a worker that is still alive has exit code 0. *)
Lemma run_live (env : SslEnv) (x : Base) (parent : Z) (evs : list Event) :
  alive (base (worker (run G env x parent evs))) = true ->
  exit_code (worker (run G env x parent evs)) = 0.
Proof.
  unfold run.
  assert (H0 : alive (base (worker (run_start env x parent))) = true ->
               exit_code (worker (run_start env x parent)) = 0).
  { unfold run_start.
    assert (Hb : exit_code (worker (run_begin env x parent)) = 0).
    { unfold run_begin, create_servers.
      destruct (ssl_ctx_of env (cfg (base (init x)))) as [ssl | e]; [| reflexivity].
      destruct (sockets (base (init x))); reflexivity. }
    destruct (tick_resume_worker (run_begin env x parent) 0) as [-> | ->];
      [intros _; exact Hb | discriminate]. }
  revert H0. generalize (run_start env x parent).
  induction evs as [| ev evs IH]; intros l Hl; [exact Hl |].
  rewrite LoopFacts.steps_cons. apply IH. now apply step_live.
Qed.

End WithBase.

(** With the handlers of gunicorn's [Worker]: the worker of a health check
    that finds [alive] true has exit code 0. *)
Lemma run_live_gunicorn (env : SslEnv) (x : Base) (parent : Z) (evs : list Event) :
  alive (base (worker (run gunicorn_handlers env x parent evs))) = true ->
  exit_code (worker (run gunicorn_handlers env x parent evs)) = 0.
Proof.
  apply run_live; intros b Hb; [reflexivity | exact Hb | exact Hb].
Qed.

End AliveFacts.

(** * Further properties of the two classes *)

(** ** The heartbeat of [tick] *)

Module Heartbeat.
Import UvicornWorker.

Lemma count_app (f : Effect -> bool) (a b : list Effect) :
  count f (a ++ b) = count f a + count f b.
Proof.
  unfold count. rewrite filter_app, length_app. lia.
Qed.

Lemma count_heartbeat (cycle : Z) :
  count is_notify (heartbeat cycle) = (if cycle =? 0 then 1 else 0)
  /\ count is_sleep (heartbeat cycle) = 0
  /\ count is_protocol_tick (heartbeat cycle) = 0.
Proof.
  unfold heartbeat. destruct (cycle =? 0); repeat split.
Qed.

(** The arithmetic of the cycle counter: one more check. *)
Lemma cycle_step (c n : Z) :
  0 <= c < 10 -> 0 <= n ->
  0 <= next_cycle c < 10
  /\ (next_cycle c + n) mod 10 = (c + (n + 1)) mod 10
  /\ (if next_cycle c =? 0 then 1 else 0) + (next_cycle c + n) / 10
     = (c + (n + 1)) / 10.
Proof.
  intros Hc Hn. unfold next_cycle.
  destruct (Z.eq_dec c 9) as [-> | Hne].
  - change ((9 + 1) mod 10) with 0. change (0 =? 0) with true. cbv iota.
    split; [lia |].
    replace (9 + (n + 1)) with (n + 1 * 10) by lia.
    rewrite Z.mod_add, Z.div_add, Z.add_0_l by lia.
    split; [reflexivity | lia].
  - rewrite (Z.mod_small (c + 1) 10) by lia.
    destruct (Z.eqb_spec (c + 1) 0) as [E | _]; [lia |].
    split; [lia |].
    replace (c + 1 + n) with (c + (n + 1)) by lia.
    split; [reflexivity | lia].
Qed.

Section WithBase.

Variable G : BaseHandlers.

(** A health check that finds nothing: the worker is untouched and [tick]
    sleeps again. *)
Lemma quiet_check (l : Loop) (c : Z) :
  tick_pc l = TickSleeping c ->
  alive (base (worker l)) = true ->
  max_test (worker l) = false ->
  parent_test (os_ppid l) (worker l) = false ->
  step G l EvTimer
  = mkLoop (worker l) (os_ppid l) (create_pc l) (TickSleeping (next_cycle c))
           (trace l ++ ProtocolTick :: heartbeat (next_cycle c) ++ [Getppid; Sleep 1]).
Proof.
  intros Hpc Ha Hm Hp.
  rewrite (AsyncioLive.step_timer G l c Hpc).
  unfold tick_resume, tick_fuel.
  now rewrite (TickFacts.tick_while_sleep _ _ _ _ Ha Hm Hp).
Qed.

Lemma quiet_checks (n : nat) (l : Loop) (c : Z) :
  0 <= c < 10 ->
  tick_pc l = TickSleeping c ->
  alive (base (worker l)) = true ->
  max_test (worker l) = false ->
  parent_test (os_ppid l) (worker l) = false ->
  exists es,
    steps G l (repeat EvTimer n)
    = mkLoop (worker l) (os_ppid l) (create_pc l)
             (TickSleeping ((c + Z.of_nat n) mod 10)) (trace l ++ es)
    /\ count is_notify es = (c + Z.of_nat n) / 10
    /\ count is_sleep es = Z.of_nat n
    /\ count is_protocol_tick es = Z.of_nat n.
Proof.
  revert l c. induction n as [| n IH]; intros l c Hc Hpc Ha Hm Hp.
  - exists []. cbn [repeat steps fold_left]. rewrite app_nil_r, Z.add_0_r.
    rewrite Z.mod_small, Z.div_small by lia.
    split; [destruct l; cbn in *; now rewrite Hpc | repeat split].
  - cbn [repeat]. rewrite LoopFacts.steps_cons, (quiet_check l c Hpc Ha Hm Hp).
    destruct (cycle_step c (Z.of_nat n) Hc (Nat2Z.is_nonneg n)) as [Hb [Hmod Hdiv]].
    destruct (IH (mkLoop (worker l) (os_ppid l) (create_pc l)
                         (TickSleeping (next_cycle c))
                         (trace l ++ ProtocolTick :: heartbeat (next_cycle c)
                                 ++ [Getppid; Sleep 1]))
                 (next_cycle c) Hb eq_refl Ha Hm Hp)
      as [es [Heq [Hn [Hs Ht]]]].
    exists ((ProtocolTick :: heartbeat (next_cycle c) ++ [Getppid; Sleep 1]) ++ es).
    rewrite Heq. cbn [worker os_ppid create_pc trace].
    rewrite Nat2Z.inj_succ, <- Z.add_1_r, Hmod, <- app_assoc.
    split; [reflexivity |].
    destruct (count_heartbeat (next_cycle c)) as [Hhn [Hhs Hht]].
    change (ProtocolTick :: heartbeat (next_cycle c) ++ [Getppid; Sleep 1])
      with ([ProtocolTick] ++ heartbeat (next_cycle c) ++ [Getppid; Sleep 1]).
    rewrite !count_app, Hhn, Hhs, Hht, Hn, Hs, Ht.
    change (count is_notify [ProtocolTick]) with 0.
    change (count is_notify [Getppid; Sleep 1]) with 0.
    change (count is_sleep [ProtocolTick]) with 0.
    change (count is_sleep [Getppid; Sleep 1]) with 1.
    change (count is_protocol_tick [ProtocolTick]) with 1.
    change (count is_protocol_tick [Getppid; Sleep 1]) with 0.
    repeat split; lia.
Qed.

End WithBase.

(** X1.  While the worker is alive, within its request limit and under its
    original parent, [n] sleeps that end run [n] health checks and leave the
    worker as it was: each check calls [protocol_class.tick()] once and
    sleeps once, and [notify()] is called each time the cycle counter wraps
    to 0, that is [(c + n) / 10] times from a counter at [c]. *)
Theorem heartbeat_every_tenth_check (G : BaseHandlers) (l : Loop) (c : Z) (n : nat) :
  0 <= c < 10 ->
  tick_pc l = TickSleeping c ->
  alive (base (worker l)) = true ->
  max_test (worker l) = false ->
  parent_test (os_ppid l) (worker l) = false ->
  worker (steps G l (repeat EvTimer n)) = worker l
  /\ tick_pc (steps G l (repeat EvTimer n)) = TickSleeping ((c + Z.of_nat n) mod 10)
  /\ count is_notify (added (trace l) (trace (steps G l (repeat EvTimer n))))
     = (c + Z.of_nat n) / 10
  /\ count is_protocol_tick (added (trace l) (trace (steps G l (repeat EvTimer n))))
     = Z.of_nat n
  /\ count is_sleep (added (trace l) (trace (steps G l (repeat EvTimer n))))
     = Z.of_nat n.
Proof.
  intros Hc Hpc Ha Hm Hp.
  destruct (quiet_checks G n l c Hc Hpc Ha Hm Hp) as [es [Heq [Hn [Hs Ht]]]].
  rewrite Heq. cbn [worker tick_pc trace]. rewrite added_app.
  repeat split; assumption.
Qed.

(** X1 at a worker that has just started: 25 sleeps, two heartbeats (at the
    10th and the 20th check; the first check ran at start-up). *)
Lemma heartbeat_after_25_sleeps :
  count is_notify
    (added (trace (run gunicorn_handlers ssl_ok base_one 100 []))
           (trace (steps gunicorn_handlers
                         (run gunicorn_handlers ssl_ok base_one 100 [])
                         (repeat EvTimer 25))))
  = (1 + Z.of_nat 25) / 10.
Proof.
  apply (heartbeat_every_tenth_check gunicorn_handlers
           (run gunicorn_handlers ssl_ok base_one 100 []) 1 25);
    [lia | reflexivity | reflexivity | reflexivity | reflexivity].
Defined.

End Heartbeat.

(** ** Signal callbacks of UvicornWorker *)

Module SignalFacts.
Import UvicornWorker.

Section WithBase.

Variable G : BaseHandlers.

(** No signal handler touches [self.servers]. *)
Lemma deliver_servers (batch : list Signal) (w : Worker) :
  servers (fst (deliver G batch w)) = servers w.
Proof.
  revert w. induction batch as [| s batch IH]; intros w; [reflexivity |].
  cbn [deliver].
  assert (H1 : servers (fst (init_signals G s w)) = servers w)
    by (destruct s; reflexivity).
  destruct (init_signals G s w) as [w1 e1]. cbn [fst] in H1.
  pose proof (IH w1) as H2.
  destruct (deliver G batch w1) as [w2 e2]. cbn [fst] in *. congruence.
Qed.

(** The effects of the handlers are hook calls and calls of inherited
    handlers: a filter that rejects those rejects them all. *)
Lemma deliver_filter (f : Effect -> bool) (batch : list Signal) (w : Worker) :
  f WorkerInt = false -> f WorkerAbort = false ->
  (forall s, f (Inherited s) = false) ->
  filter f (snd (deliver G batch w)) = [].
Proof.
  intros Hi Ha Hh. revert w.
  induction batch as [| s batch IH]; intros w; [reflexivity |].
  cbn [deliver].
  assert (H1 : filter f (snd (init_signals G s w)) = [])
    by (destruct s; cbn; now rewrite ?Hi, ?Ha, ?Hh).
  destruct (init_signals G s w) as [w1 e1]. cbn [snd] in H1.
  pose proof (IH w1) as H2.
  destruct (deliver G batch w1) as [w2 e2]. cbn [snd] in *.
  now rewrite filter_app, H1, H2.
Qed.

End WithBase.

(** X2.  Signals that leave [alive] false while [tick] sleeps (SIGQUIT and
    SIGINT through [handle_quit], SIGABRT through [handle_abort], SIGTERM
    when the inherited [handle_exit] clears [alive]) stop the worker at the
    next wake-up without another health check: the handlers' effects, then
    [close] and [wait_closed] of every listener in list order, then
    [loop.stop()], and the exit status is the exit code the handlers
    left. *)
Theorem cleared_alive_drains_at_next_wake
        (G : BaseHandlers) (l : Loop) (c : Z) (batch : list Signal) :
  tick_pc l = TickSleeping c ->
  alive (base (fst (deliver G batch (worker l)))) = false ->
  added (trace l)
        (trace (steps G l (EvSignals batch :: EvTimer
                             :: repeat EvClosed (List.length (servers (worker l))))))
  = snd (deliver G batch (worker l)) ++ drain_effects (servers (worker l))
  /\ exit_status (steps G l (EvSignals batch :: EvTimer
                               :: repeat EvClosed (List.length (servers (worker l)))))
     = Some (exit_code (fst (deliver G batch (worker l))))
  /\ filter policy_effect
       (added (trace l)
              (trace (steps G l (EvSignals batch :: EvTimer
                                   :: repeat EvClosed
                                        (List.length (servers (worker l)))))))
     = [].
Proof.
  intros Hpc Ha.
  assert (Hst : stopped l = false) by (unfold stopped; now rewrite Hpc).
  assert (Hrun : steps G l (EvSignals batch :: EvTimer
                              :: repeat EvClosed (List.length (servers (worker l))))
                 = mkLoop (fst (deliver G batch (worker l))) (os_ppid l) (create_pc l)
                          TickReturned
                          ((trace l ++ snd (deliver G batch (worker l)))
                             ++ drain_effects (servers (worker l)))).
  { rewrite LoopFacts.steps_cons, (AsyncioLive.step_signals G l _ Hst).
    rewrite LoopFacts.steps_cons, (AsyncioLive.step_timer G _ c) by exact Hpc.
    rewrite LoopFacts.tick_resume_dead by exact Ha.
    cbn [worker os_ppid create_pc trace].
    rewrite <- (deliver_servers G batch (worker l)).
    apply LoopFacts.drain_complete. }
  rewrite Hrun. cbn [trace]. rewrite <- app_assoc, added_app.
  split; [reflexivity |]. split; [reflexivity |].
  rewrite filter_app, (deliver_filter G policy_effect) by reflexivity.
  apply (HealthCheck.drain_effects_filter policy_effect); reflexivity.
Qed.

(** X2 at SIGTERM with the handlers of gunicorn's [Worker]: exit status 0
    after the drain. *)
Lemma sigterm_drains_at_next_wake :
  exit_status
    (steps gunicorn_handlers
       (run gunicorn_handlers ssl_ok base_one 100 [EvCreated (inl 40%nat)])
       (EvSignals [SIGTERM] :: EvTimer :: repeat EvClosed 1))
  = Some 0.
Proof.
  apply (cleared_alive_drains_at_next_wake gunicorn_handlers
           (run gunicorn_handlers ssl_ok base_one 100 [EvCreated (inl 40%nat)])
           1 [SIGTERM]);
    reflexivity.
Defined.

End SignalFacts.

(** ** One drain, in list order *)

Module DrainFacts.
Import UvicornWorker.

Lemma firstn_snoc {A : Type} (l : list A) (i : nat) (x : A) :
  nth_error l i = Some x -> firstn (S i) l = firstn i l ++ [x].
Proof.
  revert i. induction l as [| a l IH]; intros [| i] H; cbn in *; try discriminate.
  - now injection H as ->.
  - now rewrite (IH i H).
Qed.

Lemma map_fst_bump (i : nat) (l : list (Server * State)) :
  map fst (bump i l) = map fst l.
Proof.
  revert i. induction l as [| [srv st] l IH]; intros [| i]; cbn; try reflexivity.
  now rewrite IH.
Qed.

Lemma drain_effects_flat (l : list (Server * State)) :
  drain_effects l = flat_map close_wait (map fst l) ++ [LoopStop].
Proof.
  induction l as [| [srv st] l IH]; cbn; [reflexivity | now rewrite IH].
Qed.

(** Entering the drain. *)
Lemma drain_start (w : Worker) :
  drained (fst (drain_next w 0)) (map fst (servers w)) = snd (drain_next w 0)
  /\ forall i, fst (drain_next w 0) = TickWaitClosed i ->
               (i < List.length (servers w))%nat.
Proof.
  unfold drain_next. destruct (servers w) as [| [srv st] rest]; cbn.
  - split; [reflexivity | discriminate].
  - split; [reflexivity |]. intros i H. injection H as <-. lia.
Qed.

(** One more [wait_closed] resolved. *)
Lemma drain_advance (w : Worker) (i : nat) :
  (i < List.length (servers w))%nat ->
  drained (TickWaitClosed i) (map fst (servers w)) ++ snd (drain_next w (S i))
  = drained (fst (drain_next w (S i))) (map fst (servers w))
  /\ forall j, fst (drain_next w (S i)) = TickWaitClosed j ->
               (j < List.length (servers w))%nat.
Proof.
  intros Hi. unfold drain_next.
  destruct (nth_error (servers w) (S i)) as [[srv st] |] eqn:Hn; cbn [fst snd drained].
  - split.
    + rewrite (firstn_snoc (map fst (servers w)) (S i) srv)
        by (rewrite nth_error_map, Hn; reflexivity).
      rewrite flat_map_app. reflexivity.
    + intros j H. injection H as <-. apply nth_error_Some. congruence.
  - split; [| discriminate].
    apply nth_error_None in Hn.
    rewrite firstn_all2 by (rewrite length_map; lia). reflexivity.
Qed.

Lemma drained_grows (pc : TickPc) (l : list (Server * State)) (p : Server * State) :
  pc <> TickReturned ->
  (forall i, pc = TickWaitClosed i -> (i < List.length l)%nat) ->
  drained pc (map fst (l ++ [p])) = drained pc (map fst l).
Proof.
  intros Hne Hb. destruct pc as [c | i |]; cbn [drained]; [reflexivity | | congruence].
  rewrite map_app, firstn_app.
  replace (S i - List.length (map fst l))%nat with 0%nat
    by (rewrite length_map; specialize (Hb i eq_refl); lia).
  cbn. now rewrite app_nil_r.
Qed.

Section WithBase.

Variable G : BaseHandlers.

Lemma tick_resume_drain (l : Loop) (c : Z) :
  tick_pc l = TickSleeping c -> drain_inv l -> drain_inv (tick_resume l c).
Proof.
  intros Hpc [Htr _]. rewrite Hpc in Htr. cbn [drained] in Htr.
  destruct (alive (base (worker l))) eqn:Ha.
  - destruct (max_test (worker l) || parent_test (os_ppid l) (worker l)) eqn:Hor.
    + destruct (Claims.tick_shutdown_shape G l c Ha Hor) as [pre [Heq [_ Hdr]]].
      rewrite Heq. unfold drain_inv. cbn [trace tick_pc worker set_alive servers].
      destruct (drain_start (worker l)) as [Hd Hb].
      rewrite !filter_app, Htr, Hdr, Hd. cbn [app].
      split; [| exact Hb].
      unfold drain_next.
      destruct (nth_error (servers (worker l)) 0) as [[srv st] |]; reflexivity.
    + apply orb_false_elim in Hor. destruct Hor as [Hm Hp].
      unfold tick_resume, tick_fuel.
      rewrite (TickFacts.tick_while_sleep _ _ _ _ Ha Hm Hp).
      unfold drain_inv. cbn [trace tick_pc worker drained].
      split; [| discriminate].
      rewrite filter_app, Htr. cbn [app filter is_drain].
      rewrite filter_app, HealthCheck.heartbeat_filter by reflexivity.
      reflexivity.
  - rewrite (LoopFacts.tick_resume_dead l c Ha).
    unfold drain_inv. cbn [trace tick_pc worker].
    destruct (drain_start (worker l)) as [Hd Hb].
    rewrite filter_app, Htr, Hd. cbn [app].
    split; [| exact Hb].
    unfold drain_next.
    destruct (nth_error (servers (worker l)) 0) as [[srv st] |]; reflexivity.
Qed.

Lemma step_drain (l : Loop) (ev : Event) : drain_inv l -> drain_inv (step G l ev).
Proof.
  intros Hinv. unfold step.
  destruct (stopped l) eqn:Hst; [exact Hinv |].
  assert (Hne : tick_pc l <> TickReturned)
    by (unfold stopped in Hst; destruct (tick_pc l); congruence).
  destruct Hinv as [Htr Hb].
  destruct ev as [batch | r | | | i | p].
  - pose proof (SignalFacts.deliver_servers G batch (worker l)) as Hs.
    pose proof (SignalFacts.deliver_filter G is_drain batch (worker l)
                  eq_refl eq_refl (fun _ => eq_refl)) as Hf.
    destruct (deliver G batch (worker l)) as [w es]. cbn [fst snd] in Hs, Hf.
    unfold drain_inv. cbn [trace tick_pc worker].
    rewrite filter_app, Hf, app_nil_r, Hs. now split.
  - destruct (create_pc l) as [sock rest ssl | | e]; try (now split).
    destruct r as [server | e]; cbn [create_resume].
    + assert (Hinv' : drain_inv
                        (mkLoop (set_servers (servers (worker l) ++ [(server, state0)])
                                             (worker l))
                                (os_ppid l) (create_pc l) (tick_pc l) (trace l))).
      { unfold drain_inv. cbn [trace tick_pc worker set_servers servers].
        rewrite drained_grows by assumption.
        split; [exact Htr |].
        intros j Hj. rewrite length_app. specialize (Hb j Hj). cbn. lia. }
      destruct Hinv' as [Htr' Hb'].
      destruct rest as [| sock' rest]; unfold drain_inv;
        cbn [create_next trace tick_pc worker] in *.
      * rewrite app_nil_r. now split.
      * rewrite filter_app. cbn. rewrite app_nil_r. now split.
    + unfold drain_inv. cbn [trace tick_pc worker]. rewrite app_nil_r. now split.
  - destruct (tick_pc l) as [c | i |] eqn:Hpc; try (rewrite <- Hpc in *; now split).
    apply tick_resume_drain; [exact Hpc |].
    split; [now rewrite Hpc | intros j Hj; rewrite Hpc in Hj; discriminate].
  - destruct (tick_pc l) as [c | i |] eqn:Hpc; try (rewrite <- Hpc in *; now split).
    destruct (drain_advance (worker l) i (Hb i eq_refl)) as [Hd Hb'].
    destruct (drain_next (worker l) (S i)) as [pc es] eqn:Hdn. cbn [fst snd] in *.
    unfold drain_inv. cbn [trace tick_pc worker].
    rewrite filter_app, Htr, <- Hd. split; [| exact Hb'].
    f_equal. unfold drain_next in Hdn.
    destruct (nth_error (servers (worker l)) (S i)) as [[srv st] |];
      injection Hdn as _ <-; reflexivity.
  - unfold drain_inv. cbn [trace tick_pc worker set_servers servers].
    rewrite map_fst_bump, bump_length. now split.
  - now split.
Qed.

Lemma run_drain (env : SslEnv) (x : Base) (parent : Z) (evs : list Event) :
  drain_inv (run G env x parent evs).
Proof.
  unfold run.
  assert (H0 : drain_inv (run_start env x parent)).
  { unfold run_start. apply tick_resume_drain.
    - unfold run_begin. destruct (create_servers env (init x)) as [[w cpc] es].
      reflexivity.
    - unfold run_begin, create_servers.
      destruct (ssl_ctx_of env (cfg (base (init x)))) as [ssl | e].
      + destruct (sockets (base (init x))) as [| sock rest];
          (split; [reflexivity | discriminate]).
      + split; [reflexivity | discriminate]. }
  revert H0. generalize (run_start env x parent).
  induction evs as [| ev evs IH]; intros l Hl; [exact Hl |].
  rewrite LoopFacts.steps_cons. apply IH. now apply step_drain.
Qed.

End WithBase.

(** X3.  In every run of UvicornWorker the drain happens once and in
    order.  While [tick] sleeps no listener has been closed; in the drain
    the listeners up to the one awaited have each been closed once, in the
    order of [self.servers]; and when the loop has stopped, every listener
    of [self.servers] has been closed and waited for exactly once, in that
    order, followed by one [loop.stop()], whatever signals, requests and
    listener starts came in between. *)
Theorem listeners_closed_once_in_order
        (G : BaseHandlers) (env : SslEnv) (x : Base) (parent : Z) (evs : list Event) :
  (forall c, tick_pc (run G env x parent evs) = TickSleeping c ->
             filter is_drain (trace (run G env x parent evs)) = [])
  /\ (forall i, tick_pc (run G env x parent evs) = TickWaitClosed i ->
                filter is_drain (trace (run G env x parent evs))
                = flat_map close_wait
                    (firstn (S i) (map fst (servers (worker (run G env x parent evs))))))
  /\ (stopped (run G env x parent evs) = true ->
      filter is_drain (trace (run G env x parent evs))
      = drain_effects (servers (worker (run G env x parent evs)))
      /\ filter is_close (trace (run G env x parent evs))
         = map (fun p => Close (fst p)) (servers (worker (run G env x parent evs)))).
Proof.
  destruct (run_drain G env x parent evs) as [Htr _].
  split; [| split].
  - intros c Hpc. now rewrite Htr, Hpc.
  - intros i Hpc. now rewrite Htr, Hpc.
  - intros Hst. unfold stopped in Hst.
    destruct (tick_pc (run G env x parent evs)) eqn:Hpc; try discriminate.
    assert (Hd : filter is_drain (trace (run G env x parent evs))
                 = drain_effects (servers (worker (run G env x parent evs))))
      by (rewrite Htr, drain_effects_flat; reflexivity).
    split; [exact Hd |].
    rewrite <- HealthCheck.drain_effects_closes, <- Hd.
    clear. induction (trace (run G env x parent evs)) as [| e tr IH];
      [reflexivity |].
    destruct e; cbn; try exact IH; now rewrite IH.
Qed.

(** X3 at a run in which a second quit signal and a late listener arrive
    during the drain: both listeners are closed once, then the loop stops. *)
Lemma listeners_closed_once_example :
  filter is_drain
    (trace (run gunicorn_handlers ssl_ok base_two 100
                [EvCreated (inl 40%nat); EvSignals [SIGQUIT]; EvTimer;
                 EvSignals [SIGQUIT]; EvCreated (inl 41%nat); EvClosed; EvClosed]))
  = drain_effects
      (servers (worker (run gunicorn_handlers ssl_ok base_two 100
                            [EvCreated (inl 40%nat); EvSignals [SIGQUIT]; EvTimer;
                             EvSignals [SIGQUIT]; EvCreated (inl 41%nat);
                             EvClosed; EvClosed]))).
Proof.
  apply (listeners_closed_once_in_order gunicorn_handlers ssl_ok base_two 100
           [EvCreated (inl 40%nat); EvSignals [SIGQUIT]; EvTimer;
            EvSignals [SIGQUIT]; EvCreated (inl 41%nat); EvClosed; EvClosed]).
  reflexivity.
Defined.

End DrainFacts.

(** ** A worker nobody stops *)

Module ServingFacts.
Import UvicornWorker.

Section WithBase.

Variable G : BaseHandlers.

(** With [max_requests] 0 the recycling test is false whatever the
    counters hold. *)
Lemma max_test_unlimited (w : Worker) :
  max_requests (base w) = 0 -> max_test w = false.
Proof. intros H. unfold max_test. now rewrite H. Qed.

Lemma step_serving (l : Loop) (ev : Event) (c : Z) :
  serving_event ev = true ->
  tick_pc l = TickSleeping c ->
  alive (base (worker l)) = true ->
  max_requests (base (worker l)) = 0 ->
  ppid (base (worker l)) = os_ppid l ->
  filter is_log (trace l) = [] ->
  (exists c', tick_pc (step G l ev) = TickSleeping c')
  /\ alive (base (worker (step G l ev))) = true
  /\ max_requests (base (worker (step G l ev))) = 0
  /\ ppid (base (worker (step G l ev))) = os_ppid (step G l ev)
  /\ filter is_log (trace (step G l ev)) = [].
Proof.
  intros Hev Hpc Ha Hm Hp Hlog.
  destruct ev as [batch | r | | | i | p]; try discriminate Hev.
  - unfold step, stopped. rewrite Hpc.
    destruct (create_pc l) as [sock rest ssl | | e];
      try solve [repeat split; eauto].
    destruct r as [server | e]; cbn [create_resume].
    + destruct rest as [| sock' rest]; cbn [create_next tick_pc worker trace os_ppid];
        rewrite ?filter_app, ?Hlog; repeat split; eauto.
    + cbn [tick_pc worker trace os_ppid]. rewrite app_nil_r. repeat split; eauto.
  - rewrite (Heartbeat.quiet_check G l c Hpc Ha (max_test_unlimited _ Hm)).
    + cbn [tick_pc worker trace os_ppid].
      rewrite filter_app, Hlog. cbn [app filter is_log].
      rewrite filter_app, HealthCheck.heartbeat_filter by reflexivity.
      repeat split; eauto.
    + unfold parent_test. rewrite Hp, Z.eqb_refl. reflexivity.
  - unfold step, stopped. rewrite Hpc. repeat split; eauto.
  - unfold step, stopped. rewrite Hpc. cbn [tick_pc worker trace os_ppid].
    repeat split; eauto.
Qed.

Lemma steps_serving (evs : list Event) (l : Loop) (c : Z) :
  forallb serving_event evs = true ->
  tick_pc l = TickSleeping c ->
  alive (base (worker l)) = true ->
  max_requests (base (worker l)) = 0 ->
  ppid (base (worker l)) = os_ppid l ->
  filter is_log (trace l) = [] ->
  (exists c', tick_pc (steps G l evs) = TickSleeping c')
  /\ alive (base (worker (steps G l evs))) = true
  /\ filter is_log (trace (steps G l evs)) = [].
Proof.
  revert l c. induction evs as [| ev evs IH]; intros l c Hevs Hpc Ha Hm Hp Hlog.
  - repeat split; eauto.
  - cbn [forallb] in Hevs. apply andb_prop in Hevs. destruct Hevs as [Hev Hevs].
    rewrite LoopFacts.steps_cons.
    destruct (step_serving l ev c Hev Hpc Ha Hm Hp Hlog)
      as [[c' Hpc'] [Ha' [Hm' [Hp' Hlog']]]].
    apply (IH _ c'); assumption.
Qed.

End WithBase.

(** X4.  A worker that starts alive, with [max_requests] 0 and under the
    parent it recorded, keeps serving as long as no signal arrives and its
    parent stays: whatever number of requests its listeners complete and
    however long it runs, [alive] stays true, [tick] goes back to sleep
    after each health check, no shutdown line is logged and the process does
    not exit. *)
Theorem unlimited_worker_keeps_serving
        (G : BaseHandlers) (env : SslEnv) (x : Base) (evs : list Event) :
  alive x = true ->
  max_requests x = 0 ->
  forallb serving_event evs = true ->
  exit_status (run G env x (ppid x) evs) = None
  /\ alive (base (worker (run G env x (ppid x) evs))) = true
  /\ filter is_log (trace (run G env x (ppid x) evs)) = []
  /\ filter is_drain (trace (run G env x (ppid x) evs)) = []
  /\ exists c, tick_pc (run G env x (ppid x) evs) = TickSleeping c.
Proof.
  intros Ha Hm Hevs.
  assert (Hb : tick_pc (run_begin env x (ppid x)) = TickSleeping 0
               /\ base (worker (run_begin env x (ppid x))) = x
               /\ os_ppid (run_begin env x (ppid x)) = ppid x
               /\ filter is_log (trace (run_begin env x (ppid x))) = []).
  { unfold run_begin, create_servers.
    destruct (ssl_ctx_of env (cfg (base (init x)))) as [ssl | e];
      [destruct (sockets (base (init x))) |]; repeat split. }
  destruct Hb as [Hpc [Hbase [Hos Hlog]]].
  assert (Hstart : run_start env x (ppid x)
                   = step G (run_begin env x (ppid x)) EvTimer)
    by (unfold run_start; now rewrite (AsyncioLive.step_timer G _ 0 Hpc)).
  destruct (step_serving G (run_begin env x (ppid x)) EvTimer 0 eq_refl Hpc)
    as [[c1 Hpc1] [Ha1 [Hm1 [Hp1 Hlog1]]]];
    rewrite ?Hbase, ?Hos; try assumption; try reflexivity.
  rewrite <- Hstart in *.
  destruct (steps_serving G evs (run_start env x (ppid x)) c1 Hevs Hpc1 Ha1 Hm1 Hp1 Hlog1)
    as [[c Hpc'] [Ha' Hlog']].
  fold (run G env x (ppid x) evs) in *.
  split; [unfold exit_status, stopped; now rewrite Hpc' |].
  split; [exact Ha' |]. split; [exact Hlog' |].
  split; [| now exists c].
  destruct (DrainFacts.run_drain G env x (ppid x) evs) as [Hd _].
  now rewrite Hd, Hpc'.
Qed.

End ServingFacts.

(** X4 at a worker without limit whose listener completes three requests
    between health checks. *)
Lemma unlimited_worker_example :
  UvicornWorker.exit_status
    (UvicornWorker.run gunicorn_handlers ssl_ok base_unlimited (ppid base_unlimited)
       [EvCreated (inl 40%nat); EvRequest 0; EvRequest 0; EvTimer; EvRequest 0;
        EvTimer; EvClosed])
  = None.
Proof.
  apply (ServingFacts.unlimited_worker_keeps_serving gunicorn_handlers ssl_ok
           base_unlimited
           [EvCreated (inl 40%nat); EvRequest 0; EvRequest 0; EvTimer; EvRequest 0;
            EvTimer; EvClosed]);
    reflexivity.
Defined.

(** ** Signals in UvicornTrioWorker *)

Module TrioSignals.
Import UvicornTrioWorker.

Section WithBase.

Variable G : BaseHandlers.

(** What a batch of signals leaves of [killed], [exit_code] and
    [servers]. *)
Lemma handle_signals_state (batch : list Signal) (w : Worker) :
  killed (fst (handle_signals G batch w)) = killed w || existsb requests_shutdown batch
  /\ exit_code (fst (handle_signals G batch w))
     = (if existsb is_abort_signal batch then 1 else exit_code w)
  /\ servers (fst (handle_signals G batch w)) = servers w.
Proof.
  revert w. induction batch as [| s batch IH]; intros w.
  - cbn. now rewrite orb_false_r.
  - cbn [handle_signals existsb].
    assert (H1 : killed (fst (signals G s w)) = killed w || requests_shutdown s
                 /\ exit_code (fst (signals G s w))
                    = (if is_abort_signal s then 1 else exit_code w)
                 /\ servers (fst (signals G s w)) = servers w)
      by (destruct s; cbn; rewrite ?orb_false_r, ?orb_true_r; repeat split).
    destruct (signals G s w) as [w1 e1]. cbn [fst] in H1.
    destruct H1 as [Hk1 [Hc1 Hs1]].
    destruct (IH w1) as [Hk2 [Hc2 Hs2]].
    destruct (handle_signals G batch w1) as [w2 e2]. cbn [fst] in *.
    rewrite Hk2, Hc2, Hs2, Hk1, Hc1, Hs1, orb_assoc.
    repeat split.
    destruct (existsb is_abort_signal batch); [now rewrite orb_true_r |].
    now rewrite orb_false_r.
Qed.

Lemma handle_signals_filter (f : Effect -> bool) (batch : list Signal) (w : Worker) :
  f WorkerInt = false -> f WorkerAbort = false -> f KilledSet = false ->
  (forall s, f (Inherited s) = false) ->
  filter f (snd (handle_signals G batch w)) = [].
Proof.
  intros Hi Ha Hk Hh. revert w.
  induction batch as [| s batch IH]; intros w; [reflexivity |].
  cbn [handle_signals].
  assert (H1 : filter f (snd (signals G s w)) = [])
    by (destruct s; cbn; now rewrite ?Hi, ?Ha, ?Hk, ?Hh).
  destruct (signals G s w) as [w1 e1]. cbn [snd] in H1.
  pose proof (IH w1) as H2.
  destruct (handle_signals G batch w1) as [w2 e2]. cbn [snd] in *.
  now rewrite filter_app, H1, H2.
Qed.

(** The asyncio callbacks leave the same exit code. *)
Lemma deliver_exit_code (batch : list Signal) (w : UvicornWorker.Worker) :
  UvicornWorker.exit_code (fst (UvicornWorker.deliver G batch w))
  = (if existsb is_abort_signal batch then 1 else UvicornWorker.exit_code w).
Proof.
  revert w. induction batch as [| s batch IH]; intros w; [reflexivity |].
  cbn [UvicornWorker.deliver existsb].
  assert (H1 : UvicornWorker.exit_code (fst (UvicornWorker.init_signals G s w))
               = (if is_abort_signal s then 1 else UvicornWorker.exit_code w))
    by (destruct s; reflexivity).
  destruct (UvicornWorker.init_signals G s w) as [w1 e1]. cbn [fst] in H1.
  pose proof (IH w1) as H2.
  destruct (UvicornWorker.deliver G batch w1) as [w2 e2]. cbn [fst] in *.
  rewrite H2, H1. destruct (is_abort_signal s), (existsb is_abort_signal batch);
    reflexivity.
Qed.

(** [nursery.cancel_scope.cancel()] is called once, when [main] returns,
    and not before. *)
Lemma step_cancel (r : Run) (ev : Event) :
  filter is_cancel (trace r)
  = match main_pc r with MainReturned => [CancelScope] | _ => [] end ->
  filter is_cancel (trace (step G r ev))
  = match main_pc (step G r ev) with MainReturned => [CancelScope] | _ => [] end.
Proof.
  intros Hc. unfold step.
  destruct (finished r) eqn:Hf; [exact Hc |].
  assert (Hne : main_pc r <> MainReturned)
    by (unfold finished in Hf; destruct (main_pc r); congruence).
  destruct ev as [batch | res | | | i | p]; try exact Hc.
  - assert (Hs : filter is_cancel (snd (handle_signals G batch (worker r))) = []).
    { clear. generalize (worker r). induction batch as [| s batch IH]; intros w;
        [reflexivity |].
      cbn [handle_signals].
      assert (H1 : filter is_cancel (snd (signals G s w)) = [])
        by (destruct s; reflexivity).
      destruct (signals G s w) as [w1 e1].
      pose proof (IH w1) as H2.
      destruct (handle_signals G batch w1) as [w2 e2]. cbn [snd] in *.
      now rewrite filter_app, H1, H2. }
    destruct (handle_signals G batch (worker r)) as [w es]. cbn [snd] in Hs.
    destruct (main_pc r) as [sock rest ssl | | | e];
      cbn [trace main_pc]; try (rewrite filter_app, Hc, Hs; reflexivity);
      try congruence.
    unfold wait_killed. destruct (killed w); cbn [trace main_pc];
      rewrite !filter_app, Hc, Hs; reflexivity.
  - destruct (main_pc r) as [sock rest ssl | | | e] eqn:Hm;
      try (rewrite Hm; exact Hc).
    destruct res as [server | e]; cbn [create_resume].
    + destruct rest as [| sock' rest]; cbn [create_next].
      * unfold wait_killed. cbn [killed set_servers].
        destruct (killed (worker r)); cbn [trace main_pc];
          rewrite filter_app, Hc; reflexivity.
      * cbn [trace main_pc]. rewrite filter_app, Hc. reflexivity.
    + cbn [trace main_pc]. rewrite filter_app, Hc. reflexivity.
Qed.

Lemma run_cancel (env : SslEnv) (x : Base) (parent : Z) (evs : list Event) :
  filter is_cancel (trace (run G env x parent evs))
  = match main_pc (run G env x parent evs) with
    | MainReturned => [CancelScope]
    | _ => []
    end.
Proof.
  unfold run.
  assert (H0 : filter is_cancel (trace (run_start env x parent))
               = match main_pc (run_start env x parent) with
                 | MainReturned => [CancelScope]
                 | _ => []
                 end).
  { unfold run_start, create_servers.
    destruct (ssl_ctx_of env (cfg (base (init x)))) as [ssl | e]; [| reflexivity].
    destruct (sockets (base (init x))); reflexivity. }
  revert H0. generalize (run_start env x parent).
  induction evs as [| ev evs IH]; intros r Hr; [exact Hr |].
  rewrite TrioFacts.trio_steps_cons. apply IH. now apply step_cancel.
Qed.

(** *** Without SIGQUIT, SIGINT or SIGABRT the run does not end *)

Lemma step_calm (r : Run) (ev : Event) :
  calm_event ev = true ->
  killed (worker r) = false ->
  main_pc r <> MainReturned ->
  killed (worker (step G r ev)) = false /\ main_pc (step G r ev) <> MainReturned.
Proof.
  intros Hev Hk Hpc. unfold step.
  destruct (finished r); [now split |].
  destruct ev as [batch | res | | | i | p]; try now split.
  - cbn [calm_event] in Hev. apply negb_true_iff in Hev.
    destruct (handle_signals_state batch (worker r)) as [Hk' _].
    rewrite Hk, Hev in Hk'.
    destruct (handle_signals G batch (worker r)) as [w es]. cbn [fst] in Hk'.
    destruct (main_pc r) as [sock rest ssl | | | e]; try (split; [exact Hk' | discriminate]).
    + unfold wait_killed. rewrite Hk'. split; [exact Hk' | discriminate].
    + congruence.
  - destruct (main_pc r) as [sock rest ssl | | | e] eqn:Hm;
      try (split; [exact Hk | rewrite Hm; congruence]).
    destruct res as [server | e]; cbn [create_resume]; [| split; [exact Hk | discriminate]].
    destruct rest as [| sock' rest]; cbn [create_next].
    + unfold wait_killed. cbn [killed set_servers]. rewrite Hk.
      split; [exact Hk | discriminate].
    + split; [exact Hk | discriminate].
Qed.

Lemma steps_calm (evs : list Event) (r : Run) :
  forallb calm_event evs = true ->
  killed (worker r) = false ->
  main_pc r <> MainReturned ->
  killed (worker (steps G r evs)) = false /\ main_pc (steps G r evs) <> MainReturned.
Proof.
  revert r. induction evs as [| ev evs IH]; intros r Hevs Hk Hpc; [now split |].
  cbn [forallb] in Hevs. apply andb_prop in Hevs. destruct Hevs as [Hev Hevs].
  rewrite TrioFacts.trio_steps_cons.
  destruct (step_calm r ev Hev Hk Hpc) as [Hk' Hpc'].
  now apply IH.
Qed.

Lemma run_start_calm (env : SslEnv) (x : Base) (parent : Z) :
  killed (worker (run_start env x parent)) = false
  /\ main_pc (run_start env x parent) <> MainReturned.
Proof.
  unfold run_start, create_servers.
  destruct (ssl_ctx_of env (cfg (base (init x)))) as [ssl | e];
    [| split; [reflexivity | discriminate]].
  destruct (sockets (base (init x))) as [| sock rest];
    (split; [reflexivity | discriminate]).
Qed.

End WithBase.

(** X5.  UvicornTrioWorker ends its run on SIGQUIT, SIGINT or SIGABRT
    only.  Under events that deliver none of the three (SIGTERM, SIGWINCH
    and SIGUSR1 included, whatever the inherited handlers do to [alive]),
    [killed] is never set, [main] does not return and [sys.exit] is not
    reached. *)
Theorem trio_worker_ends_on_quit_or_abort_only
        (G : BaseHandlers) (env : SslEnv) (x : Base) (parent : Z) (evs : list Event) :
  forallb calm_event evs = true ->
  killed (worker (run G env x parent evs)) = false
  /\ main_pc (run G env x parent evs) <> MainReturned
  /\ exit_status (run G env x parent evs) = None
  /\ filter is_cancel (trace (run G env x parent evs)) = [].
Proof.
  intros Hevs.
  destruct (run_start_calm env x parent) as [Hk0 Hpc0].
  destruct (steps_calm G evs (run_start env x parent) Hevs Hk0 Hpc0) as [Hk Hpc].
  fold (run G env x parent evs) in Hk, Hpc.
  split; [exact Hk |]. split; [exact Hpc |].
  split.
  - unfold exit_status. destruct (main_pc (run G env x parent evs)); congruence.
  - pose proof (run_cancel G env x parent evs) as Hc.
    destruct (main_pc (run G env x parent evs)); congruence.
Qed.

(** X5 at SIGTERM under the handlers of gunicorn's [Worker]: [alive] is
    cleared, and the worker goes on waiting. *)
Lemma trio_worker_ignores_sigterm :
  exit_status
    (run gunicorn_handlers ssl_ok base_one 100
         [EvCreated (inl 40%nat); EvSignals [SIGTERM]; EvTimer; EvSignals [SIGUSR1]])
  = None.
Proof.
  apply (trio_worker_ends_on_quit_or_abort_only gunicorn_handlers ssl_ok base_one 100
           [EvCreated (inl 40%nat); EvSignals [SIGTERM]; EvTimer; EvSignals [SIGUSR1]]).
  reflexivity.
Defined.

(** X6.  A batch of signals is handled whole before [main] wakes up.  When
    [main] waits for [killed] and the batch holds SIGQUIT, SIGINT or
    SIGABRT, [main] cancels the scope right after the last handler and
    [sys.exit] gets 1 when SIGABRT is anywhere in the batch, before or after
    a quit signal, and the former exit code otherwise.  The callbacks of
    UvicornWorker leave the same exit code. *)
Theorem batch_with_abort_exits_1 (G : BaseHandlers) (batch : list Signal) :
  (forall r : Run,
      main_pc r = MainWaitKilled ->
      existsb requests_shutdown batch = true ->
      main_pc (step G r (EvSignals batch)) = MainReturned
      /\ exit_status (step G r (EvSignals batch))
         = Some (if existsb is_abort_signal batch then 1 else exit_code (worker r))
      /\ added (trace r) (trace (step G r (EvSignals batch)))
         = snd (handle_signals G batch (worker r)) ++ [CancelScope])
  /\ (forall w : UvicornWorker.Worker,
         UvicornWorker.exit_code (fst (UvicornWorker.deliver G batch w))
         = (if existsb is_abort_signal batch then 1 else UvicornWorker.exit_code w)).
Proof.
  split; [| apply deliver_exit_code].
  intros r Hpc Hs.
  destruct (handle_signals_state G batch (worker r)) as [Hk [Hc _]].
  rewrite Hs, orb_true_r in Hk.
  unfold step, finished, exit_status. rewrite Hpc.
  destruct (handle_signals G batch (worker r)) as [w es]. cbn [fst snd] in *.
  unfold wait_killed. rewrite Hk. cbn [main_pc worker trace].
  rewrite added_app, Hc. repeat split.
Qed.

(** X6 at the batch SIGQUIT, SIGABRT: exit status 1. *)
Lemma quit_then_abort_in_one_batch :
  exit_status
    (step gunicorn_handlers
          (run gunicorn_handlers ssl_ok base_one 100 [EvCreated (inl 40%nat)])
          (EvSignals [SIGQUIT; SIGABRT]))
  = Some (if existsb is_abort_signal [SIGQUIT; SIGABRT] then 1
          else exit_code
                 (worker (run gunicorn_handlers ssl_ok base_one 100
                              [EvCreated (inl 40%nat)]))).
Proof.
  apply (batch_with_abort_exits_1 gunicorn_handlers [SIGQUIT; SIGABRT]);
    reflexivity.
Defined.

End TrioSignals.

(** ** Failures of the TLS context *)

(** X7.  [create_ssl_context] fails at the first call into the [ssl]
    module that fails, in the order of the method body:
    [ssl.SSLContext(cfg.ssl_version)] always runs; [load_cert_chain] runs
    once the context exists; the [verify_mode] setter runs once the
    certificate is loaded; [load_verify_locations] runs only for a non-empty
    [ca_certs] and only after the setter; [set_ciphers] runs only for a
    non-empty [ciphers] and only once the calls before it have succeeded.
    An absent or empty [ca_certs] or [ciphers] is skipped and cannot make
    the method fail. *)
Theorem create_ssl_context_first_failure (env : SslEnv) (c : Cfg) :
  (create_ssl_context env c = inr ProtocolError
   <-> ssl_context_ok env (ssl_version c) = false)
  /\ (create_ssl_context env c = inr CertChainError
      <-> ssl_context_ok env (ssl_version c) = true
          /\ load_cert_chain_ok env (certfile c) (keyfile c) = false)
  /\ (create_ssl_context env c = inr VerifyModeError
      <-> ssl_context_ok env (ssl_version c) = true
          /\ load_cert_chain_ok env (certfile c) (keyfile c) = true
          /\ verify_mode_ok env (ssl_version c) (cert_reqs c) = false)
  /\ (create_ssl_context env c = inr VerifyLocationsError
      <-> ssl_context_ok env (ssl_version c) = true
          /\ load_cert_chain_ok env (certfile c) (keyfile c) = true
          /\ verify_mode_ok env (ssl_version c) (cert_reqs c) = true
          /\ exists ca, ca_certs c = Some ca
                        /\ ca <> EmptyString
                        /\ load_verify_locations_ok env ca = false)
  /\ (create_ssl_context env c = inr CiphersError
      <-> ssl_context_ok env (ssl_version c) = true
          /\ load_cert_chain_ok env (certfile c) (keyfile c) = true
          /\ verify_mode_ok env (ssl_version c) (cert_reqs c) = true
          /\ (forall ca, ca_certs c = Some ca -> ca <> EmptyString ->
                         load_verify_locations_ok env ca = true)
          /\ exists cs, ciphers c = Some cs
                        /\ cs <> EmptyString
                        /\ set_ciphers_ok env cs = false)
  /\ create_ssl_context env c <> inr ServerStartError.
Proof.
  unfold create_ssl_context.
  destruct (ssl_context_ok env (ssl_version c)); cbn [negb];
    [| repeat split; intros; break_hyps; try discriminate; try reflexivity].
  destruct (load_cert_chain_ok env (certfile c) (keyfile c)); cbn [negb protocol];
    [| repeat split; intros; break_hyps; try discriminate; try reflexivity].
  destruct (verify_mode_ok env (ssl_version c) (cert_reqs c)); cbn [negb];
    [| repeat split; intros; break_hyps; try discriminate; try reflexivity].
  destruct (ca_certs c) as [ca |]; cbn [truthy_str];
    [destruct (String.eqb_spec ca EmptyString) as [Eca | Eca]; cbn [negb];
     [| destruct (load_verify_locations_ok env ca) eqn:Hca] |];
    (destruct (ciphers c) as [cs |]; cbn [truthy_str];
     [destruct (String.eqb_spec cs EmptyString) as [Ecs | Ecs]; cbn [negb];
      [| destruct (set_ciphers_ok env cs) eqn:Hcs] |]);
    repeat split; intros; break_hyps;
    try discriminate; try reflexivity; try congruence;
    try (eexists; repeat split; eauto; congruence);
    try (match goal with
         | H : forall ca', Some ?a = Some ca' -> _ |- _ =>
             specialize (H a eq_refl); congruence || (specialize (H Eca); congruence)
         end).
Qed.

(** X7 at [bad_mode_cfg] and [bad_version_cfg] under [ssl_strict]: the
    setter and the constructor raise, and no context is returned. *)
Lemma create_ssl_context_rejects_bad_values :
  create_ssl_context ssl_strict bad_mode_cfg = inr VerifyModeError
  /\ create_ssl_context ssl_strict bad_version_cfg = inr ProtocolError.
Proof.
  split.
  - apply (create_ssl_context_first_failure ssl_strict bad_mode_cfg). repeat split.
  - apply (create_ssl_context_first_failure ssl_strict bad_version_cfg). reflexivity.
Defined.

(** ** [create_servers] from the first socket to the last *)

Module CreateFacts.

Section WithBase.

Variable G : BaseHandlers.

Lemma asyncio_started (rest : list Socket) (srvs : list Server) (l : UvicornWorker.Loop)
      (sock : Socket) (ssl : option SSLContext) :
  UvicornWorker.stopped l = false ->
  UvicornWorker.create_pc l = UvicornWorker.CreateAwait sock rest ssl ->
  List.length srvs = S (List.length rest) ->
  UvicornWorker.steps G l (started srvs)
  = UvicornWorker.mkLoop
      (UvicornWorker.set_servers
         (UvicornWorker.servers (UvicornWorker.worker l)
            ++ map (fun srv => (srv, state0)) srvs) (UvicornWorker.worker l))
      (UvicornWorker.os_ppid l) UvicornWorker.CreateReturned (UvicornWorker.tick_pc l)
      (UvicornWorker.trace l ++ map (fun k => CreateServer k ssl) rest).
Proof.
  revert srvs l sock.
  induction rest as [| k rest IH]; intros [| srv srvs] l sock Hst Hpc Hlen;
    try discriminate Hlen.
  - destruct srvs; [| discriminate Hlen].
    cbn [started map]. rewrite LoopFacts.steps_cons.
    unfold UvicornWorker.step. rewrite Hst, Hpc. reflexivity.
  - cbn [started map]. fold (started srvs). rewrite LoopFacts.steps_cons.
    assert (Hstep : UvicornWorker.step G l (EvCreated (inl srv))
                    = UvicornWorker.mkLoop
                        (UvicornWorker.set_servers
                           (UvicornWorker.servers (UvicornWorker.worker l)
                              ++ [(srv, state0)]) (UvicornWorker.worker l))
                        (UvicornWorker.os_ppid l)
                        (UvicornWorker.CreateAwait k rest ssl)
                        (UvicornWorker.tick_pc l)
                        (UvicornWorker.trace l ++ [CreateServer k ssl]))
      by (unfold UvicornWorker.step; rewrite Hst, Hpc; reflexivity).
    rewrite Hstep.
    rewrite (IH srvs _ k); [| exact Hst | reflexivity | now injection Hlen].
    cbn [UvicornWorker.worker UvicornWorker.os_ppid UvicornWorker.tick_pc
         UvicornWorker.trace UvicornWorker.set_servers UvicornWorker.servers
         UvicornWorker.base UvicornWorker.exit_code].
    rewrite <- !app_assoc. reflexivity.
Qed.

Lemma trio_started (rest : list Socket) (srvs : list Server) (r : UvicornTrioWorker.Run)
      (sock : Socket) (ssl : option SSLContext) :
  UvicornTrioWorker.main_pc r = UvicornTrioWorker.MainCreating sock rest ssl ->
  List.length srvs = S (List.length rest) ->
  UvicornTrioWorker.steps G r (started srvs)
  = UvicornTrioWorker.mkRun
      (UvicornTrioWorker.set_servers
         (UvicornTrioWorker.servers (UvicornTrioWorker.worker r)
            ++ map (fun srv => (srv, state0)) srvs) (UvicornTrioWorker.worker r))
      (UvicornTrioWorker.os_ppid r)
      (fst (UvicornTrioWorker.wait_killed (UvicornTrioWorker.worker r)))
      (UvicornTrioWorker.trace r ++ map (fun k => CreateServer k ssl) rest
         ++ snd (UvicornTrioWorker.wait_killed (UvicornTrioWorker.worker r))).
Proof.
  revert srvs r sock.
  induction rest as [| k rest IH]; intros [| srv srvs] r sock Hpc Hlen;
    try discriminate Hlen.
  - destruct srvs; [| discriminate Hlen].
    cbn [started map]. rewrite TrioFacts.trio_steps_cons.
    unfold UvicornTrioWorker.step, UvicornTrioWorker.finished. rewrite Hpc.
    cbn [UvicornTrioWorker.create_resume UvicornTrioWorker.create_next].
    unfold UvicornTrioWorker.wait_killed.
    cbn [UvicornTrioWorker.killed UvicornTrioWorker.set_servers].
    destruct (UvicornTrioWorker.killed (UvicornTrioWorker.worker r)); reflexivity.
  - cbn [started map]. fold (started srvs). rewrite TrioFacts.trio_steps_cons.
    assert (Hstep : UvicornTrioWorker.step G r (EvCreated (inl srv))
                    = UvicornTrioWorker.mkRun
                        (UvicornTrioWorker.set_servers
                           (UvicornTrioWorker.servers (UvicornTrioWorker.worker r)
                              ++ [(srv, state0)]) (UvicornTrioWorker.worker r))
                        (UvicornTrioWorker.os_ppid r)
                        (UvicornTrioWorker.MainCreating k rest ssl)
                        (UvicornTrioWorker.trace r ++ [CreateServer k ssl]))
      by (unfold UvicornTrioWorker.step, UvicornTrioWorker.finished;
          rewrite Hpc; reflexivity).
    rewrite Hstep.
    rewrite (IH srvs _ k); [| reflexivity | now injection Hlen].
    cbn [UvicornTrioWorker.worker UvicornTrioWorker.os_ppid UvicornTrioWorker.trace
         UvicornTrioWorker.set_servers UvicornTrioWorker.servers
         UvicornTrioWorker.base UvicornTrioWorker.exit_code
         UvicornTrioWorker.killed UvicornTrioWorker.wait_killed].
    rewrite <- !app_assoc. reflexivity.
Qed.

End WithBase.



End CreateFacts.

(** ** A TLS context that cannot be built *)

Module TlsFailure.

Section WithBase.

Variable G : BaseHandlers.

Lemma step_no_listener (l : UvicornWorker.Loop) (ev : Event) (e : Exn) :
  UvicornWorker.create_pc l = UvicornWorker.CreateRaised e ->
  UvicornWorker.servers (UvicornWorker.worker l) = [] ->
  filter is_create (UvicornWorker.trace l) = [] ->
  UvicornWorker.servers (UvicornWorker.worker (UvicornWorker.step G l ev)) = []
  /\ filter is_create (UvicornWorker.trace (UvicornWorker.step G l ev)) = [].
Proof.
  intros Hc Hs Hf. unfold UvicornWorker.step.
  destruct (UvicornWorker.stopped l); [now split |].
  destruct ev as [batch | r | | | i | p]; try now split.
  - pose proof (SignalFacts.deliver_servers G batch (UvicornWorker.worker l)) as H1.
    pose proof (StartFacts.deliver_no_create G batch (UvicornWorker.worker l)) as H2.
    destruct (UvicornWorker.deliver G batch (UvicornWorker.worker l)) as [w es].
    cbn [fst snd] in H1, H2. cbn [UvicornWorker.worker UvicornWorker.trace].
    rewrite filter_app, Hf, H2, H1. now split.
  - rewrite Hc. now split.
  - destruct (UvicornWorker.tick_pc l) as [c | i |]; try now split.
    destruct (StartFacts.tick_resume_no_create l c) as [_ [es [Ht Hes]]].
    rewrite Ht, filter_app, Hf, Hes. split; [| reflexivity].
    destruct (AliveFacts.tick_resume_worker l c) as [-> | ->]; exact Hs.
  - destruct (UvicornWorker.tick_pc l) as [c | i |]; try now split.
    pose proof (HealthCheck.drain_next_filter is_create
                  (fun _ => eq_refl) (fun _ => eq_refl) eq_refl
                  (UvicornWorker.worker l) (S i)) as H.
    destruct (UvicornWorker.drain_next (UvicornWorker.worker l) (S i)) as [pc es].
    cbn [snd] in H. cbn [UvicornWorker.worker UvicornWorker.trace].
    rewrite filter_app, Hf, H. now split.
  - cbn [UvicornWorker.worker UvicornWorker.trace UvicornWorker.set_servers
         UvicornWorker.servers].
    rewrite Hs. destruct i; now split.
Qed.

End WithBase.

(** X9.  When [cfg.is_ssl] holds and the TLS context cannot be built,
    whichever of the calls of [create_ssl_context] raises (the constructor,
    [load_cert_chain], the [verify_mode] setter, [load_verify_locations] or
    [set_ciphers]), [create_servers] raises before its loop: in no run is
    any listener started or registered in [self.servers].  UvicornWorker keeps its loop
    and its health check running without listeners (the exception stays in
    the task); in UvicornTrioWorker the exception ends [main] at once and
    [sys.exit] is not reached. *)
Theorem tls_failure_starts_no_listener
        (G : BaseHandlers) (env : SslEnv) (x : Base) (parent : Z) (evs : list Event)
        (e : Exn) :
  ssl_ctx_of env (cfg x) = inr e ->
  (UvicornWorker.create_pc (UvicornWorker.run G env x parent evs)
   = UvicornWorker.CreateRaised e
   /\ UvicornWorker.servers (UvicornWorker.worker (UvicornWorker.run G env x parent evs))
      = []
   /\ filter is_create (UvicornWorker.trace (UvicornWorker.run G env x parent evs)) = [])
  /\ (UvicornTrioWorker.main_pc (UvicornTrioWorker.run G env x parent evs)
      = UvicornTrioWorker.MainRaised e
      /\ UvicornTrioWorker.servers
           (UvicornTrioWorker.worker (UvicornTrioWorker.run G env x parent evs)) = []
      /\ UvicornTrioWorker.trace (UvicornTrioWorker.run G env x parent evs) = []
      /\ UvicornTrioWorker.exit_status (UvicornTrioWorker.run G env x parent evs) = None).
Proof.
  intros Hssl. split.
  - assert (Hb : UvicornWorker.create_pc (UvicornWorker.run_begin env x parent)
                 = UvicornWorker.CreateRaised e
                 /\ UvicornWorker.servers
                      (UvicornWorker.worker (UvicornWorker.run_begin env x parent)) = []
                 /\ filter is_create
                      (UvicornWorker.trace (UvicornWorker.run_begin env x parent)) = []
                 /\ UvicornWorker.tick_pc (UvicornWorker.run_begin env x parent)
                    = UvicornWorker.TickSleeping 0).
    { unfold UvicornWorker.run_begin, UvicornWorker.create_servers.
      cbn [UvicornWorker.init UvicornWorker.base]. rewrite Hssl. repeat split. }
    destruct Hb as [Hc [Hs [Hf Hpc]]].
    assert (H0 : UvicornWorker.create_pc (UvicornWorker.run_start env x parent)
                 = UvicornWorker.CreateRaised e
                 /\ UvicornWorker.servers
                      (UvicornWorker.worker (UvicornWorker.run_start env x parent)) = []
                 /\ filter is_create
                      (UvicornWorker.trace (UvicornWorker.run_start env x parent)) = []).
    { unfold UvicornWorker.run_start.
      rewrite <- (AsyncioLive.step_timer G _ 0 Hpc).
      split; [now apply StartClaims.step_keeps_raised |].
      now apply (step_no_listener G _ EvTimer e). }
    unfold UvicornWorker.run. revert H0.
    generalize (UvicornWorker.run_start env x parent).
    induction evs as [| ev evs IH]; intros l [Hc' [Hs' Hf']]; [now repeat split |].
    rewrite LoopFacts.steps_cons. apply IH.
    split; [now apply StartClaims.step_keeps_raised |].
    now apply (step_no_listener G l ev e).
  - assert (H0 : UvicornTrioWorker.run_start env x parent
                 = UvicornTrioWorker.mkRun (UvicornTrioWorker.init x) parent
                                           (UvicornTrioWorker.MainRaised e) []).
    { unfold UvicornTrioWorker.run_start, UvicornTrioWorker.create_servers.
      cbn [UvicornTrioWorker.init UvicornTrioWorker.base]. now rewrite Hssl. }
    unfold UvicornTrioWorker.run.
    rewrite (TrioFacts.steps_finished G evs) by (rewrite H0; reflexivity).
    rewrite H0. repeat split.
Qed.

(** X9 at [bad_mode_cfg] under [ssl_strict], where the [verify_mode]
    setter raises for [cert_reqs = 7]: after the events of two listeners
    starting, UvicornWorker has no listener and has started none, and
    UvicornTrioWorker has left [main] by the exception without an exit
    status. *)
Lemma tls_failure_example :
  (UvicornWorker.create_pc
     (UvicornWorker.run gunicorn_handlers ssl_strict base_bad_mode 100
        [EvCreated (inl 40%nat); EvTimer; EvCreated (inl 41%nat)])
   = UvicornWorker.CreateRaised VerifyModeError
   /\ UvicornWorker.servers
        (UvicornWorker.worker
           (UvicornWorker.run gunicorn_handlers ssl_strict base_bad_mode 100
              [EvCreated (inl 40%nat); EvTimer; EvCreated (inl 41%nat)]))
      = []
   /\ filter is_create
        (UvicornWorker.trace
           (UvicornWorker.run gunicorn_handlers ssl_strict base_bad_mode 100
              [EvCreated (inl 40%nat); EvTimer; EvCreated (inl 41%nat)]))
      = [])
  /\ (UvicornTrioWorker.main_pc
        (UvicornTrioWorker.run gunicorn_handlers ssl_strict base_bad_mode 100
           [EvCreated (inl 40%nat); EvTimer; EvCreated (inl 41%nat)])
      = UvicornTrioWorker.MainRaised VerifyModeError
      /\ UvicornTrioWorker.servers
           (UvicornTrioWorker.worker
              (UvicornTrioWorker.run gunicorn_handlers ssl_strict base_bad_mode 100
                 [EvCreated (inl 40%nat); EvTimer; EvCreated (inl 41%nat)]))
         = []
      /\ UvicornTrioWorker.trace
           (UvicornTrioWorker.run gunicorn_handlers ssl_strict base_bad_mode 100
              [EvCreated (inl 40%nat); EvTimer; EvCreated (inl 41%nat)])
         = []
      /\ UvicornTrioWorker.exit_status
           (UvicornTrioWorker.run gunicorn_handlers ssl_strict base_bad_mode 100
              [EvCreated (inl 40%nat); EvTimer; EvCreated (inl 41%nat)])
         = None).
Proof.
  apply (tls_failure_starts_no_listener gunicorn_handlers ssl_strict base_bad_mode 100
           [EvCreated (inl 40%nat); EvTimer; EvCreated (inl 41%nat)] VerifyModeError).
  reflexivity.
Defined.

End TlsFailure.

(** ** Shutdown of UvicornTrioWorker *)

Module TrioShutdown.
Import UvicornTrioWorker.

Section WithBase.

Variable G : BaseHandlers.

Lemma step_no_drain (r : Run) (ev : Event) :
  filter is_drain (trace r) = [] -> filter is_drain (trace (step G r ev)) = [].
Proof.
  intros Hd. unfold step.
  destruct (finished r); [exact Hd |].
  destruct ev as [batch | res | | | i | p]; try exact Hd.
  - pose proof (TrioSignals.handle_signals_filter G is_drain batch (worker r)
                  eq_refl eq_refl eq_refl (fun _ => eq_refl)) as Hs.
    destruct (handle_signals G batch (worker r)) as [w es]. cbn [snd] in Hs.
    destruct (main_pc r) as [sock rest ssl | | | e];
      cbn [trace]; try (rewrite filter_app, Hd, Hs; reflexivity).
    unfold wait_killed. destruct (killed w); cbn [trace];
      rewrite !filter_app, Hd, Hs; reflexivity.
  - destruct (main_pc r) as [sock rest ssl | | | e]; try exact Hd.
    destruct res as [server | e]; cbn [create_resume].
    + destruct rest as [| sock' rest]; cbn [create_next].
      * unfold wait_killed. cbn [killed set_servers].
        destruct (killed (worker r)); cbn [trace]; rewrite filter_app, Hd; reflexivity.
      * cbn [trace]. rewrite filter_app, Hd. reflexivity.
    + cbn [trace]. rewrite filter_app, Hd. reflexivity.
Qed.

Lemma run_no_drain (env : SslEnv) (x : Base) (parent : Z) (evs : list Event) :
  filter is_drain (trace (run G env x parent evs)) = [].
Proof.
  unfold run.
  assert (H0 : filter is_drain (trace (run_start env x parent)) = []).
  { unfold run_start, create_servers.
    destruct (ssl_ctx_of env (cfg (base (init x)))) as [ssl | e]; [| reflexivity].
    destruct (sockets (base (init x))); reflexivity. }
  revert H0. generalize (run_start env x parent).
  induction evs as [| ev evs IH]; intros r Hr; [exact Hr |].
  rewrite TrioFacts.trio_steps_cons. apply IH. now apply step_no_drain.
Qed.

End WithBase.

(** X10.  UvicornTrioWorker shuts down by cancelling its nursery and by
    nothing else: in no run does it call [close()] or [wait_closed()] on a
    server of [self.servers], and [nursery.cancel_scope.cancel()] is called
    exactly once, when [main] returns for [sys.exit], and never before. *)
Theorem trio_worker_shuts_down_by_cancellation
        (G : BaseHandlers) (env : SslEnv) (x : Base) (parent : Z) (evs : list Event) :
  filter is_drain (trace (run G env x parent evs)) = []
  /\ filter is_cancel (trace (run G env x parent evs))
     = match exit_status (run G env x parent evs) with
       | Some _ => [CancelScope]
       | None => []
       end.
Proof.
  split; [apply run_no_drain |].
  rewrite TrioSignals.run_cancel. unfold exit_status.
  destruct (main_pc (run G env x parent evs)); reflexivity.
Qed.

End TrioShutdown.

(** ** No way back to serving *)

Module NoRevival.

Section WithBase.

Variable G : BaseHandlers.

Hypothesis exit_keeps_dead :
  forall b, alive b = false -> alive (base_handle_exit G b) = false.
Hypothesis winch_keeps_dead :
  forall b, alive b = false -> alive (base_handle_winch G b) = false.
Hypothesis usr1_keeps_dead :
  forall b, alive b = false -> alive (base_handle_usr1 G b) = false.

Lemma deliver_dead (batch : list Signal) (w : UvicornWorker.Worker) :
  alive (UvicornWorker.base w) = false ->
  alive (UvicornWorker.base (fst (UvicornWorker.deliver G batch w))) = false.
Proof.
  revert w. induction batch as [| s batch IH]; intros w Hw; [exact Hw |].
  cbn [UvicornWorker.deliver].
  assert (H1 : alive (UvicornWorker.base (fst (UvicornWorker.init_signals G s w)))
               = false)
    by (destruct s; cbn; auto).
  destruct (UvicornWorker.init_signals G s w) as [w1 e1]. cbn [fst] in H1.
  pose proof (IH w1 H1) as H2.
  destruct (UvicornWorker.deliver G batch w1) as [w2 e2]. exact H2.
Qed.

Lemma handle_signals_dead (batch : list Signal) (w : UvicornTrioWorker.Worker) :
  alive (UvicornTrioWorker.base w) = false ->
  alive (UvicornTrioWorker.base (fst (UvicornTrioWorker.handle_signals G batch w)))
  = false.
Proof.
  revert w. induction batch as [| s batch IH]; intros w Hw; [exact Hw |].
  cbn [UvicornTrioWorker.handle_signals].
  assert (H1 : alive (UvicornTrioWorker.base (fst (UvicornTrioWorker.signals G s w)))
               = false)
    by (destruct s; cbn; auto).
  destruct (UvicornTrioWorker.signals G s w) as [w1 e1]. cbn [fst] in H1.
  pose proof (IH w1 H1) as H2.
  destruct (UvicornTrioWorker.handle_signals G batch w1) as [w2 e2]. exact H2.
Qed.

Lemma asyncio_step_dead (l : UvicornWorker.Loop) (ev : Event) :
  alive (UvicornWorker.base (UvicornWorker.worker l)) = false ->
  alive (UvicornWorker.base (UvicornWorker.worker (UvicornWorker.step G l ev))) = false.
Proof.
  intros Hw. unfold UvicornWorker.step.
  destruct (UvicornWorker.stopped l); [exact Hw |].
  destruct ev as [batch | r | | | i | p]; try exact Hw.
  - pose proof (deliver_dead batch (UvicornWorker.worker l) Hw) as H.
    destruct (UvicornWorker.deliver G batch (UvicornWorker.worker l)). exact H.
  - destruct (UvicornWorker.create_pc l) as [sock rest ssl | | e]; try exact Hw.
    destruct r as [server | e]; cbn [UvicornWorker.create_resume]; [| exact Hw].
    destruct rest; exact Hw.
  - destruct (UvicornWorker.tick_pc l) as [c | i |]; try exact Hw.
    destruct (AliveFacts.tick_resume_worker l c) as [-> | ->]; [exact Hw | reflexivity].
  - destruct (UvicornWorker.tick_pc l) as [c | i |]; try exact Hw.
    destruct (UvicornWorker.drain_next (UvicornWorker.worker l) (S i)). exact Hw.
Qed.

Lemma trio_step_dead (r : UvicornTrioWorker.Run) (ev : Event) :
  alive (UvicornTrioWorker.base (UvicornTrioWorker.worker r)) = false ->
  alive (UvicornTrioWorker.base
           (UvicornTrioWorker.worker (UvicornTrioWorker.step G r ev))) = false.
Proof.
  intros Hw. unfold UvicornTrioWorker.step.
  destruct (UvicornTrioWorker.finished r); [exact Hw |].
  destruct ev as [batch | res | | | i | p]; try exact Hw.
  - pose proof (handle_signals_dead batch (UvicornTrioWorker.worker r) Hw) as H.
    destruct (UvicornTrioWorker.handle_signals G batch (UvicornTrioWorker.worker r))
      as [w es]. cbn [fst] in H.
    destruct (UvicornTrioWorker.main_pc r); try exact H.
    destruct (UvicornTrioWorker.wait_killed w). exact H.
  - destruct (UvicornTrioWorker.main_pc r) as [sock rest ssl | | | e]; try exact Hw.
    destruct res as [server | e]; cbn [UvicornTrioWorker.create_resume]; [| exact Hw].
    destruct rest as [| sock' rest]; cbn [UvicornTrioWorker.create_next]; [| exact Hw].
    destruct (UvicornTrioWorker.wait_killed _). exact Hw.
Qed.

Lemma steps_dead (evs : list Event) :
  (forall l : UvicornWorker.Loop,
      alive (UvicornWorker.base (UvicornWorker.worker l)) = false ->
      alive (UvicornWorker.base (UvicornWorker.worker (UvicornWorker.steps G l evs)))
      = false)
  /\ (forall r : UvicornTrioWorker.Run,
         alive (UvicornTrioWorker.base (UvicornTrioWorker.worker r)) = false ->
         alive (UvicornTrioWorker.base
                  (UvicornTrioWorker.worker (UvicornTrioWorker.steps G r evs)))
         = false).
Proof.
  induction evs as [| ev evs [IH1 IH2]]; [now split |].
  split.
  - intros l Hl. rewrite LoopFacts.steps_cons. apply IH1. now apply asyncio_step_dead.
  - intros r Hr. rewrite TrioFacts.trio_steps_cons. apply IH2. now apply trio_step_dead.
Qed.

End WithBase.

(** X11.  Nothing in the two classes sets [alive] again.  Provided the
    three inherited handlers do not (those of gunicorn's [Worker] do not),
    a worker whose [alive] is false keeps it false through every further
    signal, timer, listener start and request, in both classes; for
    UvicornWorker this means that no health check runs after a quit, an
    abort, a recycling or an orphan detection. *)
Theorem alive_is_never_set_again (G : BaseHandlers) (evs : list Event) :
  (forall b, alive b = false -> alive (base_handle_exit G b) = false) ->
  (forall b, alive b = false -> alive (base_handle_winch G b) = false) ->
  (forall b, alive b = false -> alive (base_handle_usr1 G b) = false) ->
  (forall l : UvicornWorker.Loop,
      alive (UvicornWorker.base (UvicornWorker.worker l)) = false ->
      alive (UvicornWorker.base (UvicornWorker.worker (UvicornWorker.steps G l evs)))
      = false)
  /\ (forall r : UvicornTrioWorker.Run,
         alive (UvicornTrioWorker.base (UvicornTrioWorker.worker r)) = false ->
         alive (UvicornTrioWorker.base
                  (UvicornTrioWorker.worker (UvicornTrioWorker.steps G r evs)))
         = false).
Proof.
  intros H1 H2 H3. now apply steps_dead.
Qed.

(** X11 with the handlers of gunicorn's [Worker], after SIGQUIT: SIGUSR1,
    SIGWINCH, a timer and a request later, [alive] is still false. *)
Lemma alive_stays_false_after_quit :
  alive
    (UvicornWorker.base
       (UvicornWorker.worker
          (UvicornWorker.steps gunicorn_handlers
             (UvicornWorker.run gunicorn_handlers ssl_ok base_one 100
                [EvCreated (inl 40%nat); EvSignals [SIGQUIT]])
             [EvSignals [SIGUSR1; SIGWINCH]; EvTimer; EvRequest 0; EvSignals [SIGTERM]])))
  = false.
Proof.
  apply (proj1 (alive_is_never_set_again gunicorn_handlers
                  [EvSignals [SIGUSR1; SIGWINCH]; EvTimer; EvRequest 0;
                   EvSignals [SIGTERM]]
                  (fun b _ => eq_refl) (fun b H => H) (fun b H => H)));
    reflexivity.
Defined.

End NoRevival.

(** ** When a health check shuts the worker down *)

Module Decision.
Import UvicornWorker.

Lemma max_test_spec (w : Worker) :
  max_test w = false
  <-> max_requests (base w) = 0 \/ req_count (servers w) <= max_requests (base w).
Proof.
  unfold max_test, truthy_int.
  destruct (Z.eqb_spec (max_requests (base w)) 0) as [E | E]; cbn [negb andb].
  - split; [now left | reflexivity].
  - rewrite Z.gtb_ltb. destruct (Z.ltb_spec (max_requests (base w))
                                            (req_count (servers w))) as [L | L].
    + split; [discriminate | intros [H | H]; [contradiction | lia]].
    + split; [now right | reflexivity].
Qed.

Lemma parent_test_spec (parent : Z) (w : Worker) :
  parent_test parent w = false <-> ppid (base w) = parent.
Proof.
  unfold parent_test.
  destruct (Z.eqb_spec (ppid (base w)) parent); cbn [negb];
    split; congruence.
Qed.

(** X12.  A health check of a live worker leaves it alive, and sleeps,
    exactly when the request count is within the limit ([max_requests] 0
    meaning no limit, a count equal to the limit being within it) and the
    parent is the recorded one; otherwise it clears [alive] and starts the
    drain.  It changes nothing else of the worker. *)
Theorem health_check_decision (l : Loop) (c : Z) :
  alive (base (worker l)) = true ->
  (alive (base (worker (tick_resume l c))) = true
   <-> (max_requests (base (worker l)) = 0
        \/ req_count (servers (worker l)) <= max_requests (base (worker l)))
       /\ ppid (base (worker l)) = os_ppid l)
  /\ (alive (base (worker (tick_resume l c))) = true ->
      tick_resume l c
      = mkLoop (worker l) (os_ppid l) (create_pc l) (TickSleeping (next_cycle c))
               (trace l ++ ProtocolTick :: heartbeat (next_cycle c) ++ [Getppid; Sleep 1]))
  /\ (alive (base (worker (tick_resume l c))) = false ->
      worker (tick_resume l c) = set_alive false (worker l)
      /\ tick_pc (tick_resume l c) = fst (drain_next (worker l) 0))
  /\ servers (worker (tick_resume l c)) = servers (worker l)
  /\ exit_code (worker (tick_resume l c)) = exit_code (worker l).
Proof.
  intros Ha.
  destruct (max_test (worker l)) eqn:Hm.
  - rewrite (LoopFacts.tick_resume_max l c Ha Hm). cbn [worker tick_pc].
    split; [| repeat split; discriminate].
    split; [discriminate |].
    intros [H _]. apply max_test_spec in H. congruence.
  - destruct (parent_test (os_ppid l) (worker l)) eqn:Hp.
    + rewrite (LoopFacts.tick_resume_parent l c Ha Hm Hp). cbn [worker tick_pc].
      split; [| repeat split; discriminate].
      split; [discriminate |].
      intros [_ H]. apply parent_test_spec in H. congruence.
    + unfold tick_resume, tick_fuel.
      rewrite (TickFacts.tick_while_sleep _ _ _ _ Ha Hm Hp). cbn [worker tick_pc].
      split.
      * split; [| intros _; exact Ha].
        intros _. split; [now apply max_test_spec | now apply parent_test_spec].
      * repeat split; intros; (reflexivity || congruence).
Qed.

(** X12 at the limit: one request served by a worker with [max_requests]
    1 does not recycle it. *)
Lemma health_check_at_the_limit :
  alive (base (worker
                 (tick_resume
                    (run gunicorn_handlers ssl_ok base_one 100
                         [EvCreated (inl 40%nat); EvRequest 0]) 1)))
  = true.
Proof.
  apply (proj1 (health_check_decision
                  (run gunicorn_handlers ssl_ok base_one 100
                       [EvCreated (inl 40%nat); EvRequest 0]) 1 eq_refl)).
  split; [right; vm_compute; discriminate | reflexivity].
Defined.

Section WithBase.

Variable G : BaseHandlers.

Lemma next_cycle_range (c : Z) : 0 <= next_cycle c < 10.
Proof. unfold next_cycle. apply Z.mod_pos_bound. lia. Qed.

Lemma tick_resume_cycle (l : Loop) (c c' : Z) :
  tick_pc (tick_resume l c) = TickSleeping c' -> 0 <= c' < 10.
Proof.
  destruct (alive (base (worker l))) eqn:Ha.
  - destruct (max_test (worker l) || parent_test (os_ppid l) (worker l)) eqn:Hor.
    + destruct (Claims.tick_shutdown_shape G l c Ha Hor) as [pre [Heq _]].
      rewrite Heq. cbn [tick_pc]. unfold drain_next.
      destruct (nth_error (servers (worker l)) 0) as [[srv st] |]; discriminate.
    + apply orb_false_elim in Hor. destruct Hor as [Hm Hp].
      unfold tick_resume, tick_fuel.
      rewrite (TickFacts.tick_while_sleep _ _ _ _ Ha Hm Hp). cbn [tick_pc].
      intros H. injection H as <-. apply next_cycle_range.
  - rewrite (LoopFacts.tick_resume_dead l c Ha). cbn [tick_pc]. unfold drain_next.
    destruct (nth_error (servers (worker l)) 0) as [[srv st] |]; discriminate.
Qed.

Lemma step_cycle (l : Loop) (ev : Event) :
  (forall c, tick_pc l = TickSleeping c -> 0 <= c < 10) ->
  forall c, tick_pc (step G l ev) = TickSleeping c -> 0 <= c < 10.
Proof.
  intros Hl c. unfold step.
  destruct (stopped l); [apply Hl |].
  destruct ev as [batch | r | | | i | p]; try exact (Hl c).
  - destruct (deliver G batch (worker l)). exact (Hl c).
  - destruct (create_pc l) as [sock rest ssl | | e]; try exact (Hl c).
    destruct (create_resume (worker l) rest ssl r) as [[w cpc] es]. exact (Hl c).
  - destruct (tick_pc l) as [c0 | i |] eqn:Hpc;
      try (intros H; rewrite Hpc in H; discriminate H).
    apply tick_resume_cycle.
  - destruct (tick_pc l) as [c0 | i |] eqn:Hpc;
      try (intros H; rewrite Hpc in H; discriminate H).
    + intros H. rewrite Hpc in H. injection H as <-. now apply Hl.
    + unfold drain_next.
      destruct (nth_error (servers (worker l)) (S i)) as [[srv st] |]; discriminate.
Qed.

End WithBase.

(** X13.  The cycle counter of [tick] never leaves 0..9: in every run,
    whenever [tick] sleeps, the counter it holds is in that range, so that
    the heartbeat falls on every tenth health check for the whole life of
    the worker. *)
Theorem cycle_counter_in_range
        (G : BaseHandlers) (env : SslEnv) (x : Base) (parent : Z) (evs : list Event)
        (c : Z) :
  tick_pc (run G env x parent evs) = TickSleeping c -> 0 <= c < 10.
Proof.
  revert c. unfold run.
  assert (H0 : forall c, tick_pc (run_start env x parent) = TickSleeping c ->
                         0 <= c < 10)
    by (intros c; unfold run_start; apply (tick_resume_cycle G)).
  revert H0. generalize (run_start env x parent).
  induction evs as [| ev evs IH]; intros l Hl; [exact Hl |].
  rewrite LoopFacts.steps_cons. apply IH. now apply step_cycle.
Qed.

(** X13 at a worker after 13 sleeps: the counter is in range. *)
Lemma cycle_counter_after_13_sleeps :
  tick_pc (run gunicorn_handlers ssl_ok base_unlimited 100 (repeat EvTimer 13))
  = TickSleeping 4
  /\ 0 <= 4 < 10.
Proof.
  split; [reflexivity |].
  apply (cycle_counter_in_range gunicorn_handlers ssl_ok base_unlimited 100
           (repeat EvTimer 13) 4).
  reflexivity.
Defined.

End Decision.
